(** * ph-switch-mb: the line-based unit-conversion pipeline

    A shallow embedding of [ph_switch_mb/calculator.py] (and of the
    [update_results] wrapper of [ph_switch_mb/app.py]) together with the
    properties of the pipeline.

    Conventions of the embedding.
    - A Python [str] is a [string] of characters, and a character is its
      Unicode code point ([chr] and [ord] are Python's).  The character
      classes below are those of CPython 3.11 (Unicode 14.0.0) on every code
      point.  The string literals of this file are read as UTF-8.
    - A Python [float] is a [spec_float] (sign, binary mantissa and exponent,
      the two infinities and NaN).
    - A call that can raise returns a [result]; the exceptions are the
      instances of [Exception], the class the broadest handler names.
    - The two functions imported from [ph_units] and the builtin [float()]
      are the fields of the class [Backend]. *)

From Stdlib Require Import ZArith NArith List Bool Arith Lia.
From Stdlib Require Import SpecFloat.
From Stdlib.Strings Require Byte.
From Stdlib Require DecimalFacts DecimalPos DecimalN.
Import ListNotations.

(** ** Text *)

Declare Scope char_scope.
Delimit Scope char_scope with char.
Declare Scope string_scope.
Delimit Scope string_scope with string.

(** A character: [chr code] is the character of that code point. *)
Inductive char : Type := chr (code : N).
Bind Scope char_scope with char.

Inductive string : Type :=
| EmptyString
| String (c : char) (s : string).
Bind Scope string_scope with string.

(** The literals: the bytes between the quotes are UTF-8. *)
Module Utf8.

Definition continuation (b : Byte.byte) : option N :=
  let n := Byte.to_N b in
  if (128 <=? n)%N && (n <? 192)%N then Some (n - 128)%N else None.

(** The code points of a byte sequence; [fuel] bounds the number of
    characters. *)
Fixpoint decode (fuel : nat) (bytes : list Byte.byte) : option (list N) :=
  match bytes, fuel with
  | [], _ => Some []
  | _ :: _, O => None
  | b :: rest, S fuel =>
      let n := Byte.to_N b in
      if (n <? 128)%N then option_map (cons n) (decode fuel rest)
      else if (n <? 192)%N then None
      else if (n <? 224)%N then
        match rest with
        | b1 :: rest =>
            match continuation b1 with
            | Some n1 =>
                option_map (cons ((n - 192) * 64 + n1)%N) (decode fuel rest)
            | None => None
            end
        | _ => None
        end
      else if (n <? 240)%N then
        match rest with
        | b1 :: b2 :: rest =>
            match continuation b1, continuation b2 with
            | Some n1, Some n2 =>
                option_map (cons ((n - 224) * 4096 + n1 * 64 + n2)%N)
                  (decode fuel rest)
            | _, _ => None
            end
        | _ => None
        end
      else
        match rest with
        | b1 :: b2 :: b3 :: rest =>
            match continuation b1, continuation b2, continuation b3 with
            | Some n1, Some n2, Some n3 =>
                option_map
                  (cons ((n - 240) * 262144 + n1 * 4096 + n2 * 64 + n3)%N)
                  (decode fuel rest)
            | _, _, _ => None
            end
        | _ => None
        end
  end.

Definition byte (n : N) : Byte.byte :=
  match Byte.of_N n with Some b => b | None => Byte.x00 end.

Definition encode (n : N) : list Byte.byte :=
  if (n <? 128)%N then [byte n]
  else if (n <? 2048)%N then [byte (192 + n / 64); byte (128 + n mod 64)]
  else if (n <? 65536)%N then
    [byte (224 + n / 4096); byte (128 + (n / 64) mod 64); byte (128 + n mod 64)]
  else
    [byte (240 + n / 262144); byte (128 + (n / 4096) mod 64);
     byte (128 + (n / 64) mod 64); byte (128 + n mod 64)].

Definition char_of_bytes (bytes : list Byte.byte) : option char :=
  match decode (List.length bytes) bytes with
  | Some [n] => Some (chr n)
  | _ => None
  end.

Definition bytes_of_char (c : char) : list Byte.byte :=
  match c with chr n => encode n end.

Definition string_of_bytes (bytes : list Byte.byte) : option string :=
  option_map (fold_right (fun n s => String (chr n) s) EmptyString)
    (decode (List.length bytes) bytes).

Fixpoint bytes_of_string (s : string) : list Byte.byte :=
  match s with
  | EmptyString => []
  | String c s' => (bytes_of_char c ++ bytes_of_string s')%list
  end.

End Utf8.

String Notation char Utf8.char_of_bytes Utf8.bytes_of_char : char_scope.
String Notation string Utf8.string_of_bytes Utf8.bytes_of_string : string_scope.

Open Scope string_scope.

Module Char.

Definition eqb (a b : char) : bool :=
  match a, b with chr m, chr n => (m =? n)%N end.

End Char.

Fixpoint append (s1 s2 : string) : string :=
  match s1 with
  | EmptyString => s2
  | String c s1' => String c (append s1' s2)
  end.

Notation "x ++ y" := (append x y) : string_scope.

Fixpoint length (s : string) : nat :=
  match s with
  | EmptyString => O
  | String _ s' => S (length s')
  end.

(** [substring n m s]: the [m] characters of [s] from position [n] on. *)
Fixpoint substring (n m : nat) (s : string) : string :=
  match n, m, s with
  | O, O, _ => EmptyString
  | O, S m', EmptyString => s
  | O, S m', String c s' => String c (substring O m' s')
  | S n', _, EmptyString => s
  | S n', _, String c s' => substring n' m s'
  end.

(** [sep.join(ls)] *)
Fixpoint concat (sep : string) (ls : list string) : string :=
  match ls with
  | [] => EmptyString
  | [x] => x
  | x :: xs => x ++ sep ++ concat sep xs
  end.

Fixpoint list_of_string (s : string) : list char :=
  match s with
  | EmptyString => []
  | String c s' => c :: list_of_string s'
  end.

Fixpoint string_of_list (l : list char) : string :=
  match l with
  | [] => EmptyString
  | c :: l' => String c (string_of_list l')
  end.

(** The decimal digits of a number as text. *)
Fixpoint string_of_uint (d : Decimal.uint) : string :=
  match d with
  | Decimal.Nil => EmptyString
  | Decimal.D0 d => String "0" (string_of_uint d)
  | Decimal.D1 d => String "1" (string_of_uint d)
  | Decimal.D2 d => String "2" (string_of_uint d)
  | Decimal.D3 d => String "3" (string_of_uint d)
  | Decimal.D4 d => String "4" (string_of_uint d)
  | Decimal.D5 d => String "5" (string_of_uint d)
  | Decimal.D6 d => String "6" (string_of_uint d)
  | Decimal.D7 d => String "7" (string_of_uint d)
  | Decimal.D8 d => String "8" (string_of_uint d)
  | Decimal.D9 d => String "9" (string_of_uint d)
  end.

Module String.

Fixpoint eqb (s1 s2 : string) : bool :=
  match s1, s2 with
  | EmptyString, EmptyString => true
  | String c1 s1', String c2 s2' => Char.eqb c1 c2 && eqb s1' s2'
  | _, _ => false
  end.

End String.

(** ** The Unicode character database, as CPython 3.11 reads it

    Each class is the list of its ranges of code points, both ends
    included. *)

Module Unicode.

Definition in_ranges (ranges : list (N * N)) (n : N) : bool :=
  existsb (fun r => (fst r <=? n)%N && (n <=? snd r)%N) ranges.

(** [Py_UNICODE_ISSPACE] *)
Definition space_ranges : list (N * N) :=
  [(9, 13); (28, 32); (133, 133); (160, 160); (5760, 5760); (8192, 8202);
   (8232, 8233); (8239, 8239); (8287, 8287); (12288, 12288)]%N.

(** [Py_UNICODE_ISLINEBREAK] *)
Definition linebreak_ranges : list (N * N) :=
  [(10, 13); (28, 30); (133, 133); (8232, 8233)]%N.

(** [Py_UNICODE_ISALNUM]: alphabetic, decimal, digit or numeric. *)
Definition alnum_ranges : list (N * N) :=
  [(48, 57); (65, 90); (97, 122); (170, 170); (178, 179); (181, 181);
   (185, 186); (188, 190); (192, 214); (216, 246); (248, 705); (710, 721);
   (736, 740); (748, 748); (750, 750); (880, 884); (886, 887); (890, 893);
   (895, 895); (902, 902); (904, 906); (908, 908); (910, 929); (931, 1013);
   (1015, 1153); (1162, 1327); (1329, 1366); (1369, 1369); (1376, 1416);
   (1488, 1514); (1519, 1522); (1568, 1610); (1632, 1641); (1646, 1647);
   (1649, 1747); (1749, 1749); (1765, 1766); (1774, 1788); (1791, 1791);
   (1808, 1808); (1810, 1839); (1869, 1957); (1969, 1969); (1984, 2026);
   (2036, 2037); (2042, 2042); (2048, 2069); (2074, 2074); (2084, 2084);
   (2088, 2088); (2112, 2136); (2144, 2154); (2160, 2183); (2185, 2190);
   (2208, 2249); (2308, 2361); (2365, 2365); (2384, 2384); (2392, 2401);
   (2406, 2415); (2417, 2432); (2437, 2444); (2447, 2448); (2451, 2472);
   (2474, 2480); (2482, 2482); (2486, 2489); (2493, 2493); (2510, 2510);
   (2524, 2525); (2527, 2529); (2534, 2545); (2548, 2553); (2556, 2556);
   (2565, 2570); (2575, 2576); (2579, 2600); (2602, 2608); (2610, 2611);
   (2613, 2614); (2616, 2617); (2649, 2652); (2654, 2654); (2662, 2671);
   (2674, 2676); (2693, 2701); (2703, 2705); (2707, 2728); (2730, 2736);
   (2738, 2739); (2741, 2745); (2749, 2749); (2768, 2768); (2784, 2785);
   (2790, 2799); (2809, 2809); (2821, 2828); (2831, 2832); (2835, 2856);
   (2858, 2864); (2866, 2867); (2869, 2873); (2877, 2877); (2908, 2909);
   (2911, 2913); (2918, 2927); (2929, 2935); (2947, 2947); (2949, 2954);
   (2958, 2960); (2962, 2965); (2969, 2970); (2972, 2972); (2974, 2975);
   (2979, 2980); (2984, 2986); (2990, 3001); (3024, 3024); (3046, 3058);
   (3077, 3084); (3086, 3088); (3090, 3112); (3114, 3129); (3133, 3133);
   (3160, 3162); (3165, 3165); (3168, 3169); (3174, 3183); (3192, 3198);
   (3200, 3200); (3205, 3212); (3214, 3216); (3218, 3240); (3242, 3251);
   (3253, 3257); (3261, 3261); (3293, 3294); (3296, 3297); (3302, 3311);
   (3313, 3314); (3332, 3340); (3342, 3344); (3346, 3386); (3389, 3389);
   (3406, 3406); (3412, 3414); (3416, 3425); (3430, 3448); (3450, 3455);
   (3461, 3478); (3482, 3505); (3507, 3515); (3517, 3517); (3520, 3526);
   (3558, 3567); (3585, 3632); (3634, 3635); (3648, 3654); (3664, 3673);
   (3713, 3714); (3716, 3716); (3718, 3722); (3724, 3747); (3749, 3749);
   (3751, 3760); (3762, 3763); (3773, 3773); (3776, 3780); (3782, 3782);
   (3792, 3801); (3804, 3807); (3840, 3840); (3872, 3891); (3904, 3911);
   (3913, 3948); (3976, 3980); (4096, 4138); (4159, 4169); (4176, 4181);
   (4186, 4189); (4193, 4193); (4197, 4198); (4206, 4208); (4213, 4225);
   (4238, 4238); (4240, 4249); (4256, 4293); (4295, 4295); (4301, 4301);
   (4304, 4346); (4348, 4680); (4682, 4685); (4688, 4694); (4696, 4696);
   (4698, 4701); (4704, 4744); (4746, 4749); (4752, 4784); (4786, 4789);
   (4792, 4798); (4800, 4800); (4802, 4805); (4808, 4822); (4824, 4880);
   (4882, 4885); (4888, 4954); (4969, 4988); (4992, 5007); (5024, 5109);
   (5112, 5117); (5121, 5740); (5743, 5759); (5761, 5786); (5792, 5866);
   (5870, 5880); (5888, 5905); (5919, 5937); (5952, 5969); (5984, 5996);
   (5998, 6000); (6016, 6067); (6103, 6103); (6108, 6108); (6112, 6121);
   (6128, 6137); (6160, 6169); (6176, 6264); (6272, 6276); (6279, 6312);
   (6314, 6314); (6320, 6389); (6400, 6430); (6470, 6509); (6512, 6516);
   (6528, 6571); (6576, 6601); (6608, 6618); (6656, 6678); (6688, 6740);
   (6784, 6793); (6800, 6809); (6823, 6823); (6917, 6963); (6981, 6988);
   (6992, 7001); (7043, 7072); (7086, 7141); (7168, 7203); (7232, 7241);
   (7245, 7293); (7296, 7304); (7312, 7354); (7357, 7359); (7401, 7404);
   (7406, 7411); (7413, 7414); (7418, 7418); (7424, 7615); (7680, 7957);
   (7960, 7965); (7968, 8005); (8008, 8013); (8016, 8023); (8025, 8025);
   (8027, 8027); (8029, 8029); (8031, 8061); (8064, 8116); (8118, 8124);
   (8126, 8126); (8130, 8132); (8134, 8140); (8144, 8147); (8150, 8155);
   (8160, 8172); (8178, 8180); (8182, 8188); (8304, 8305); (8308, 8313);
   (8319, 8329); (8336, 8348); (8450, 8450); (8455, 8455); (8458, 8467);
   (8469, 8469); (8473, 8477); (8484, 8484); (8486, 8486); (8488, 8488);
   (8490, 8493); (8495, 8505); (8508, 8511); (8517, 8521); (8526, 8526);
   (8528, 8585); (9312, 9371); (9450, 9471); (10102, 10131); (11264, 11492);
   (11499, 11502); (11506, 11507); (11517, 11517); (11520, 11557);
   (11559, 11559); (11565, 11565); (11568, 11623); (11631, 11631);
   (11648, 11670); (11680, 11686); (11688, 11694); (11696, 11702);
   (11704, 11710); (11712, 11718); (11720, 11726); (11728, 11734);
   (11736, 11742); (11823, 11823); (12293, 12295); (12321, 12329);
   (12337, 12341); (12344, 12348); (12353, 12438); (12445, 12447);
   (12449, 12538); (12540, 12543); (12549, 12591); (12593, 12686);
   (12690, 12693); (12704, 12735); (12784, 12799); (12832, 12841);
   (12872, 12879); (12881, 12895); (12928, 12937); (12977, 12991);
   (13312, 19903); (19968, 42124); (42192, 42237); (42240, 42508);
   (42512, 42539); (42560, 42606); (42623, 42653); (42656, 42735);
   (42775, 42783); (42786, 42888); (42891, 42954); (42960, 42961);
   (42963, 42963); (42965, 42969); (42994, 43009); (43011, 43013);
   (43015, 43018); (43020, 43042); (43056, 43061); (43072, 43123);
   (43138, 43187); (43216, 43225); (43250, 43255); (43259, 43259);
   (43261, 43262); (43264, 43301); (43312, 43334); (43360, 43388);
   (43396, 43442); (43471, 43481); (43488, 43492); (43494, 43518);
   (43520, 43560); (43584, 43586); (43588, 43595); (43600, 43609);
   (43616, 43638); (43642, 43642); (43646, 43695); (43697, 43697);
   (43701, 43702); (43705, 43709); (43712, 43712); (43714, 43714);
   (43739, 43741); (43744, 43754); (43762, 43764); (43777, 43782);
   (43785, 43790); (43793, 43798); (43808, 43814); (43816, 43822);
   (43824, 43866); (43868, 43881); (43888, 44002); (44016, 44025);
   (44032, 55203); (55216, 55238); (55243, 55291); (63744, 64109);
   (64112, 64217); (64256, 64262); (64275, 64279); (64285, 64285);
   (64287, 64296); (64298, 64310); (64312, 64316); (64318, 64318);
   (64320, 64321); (64323, 64324); (64326, 64433); (64467, 64829);
   (64848, 64911); (64914, 64967); (65008, 65019); (65136, 65140);
   (65142, 65276); (65296, 65305); (65313, 65338); (65345, 65370);
   (65382, 65470); (65474, 65479); (65482, 65487); (65490, 65495);
   (65498, 65500); (65536, 65547); (65549, 65574); (65576, 65594);
   (65596, 65597); (65599, 65613); (65616, 65629); (65664, 65786);
   (65799, 65843); (65856, 65912); (65930, 65931); (66176, 66204);
   (66208, 66256); (66273, 66299); (66304, 66339); (66349, 66378);
   (66384, 66421); (66432, 66461); (66464, 66499); (66504, 66511);
   (66513, 66517); (66560, 66717); (66720, 66729); (66736, 66771);
   (66776, 66811); (66816, 66855); (66864, 66915); (66928, 66938);
   (66940, 66954); (66956, 66962); (66964, 66965); (66967, 66977);
   (66979, 66993); (66995, 67001); (67003, 67004); (67072, 67382);
   (67392, 67413); (67424, 67431); (67456, 67461); (67463, 67504);
   (67506, 67514); (67584, 67589); (67592, 67592); (67594, 67637);
   (67639, 67640); (67644, 67644); (67647, 67669); (67672, 67702);
   (67705, 67742); (67751, 67759); (67808, 67826); (67828, 67829);
   (67835, 67867); (67872, 67897); (67968, 68023); (68028, 68047);
   (68050, 68096); (68112, 68115); (68117, 68119); (68121, 68149);
   (68160, 68168); (68192, 68222); (68224, 68255); (68288, 68295);
   (68297, 68324); (68331, 68335); (68352, 68405); (68416, 68437);
   (68440, 68466); (68472, 68497); (68521, 68527); (68608, 68680);
   (68736, 68786); (68800, 68850); (68858, 68899); (68912, 68921);
   (69216, 69246); (69248, 69289); (69296, 69297); (69376, 69415);
   (69424, 69445); (69457, 69460); (69488, 69505); (69552, 69579);
   (69600, 69622); (69635, 69687); (69714, 69743); (69745, 69746);
   (69749, 69749); (69763, 69807); (69840, 69864); (69872, 69881);
   (69891, 69926); (69942, 69951); (69956, 69956); (69959, 69959);
   (69968, 70002); (70006, 70006); (70019, 70066); (70081, 70084);
   (70096, 70106); (70108, 70108); (70113, 70132); (70144, 70161);
   (70163, 70187); (70272, 70278); (70280, 70280); (70282, 70285);
   (70287, 70301); (70303, 70312); (70320, 70366); (70384, 70393);
   (70405, 70412); (70415, 70416); (70419, 70440); (70442, 70448);
   (70450, 70451); (70453, 70457); (70461, 70461); (70480, 70480);
   (70493, 70497); (70656, 70708); (70727, 70730); (70736, 70745);
   (70751, 70753); (70784, 70831); (70852, 70853); (70855, 70855);
   (70864, 70873); (71040, 71086); (71128, 71131); (71168, 71215);
   (71236, 71236); (71248, 71257); (71296, 71338); (71352, 71352);
   (71360, 71369); (71424, 71450); (71472, 71483); (71488, 71494);
   (71680, 71723); (71840, 71922); (71935, 71942); (71945, 71945);
   (71948, 71955); (71957, 71958); (71960, 71983); (71999, 71999);
   (72001, 72001); (72016, 72025); (72096, 72103); (72106, 72144);
   (72161, 72161); (72163, 72163); (72192, 72192); (72203, 72242);
   (72250, 72250); (72272, 72272); (72284, 72329); (72349, 72349);
   (72368, 72440); (72704, 72712); (72714, 72750); (72768, 72768);
   (72784, 72812); (72818, 72847); (72960, 72966); (72968, 72969);
   (72971, 73008); (73030, 73030); (73040, 73049); (73056, 73061);
   (73063, 73064); (73066, 73097); (73112, 73112); (73120, 73129);
   (73440, 73458); (73648, 73648); (73664, 73684); (73728, 74649);
   (74752, 74862); (74880, 75075); (77712, 77808); (77824, 78894);
   (82944, 83526); (92160, 92728); (92736, 92766); (92768, 92777);
   (92784, 92862); (92864, 92873); (92880, 92909); (92928, 92975);
   (92992, 92995); (93008, 93017); (93019, 93025); (93027, 93047);
   (93053, 93071); (93760, 93846); (93952, 94026); (94032, 94032);
   (94099, 94111); (94176, 94177); (94179, 94179); (94208, 100343);
   (100352, 101589); (101632, 101640); (110576, 110579); (110581, 110587);
   (110589, 110590); (110592, 110882); (110928, 110930); (110948, 110951);
   (110960, 111355); (113664, 113770); (113776, 113788); (113792, 113800);
   (113808, 113817); (119520, 119539); (119648, 119672); (119808, 119892);
   (119894, 119964); (119966, 119967); (119970, 119970); (119973, 119974);
   (119977, 119980); (119982, 119993); (119995, 119995); (119997, 120003);
   (120005, 120069); (120071, 120074); (120077, 120084); (120086, 120092);
   (120094, 120121); (120123, 120126); (120128, 120132); (120134, 120134);
   (120138, 120144); (120146, 120485); (120488, 120512); (120514, 120538);
   (120540, 120570); (120572, 120596); (120598, 120628); (120630, 120654);
   (120656, 120686); (120688, 120712); (120714, 120744); (120746, 120770);
   (120772, 120779); (120782, 120831); (122624, 122654); (123136, 123180);
   (123191, 123197); (123200, 123209); (123214, 123214); (123536, 123565);
   (123584, 123627); (123632, 123641); (124896, 124902); (124904, 124907);
   (124909, 124910); (124912, 124926); (124928, 125124); (125127, 125135);
   (125184, 125251); (125259, 125259); (125264, 125273); (126065, 126123);
   (126125, 126127); (126129, 126132); (126209, 126253); (126255, 126269);
   (126464, 126467); (126469, 126495); (126497, 126498); (126500, 126500);
   (126503, 126503); (126505, 126514); (126516, 126519); (126521, 126521);
   (126523, 126523); (126530, 126530); (126535, 126535); (126537, 126537);
   (126539, 126539); (126541, 126543); (126545, 126546); (126548, 126548);
   (126551, 126551); (126553, 126553); (126555, 126555); (126557, 126557);
   (126559, 126559); (126561, 126562); (126564, 126564); (126567, 126570);
   (126572, 126578); (126580, 126583); (126585, 126588); (126590, 126590);
   (126592, 126601); (126603, 126619); (126625, 126627); (126629, 126633);
   (126635, 126651); (127232, 127244); (130032, 130041); (131072, 173791);
   (173824, 177976); (177984, 178205); (178208, 183969); (183984, 191456);
   (194560, 195101); (196608, 201546)]%N.

(** [_sre.unicode_iscased]: the lower or the upper case of the character is
    another character. *)
Definition cased_ranges : list (N * N) :=
  [(65, 90); (97, 122); (181, 181); (192, 214); (216, 246); (248, 311);
   (313, 396); (398, 410); (412, 425); (428, 441); (444, 445); (447, 447);
   (452, 544); (546, 563); (570, 596); (598, 599); (601, 601); (603, 604);
   (608, 609); (611, 611); (613, 614); (616, 620); (623, 623); (625, 626);
   (629, 629); (637, 637); (640, 640); (642, 643); (647, 652); (658, 658);
   (669, 670); (837, 837); (880, 883); (886, 887); (891, 893); (895, 895);
   (902, 902); (904, 906); (908, 908); (910, 929); (931, 977); (981, 1013);
   (1015, 1019); (1021, 1153); (1162, 1327); (1329, 1366); (1377, 1415);
   (4256, 4293); (4295, 4295); (4301, 4301); (4304, 4346); (4349, 4351);
   (5024, 5109); (5112, 5117); (7296, 7304); (7312, 7354); (7357, 7359);
   (7545, 7545); (7549, 7549); (7566, 7566); (7680, 7835); (7838, 7838);
   (7840, 7957); (7960, 7965); (7968, 8005); (8008, 8013); (8016, 8023);
   (8025, 8025); (8027, 8027); (8029, 8029); (8031, 8061); (8064, 8116);
   (8118, 8124); (8126, 8126); (8130, 8132); (8134, 8140); (8144, 8147);
   (8150, 8155); (8160, 8172); (8178, 8180); (8182, 8188); (8486, 8486);
   (8490, 8491); (8498, 8498); (8526, 8526); (8544, 8575); (8579, 8580);
   (9398, 9449); (11264, 11376); (11378, 11379); (11381, 11382);
   (11390, 11491); (11499, 11502); (11506, 11507); (11520, 11557);
   (11559, 11559); (11565, 11565); (42560, 42605); (42624, 42651);
   (42786, 42799); (42802, 42863); (42873, 42887); (42891, 42893);
   (42896, 42900); (42902, 42926); (42928, 42954); (42960, 42961);
   (42966, 42969); (42997, 42998); (43859, 43859); (43888, 43967);
   (64256, 64262); (64275, 64279); (65313, 65338); (65345, 65370);
   (66560, 66639); (66736, 66771); (66776, 66811); (66928, 66938);
   (66940, 66954); (66956, 66962); (66964, 66965); (66967, 66977);
   (66979, 66993); (66995, 67001); (67003, 67004); (68736, 68786);
   (68800, 68850); (71840, 71903); (93760, 93823); (125184, 125251)]%N.

(** [_sre.unicode_tolower], the simple lower-case mapping: the code points
    [lo], [lo + step], ..., [hi] of a run [(lo, hi, step, target)] map to
    [target], [target + step], ... *)
Definition lower_runs : list (N * N * N * N) :=
  [(65, 90, 1, 97); (192, 214, 1, 224); (216, 222, 1, 248);
   (256, 302, 2, 257); (304, 304, 1, 105); (306, 310, 2, 307);
   (313, 327, 2, 314); (330, 374, 2, 331); (376, 376, 1, 255);
   (377, 381, 2, 378); (385, 385, 1, 595); (386, 388, 2, 387);
   (390, 390, 1, 596); (391, 391, 1, 392); (393, 394, 1, 598);
   (395, 395, 1, 396); (398, 398, 1, 477); (399, 399, 1, 601);
   (400, 400, 1, 603); (401, 401, 1, 402); (403, 403, 1, 608);
   (404, 404, 1, 611); (406, 406, 1, 617); (407, 407, 1, 616);
   (408, 408, 1, 409); (412, 412, 1, 623); (413, 413, 1, 626);
   (415, 415, 1, 629); (416, 420, 2, 417); (422, 422, 1, 640);
   (423, 423, 1, 424); (425, 425, 1, 643); (428, 428, 1, 429);
   (430, 430, 1, 648); (431, 431, 1, 432); (433, 434, 1, 650);
   (435, 437, 2, 436); (439, 439, 1, 658); (440, 440, 1, 441);
   (444, 444, 1, 445); (452, 452, 1, 454); (453, 453, 1, 454);
   (455, 455, 1, 457); (456, 456, 1, 457); (458, 458, 1, 460);
   (459, 475, 2, 460); (478, 494, 2, 479); (497, 497, 1, 499);
   (498, 500, 2, 499); (502, 502, 1, 405); (503, 503, 1, 447);
   (504, 542, 2, 505); (544, 544, 1, 414); (546, 562, 2, 547);
   (570, 570, 1, 11365); (571, 571, 1, 572); (573, 573, 1, 410);
   (574, 574, 1, 11366); (577, 577, 1, 578); (579, 579, 1, 384);
   (580, 580, 1, 649); (581, 581, 1, 652); (582, 590, 2, 583);
   (880, 882, 2, 881); (886, 886, 1, 887); (895, 895, 1, 1011);
   (902, 902, 1, 940); (904, 906, 1, 941); (908, 908, 1, 972);
   (910, 911, 1, 973); (913, 929, 1, 945); (931, 939, 1, 963);
   (975, 975, 1, 983); (984, 1006, 2, 985); (1012, 1012, 1, 952);
   (1015, 1015, 1, 1016); (1017, 1017, 1, 1010); (1018, 1018, 1, 1019);
   (1021, 1023, 1, 891); (1024, 1039, 1, 1104); (1040, 1071, 1, 1072);
   (1120, 1152, 2, 1121); (1162, 1214, 2, 1163); (1216, 1216, 1, 1231);
   (1217, 1229, 2, 1218); (1232, 1326, 2, 1233); (1329, 1366, 1, 1377);
   (4256, 4293, 1, 11520); (4295, 4295, 1, 11559); (4301, 4301, 1, 11565);
   (5024, 5103, 1, 43888); (5104, 5109, 1, 5112); (7312, 7354, 1, 4304);
   (7357, 7359, 1, 4349); (7680, 7828, 2, 7681); (7838, 7838, 1, 223);
   (7840, 7934, 2, 7841); (7944, 7951, 1, 7936); (7960, 7965, 1, 7952);
   (7976, 7983, 1, 7968); (7992, 7999, 1, 7984); (8008, 8013, 1, 8000);
   (8025, 8031, 2, 8017); (8040, 8047, 1, 8032); (8072, 8079, 1, 8064);
   (8088, 8095, 1, 8080); (8104, 8111, 1, 8096); (8120, 8121, 1, 8112);
   (8122, 8123, 1, 8048); (8124, 8124, 1, 8115); (8136, 8139, 1, 8050);
   (8140, 8140, 1, 8131); (8152, 8153, 1, 8144); (8154, 8155, 1, 8054);
   (8168, 8169, 1, 8160); (8170, 8171, 1, 8058); (8172, 8172, 1, 8165);
   (8184, 8185, 1, 8056); (8186, 8187, 1, 8060); (8188, 8188, 1, 8179);
   (8486, 8486, 1, 969); (8490, 8490, 1, 107); (8491, 8491, 1, 229);
   (8498, 8498, 1, 8526); (8544, 8559, 1, 8560); (8579, 8579, 1, 8580);
   (9398, 9423, 1, 9424); (11264, 11311, 1, 11312); (11360, 11360, 1, 11361);
   (11362, 11362, 1, 619); (11363, 11363, 1, 7549); (11364, 11364, 1, 637);
   (11367, 11371, 2, 11368); (11373, 11373, 1, 593); (11374, 11374, 1, 625);
   (11375, 11375, 1, 592); (11376, 11376, 1, 594); (11378, 11378, 1, 11379);
   (11381, 11381, 1, 11382); (11390, 11391, 1, 575); (11392, 11490, 2, 11393);
   (11499, 11501, 2, 11500); (11506, 11506, 1, 11507);
   (42560, 42604, 2, 42561); (42624, 42650, 2, 42625);
   (42786, 42798, 2, 42787); (42802, 42862, 2, 42803);
   (42873, 42875, 2, 42874); (42877, 42877, 1, 7545);
   (42878, 42886, 2, 42879); (42891, 42891, 1, 42892); (42893, 42893, 1, 613);
   (42896, 42898, 2, 42897); (42902, 42920, 2, 42903); (42922, 42922, 1, 614);
   (42923, 42923, 1, 604); (42924, 42924, 1, 609); (42925, 42925, 1, 620);
   (42926, 42926, 1, 618); (42928, 42928, 1, 670); (42929, 42929, 1, 647);
   (42930, 42930, 1, 669); (42931, 42931, 1, 43859); (42932, 42946, 2, 42933);
   (42948, 42948, 1, 42900); (42949, 42949, 1, 642); (42950, 42950, 1, 7566);
   (42951, 42953, 2, 42952); (42960, 42960, 1, 42961);
   (42966, 42968, 2, 42967); (42997, 42997, 1, 42998);
   (65313, 65338, 1, 65345); (66560, 66599, 1, 66600);
   (66736, 66771, 1, 66776); (66928, 66938, 1, 66967);
   (66940, 66954, 1, 66979); (66956, 66962, 1, 66995);
   (66964, 66965, 1, 67003); (68736, 68786, 1, 68800);
   (71840, 71871, 1, 71872); (93760, 93791, 1, 93792);
   (125184, 125217, 1, 125218)]%N.

(** [re._casefix._EXTRA_CASES]: for a lower-case character, the other
    lower-case characters with the same upper case. *)
Definition extra_cases : list (N * list N) :=
  [(105, [305]); (115, [383]); (181, [956]); (305, [105]); (383, [115]);
   (837, [953; 8126]); (912, [8147]); (944, [8163]); (946, [976]);
   (949, [1013]); (952, [977]); (953, [837; 8126]); (954, [1008]);
   (956, [181]); (960, [982]); (961, [1009]); (962, [963]); (963, [962]);
   (966, [981]); (976, [946]); (977, [952]); (981, [966]); (982, [960]);
   (1008, [954]); (1009, [961]); (1013, [949]); (1074, [7296]);
   (1076, [7297]); (1086, [7298]); (1089, [7299]); (1090, [7300; 7301]);
   (1098, [7302]); (1123, [7303]); (7296, [1074]); (7297, [1076]);
   (7298, [1086]); (7299, [1089]); (7300, [1090; 7301]); (7301, [1090; 7300]);
   (7302, [1098]); (7303, [1123]); (7304, [42571]); (7777, [7835]);
   (7835, [7777]); (8126, [837; 953]); (8147, [912]); (8163, [944]);
   (42571, [7304]); (64261, [64262]); (64262, [64261])]%N.

End Unicode.

(** ** Characters and strings, as the Python builtins see them *)

Module PyStr.

Definition ord (c : char) : N := match c with chr code => code end.

Definition between (lo hi : N) (c : char) : bool :=
  (lo <=? ord c)%N && (ord c <=? hi)%N.

(** [str.isspace] on one character: what [str.strip()] removes. *)
Definition isspace (c : char) : bool :=
  Unicode.in_ranges Unicode.space_ranges (ord c).

(** The line boundaries of [str.splitlines]. *)
Definition islinebreak (c : char) : bool :=
  Unicode.in_ranges Unicode.linebreak_ranges (ord c).

(** [str.isalnum] on one character (letters, digits and numerics). *)
Definition isalnum (c : char) : bool :=
  Unicode.in_ranges Unicode.alnum_ranges (ord c).

Definition is_empty (s : string) : bool :=
  match s with EmptyString => true | String _ _ => false end.

Fixpoint lstrip_with (p : char -> bool) (s : string) : string :=
  match s with
  | EmptyString => EmptyString
  | String c s' => if p c then lstrip_with p s' else s
  end.

Fixpoint rstrip_with (p : char -> bool) (s : string) : string :=
  match s with
  | EmptyString => EmptyString
  | String c s' =>
      match rstrip_with p s' with
      | EmptyString => if p c then EmptyString else String c EmptyString
      | String _ _ as r => String c r
      end
  end.

(** [s.strip()] *)
Definition strip (s : string) : string :=
  rstrip_with isspace (lstrip_with isspace s).

Fixpoint contains (chars : string) (c : char) : bool :=
  match chars with
  | EmptyString => false
  | String d chars' => Char.eqb c d || contains chars' c
  end.

(** [s.rstrip(chars)] *)
Definition rstrip (s chars : string) : string :=
  rstrip_with (contains chars) s.

(** [s.endswith(suffix)] *)
Fixpoint endswith (s suffix : string) : bool :=
  String.eqb s suffix
  || match s with
     | EmptyString => false
     | String _ s' => endswith s' suffix
     end.

(** [s[:-1]] *)
Fixpoint drop_last (s : string) : string :=
  match s with
  | EmptyString => EmptyString
  | String c s' =>
      match s' with
      | EmptyString => EmptyString
      | String _ _ => String c (drop_last s')
      end
  end.

(** [s.splitlines()]: [line] is the text read since the last boundary.
    A carriage return directly followed by a line feed is one boundary,
    and no line is produced after the last boundary when the text ends
    there. *)
Fixpoint splitlines_from (line : string) (s : string) : list string :=
  match s with
  | EmptyString => if is_empty line then [] else [line]
  | String c rest =>
      if islinebreak c then
        line ::
          match rest with
          | String d rest' =>
              if Char.eqb c (chr 13) && Char.eqb d (chr 10)
              then splitlines_from "" rest'
              else splitlines_from "" rest
          | EmptyString => []
          end
      else splitlines_from (line ++ String c "") rest
  end.

Definition splitlines (s : string) : list string := splitlines_from "" s.

End PyStr.

(** ** Exceptions *)

(** The exceptions the pipeline raises or meets: [ValueError], the
    [UnitTypeNameNotFound] of [ph_units.converter], and any other instance
    of [Exception]. *)
Inductive exn : Type :=
| ValueError (msg : string)
| UnitTypeNameNotFound (msg : string)
| OtherException (msg : string).

(** The classes named by the [except] clauses. *)
Inductive exn_class : Type :=
| ValueError_class
| UnitTypeNameNotFound_class
| Exception_class.

Definition isinstance (e : exn) (c : exn_class) : bool :=
  match c, e with
  | Exception_class, _ => true
  | ValueError_class, ValueError _ => true
  | UnitTypeNameNotFound_class, UnitTypeNameNotFound _ => true
  | _, _ => false
  end.

Inductive result (A : Type) : Type :=
| Return (a : A)
| Raise (e : exn).
Arguments Return {A} a.
Arguments Raise {A} e.

Definition bind {A B : Type} (r : result A) (k : A -> result B) : result B :=
  match r with
  | Return a => k a
  | Raise e => Raise e
  end.

Notation "x <- r ;; k" := (bind r (fun x => k))
  (at level 61, r at next level, right associativity).
Notation "' p <- r ;; k" := (bind r (fun x => let p := x in k))
  (at level 61, p pattern, r at next level, right associativity).

(** A [try] statement: [handlers] are the [except] clauses in order, each
    with the classes it names; an exception no clause names propagates. *)
Fixpoint handle {A : Type} (handlers : list (list exn_class * (exn -> result A)))
    (e : exn) : result A :=
  match handlers with
  | [] => Raise e
  | (classes, h) :: rest =>
      if existsb (isinstance e) classes then h e else handle rest e
  end.

Definition try_except {A B : Type} (body : result A)
    (handlers : list (list exn_class * (exn -> result B)))
    (orelse : A -> result B) : result B :=
  match body with
  | Return a => orelse a
  | Raise e => handle handlers e
  end.

(** ** Regular expressions: the fragment of [re] the connector pattern uses *)

Module Re.

Inductive regex : Type :=
| Boundary                      (* \b *)
| Literal (text : string)       (* literal characters *)
| Alt (a b : regex)             (* a|b *)
| Seq (a b : regex).            (* ab *)

Record pattern : Type := { expr : regex; ignorecase : bool }.

(** [re.compile(expr, re.IGNORECASE)] *)
Definition compile_ignorecase (r : regex) : pattern :=
  {| expr := r; ignorecase := true |}.

(** \w: alphanumeric or underscore. *)
Definition is_word (c : char) : bool :=
  PyStr.isalnum c || Char.eqb c "_".

(** [_sre.unicode_iscased] and [_sre.unicode_tolower] *)
Definition iscased (c : char) : bool :=
  Unicode.in_ranges Unicode.cased_ranges (PyStr.ord c).

Definition in_run (n : N) (run : N * N * N * N) : bool :=
  let '(lo, hi, step, _) := run in
  (lo <=? n)%N && (n <=? hi)%N && ((n - lo) mod step =? 0)%N.

Definition tolower (c : char) : char :=
  let n := PyStr.ord c in
  match find (in_run n) Unicode.lower_runs with
  | Some (lo, _, _, target) => chr (target + (n - lo))
  | None => c
  end.

(** [_EXTRA_CASES.get(lo, ())] *)
Definition extra_cases (lo : char) : list char :=
  match find (fun entry => (fst entry =? PyStr.ord lo)%N) Unicode.extra_cases with
  | Some (_, others) => map chr others
  | None => []
  end.

Definition is_word_opt (c : option char) : bool :=
  match c with Some c => is_word c | None => false end.

Definition head (s : string) : option char :=
  match s with EmptyString => None | String c _ => Some c end.

(** A literal character [p] of the pattern against the character [c] of
    the subject.  Under IGNORECASE a cased [p] is compiled to its lower case
    together with the extra cases of that, and matches when the lower case
    of [c] is one of them; any other [p] matches itself only. *)
Definition char_matches (ic : bool) (p c : char) : bool :=
  if ic && iscased p then
    let lo := tolower p in
    existsb (Char.eqb (tolower c)) (lo :: extra_cases lo)
  else Char.eqb p c.

(** A position in the subject: the character before it, if any, and the
    text from it on. *)
Definition position : Type := (option char * string)%type.

Fixpoint match_literal (ic : bool) (text : string) (prev : option char)
    (s : string) : option position :=
  match text with
  | EmptyString => Some (prev, s)
  | String p text' =>
      match s with
      | EmptyString => None
      | String c s' =>
          if char_matches ic p c then match_literal ic text' (Some c) s'
          else None
      end
  end.

(** The positions at which a match of [r] starting at [(prev, s)] can end,
    in the order the backtracking matcher tries them. *)
Fixpoint match_here (ic : bool) (r : regex) (prev : option char) (s : string)
    : list position :=
  match r with
  | Boundary =>
      if xorb (is_word_opt prev) (is_word_opt (head s)) then [(prev, s)] else []
  | Literal text =>
      match match_literal ic text prev s with
      | Some p => [p]
      | None => []
      end
  | Alt a b => match_here ic a prev s ++ match_here ic b prev s
  | Seq a b =>
      flat_map (fun p : position => match_here ic b (fst p) (snd p))
               (match_here ic a prev s)
  end.

(** Leftmost match at or after the current position: the text before the
    match (appended to [before]) and the text after it. *)
Fixpoint search_from (p : pattern) (before : string) (prev : option char)
    (s : string) : option (string * string) :=
  match match_here (ignorecase p) (expr p) prev s with
  | (_, after) :: _ => Some (before, after)
  | [] =>
      match s with
      | EmptyString => None
      | String c s' => search_from p (before ++ String c "") (Some c) s'
      end
  end.

(** [p.split(s, maxsplit=1)] for a pattern without groups. *)
Definition split_maxsplit_1 (p : pattern) (s : string) : list string :=
  match search_from p "" None s with
  | Some (before, after) => [before; after]
  | None => [s]
  end.

End Re.

(** ** Floats and their formatting *)

Module PyFloat.

Definition float : Type := spec_float.

(** [math.isnan], [math.isinf] *)
Definition isnan (x : float) : bool :=
  match x with S754_nan => true | _ => false end.

Definition isinf (x : float) : bool :=
  match x with S754_infinity _ => true | _ => false end.

Definition is_finite (x : float) : bool := negb (isnan x || isinf x).

Definition signbit (x : float) : bool :=
  match x with
  | S754_zero s | S754_infinity s | S754_finite s _ _ => s
  | S754_nan => false
  end.

(** Decimal digits of a natural number, most significant first. *)
Definition decimal (n : Z) : string :=
  string_of_uint (N.to_uint (Z.to_N n)).

Fixpoint zeros (n : nat) : string :=
  match n with O => "" | S n' => String "0" (zeros n') end.

(** [n / d] rounded to the nearest integer, ties to the even one. *)
Definition round_half_even (n d : Z) : Z :=
  let q := (n / d)%Z in
  match (2 * (n mod d) ?= d)%Z with
  | Lt => q
  | Gt => (q + 1)%Z
  | Eq => if Z.even q then q else (q + 1)%Z
  end.

(** The correctly rounded decimal digits of |x| to [ndigits] significant
    digits, trailing zeros removed, and the position [decpt] of the decimal
    point: |x| is about 0.d1d2...dn * 10^decpt.  A finite float m * 2^e is
    the exact decimal M * 10^E below. *)
Definition dtoa (ndigits : Z) (x : float) : string * Z :=
  match x with
  | S754_finite _ m e =>
      let M := if (0 <=? e)%Z then (Zpos m * 2 ^ e)%Z else (Zpos m * 5 ^ (- e))%Z in
      let E := Z.min e 0 in
      let D := Z.of_nat (length (decimal M)) in
      let shift := Z.max 0 (D - ndigits) in
      let q := round_half_even M (10 ^ shift) in
      let ds := decimal q in
      (PyStr.rstrip ds "0", (Z.of_nat (length ds) + shift + E)%Z)
  | _ => ("0", 1%Z)
  end.

(** The exponent of the scientific form: a sign and at least two digits. *)
Definition exponent_text (e : Z) : string :=
  let d := decimal (Z.abs e) in
  (if (e <? 0)%Z then "-" else "+") ++ (if (length d <? 2)%nat then "0" ++ d else d).

(** The general format of precision [precision] laid out from the digits:
    the integer digits, the fractional digits and the exponent suffix.
    The scientific form is used when the decimal exponent is below -4 or
    not below the precision. *)
Definition layout_g (precision : Z) (digits : string) (decpt : Z)
    : string * string * string :=
  let len := length digits in
  if (decpt <=? -4)%Z || (precision <? decpt)%Z then
    (substring 0 1 digits, substring 1 (len - 1) digits,
     "e" ++ exponent_text (decpt - 1))
  else if (decpt <=? 0)%Z then
    ("0", zeros (Z.to_nat (- decpt)) ++ digits, "")
  else if (decpt <? Z.of_nat len)%Z then
    (substring 0 (Z.to_nat decpt) digits,
     substring (Z.to_nat decpt) (len - Z.to_nat decpt) digits, "")
  else
    (digits ++ zeros (Z.to_nat decpt - len), "", "").

(** Groups of three digits from the right; [k] digits of the current group
    have been written, least significant digit first. *)
Fixpoint group_rev (k : nat) (rev_digits : list char) : list char :=
  match rev_digits with
  | [] => []
  | c :: rest =>
      if (k =? 3)%nat then ","%char :: c :: group_rev 1 rest
      else c :: group_rev (S k) rest
  end.

Definition insert_thousands (digits : string) : string :=
  string_of_list (rev (group_rev 0 (rev (list_of_string digits)))).

(** A format specification of the form [,][.precision]g, parsed. *)
Record format_spec : Type := { thousands : bool; precision : Z }.

(** [format(x, spec)] for a float and a specification of that form. *)
Definition format (x : float) (spec : format_spec) : string :=
  match x with
  | S754_nan => "nan"
  | S754_infinity s => if s then "-inf" else "inf"
  | _ =>
      let p := if (precision spec =? 0)%Z then 1%Z else precision spec in
      let '(digits, decpt) := dtoa p x in
      let '(int_digits, frac_digits, exponent) := layout_g p digits decpt in
      (if signbit x then "-" else "")
      ++ (if thousands spec then insert_thousands int_digits else int_digits)
      ++ (if PyStr.is_empty frac_digits then "" else "." ++ frac_digits)
      ++ exponent
  end.

End PyFloat.

(** ** What the module calls and does not define *)

Class Backend : Type := {
  (** [ph_units.parser.parse_input]: the value text and the unit, or [None]
      for the unit. *)
  parse_input : string -> result (string * option string);
  (** [ph_units.converter.convert]: the converted value, or [None]. *)
  convert : PyFloat.float -> string -> string -> result (option PyFloat.float);
  (** The builtin [float(text)]. *)
  builtin_float : string -> result PyFloat.float;
  (** The builtin [str(x)] on a finite float. *)
  repr_finite : PyFloat.float -> string
}.

(** [str(x)] for a float. *)
Definition str `{B : Backend} (x : PyFloat.float) : string :=
  match x with
  | S754_nan => "nan"
  | S754_infinity s => if s then "-inf" else "inf"
  | _ => repr_finite x
  end.

(** ** calculator.py *)

Section Calculator.

Context `{B : Backend}.

(** [re.compile(r"\b(?:to|as)\b", re.IGNORECASE)] *)
Definition _CONNECTOR_PATTERN : Re.pattern :=
  Re.compile_ignorecase
    (Re.Seq Re.Boundary
       (Re.Seq (Re.Alt (Re.Literal "to") (Re.Literal "as")) Re.Boundary)).

(** [",.12g"] *)
Definition _FORMAT_SPEC : PyFloat.format_spec :=
  {| PyFloat.thousands := true; PyFloat.precision := 12 |}.

(** The two tests of [not value_text or source_unit is None] raise the same
    error and are made here on the unit first; [float(result)] is the
    identity on a float. *)
Definition _convert_expression (expression : string) : result PyFloat.float :=
  let parts := Re.split_maxsplit_1 _CONNECTOR_PATTERN expression in
  match parts with
  | [source_text; target_text] =>
      let source_text := PyStr.strip source_text in
      let target_text := PyStr.strip target_text in
      if PyStr.is_empty source_text || PyStr.is_empty target_text then
        Raise (ValueError "Incomplete conversion expression")
      else
        '(value_text, source_unit) <- parse_input source_text ;;
        match source_unit with
        | None => Raise (ValueError "Missing value or source unit")
        | Some source_unit =>
            if PyStr.is_empty value_text then
              Raise (ValueError "Missing value or source unit")
            else
              let source_unit := PyStr.rstrip source_unit ".,;" in
              let target_text := PyStr.rstrip target_text ".,;" in
              if PyStr.is_empty source_unit then
                Raise (ValueError "Missing value or source unit")
              else if PyStr.is_empty target_text then
                Raise (ValueError "Conversion target not provided")
              else
                numeric_value <-
                  try_except (builtin_float value_text)
                    [([ValueError_class],
                      fun _ => Raise (ValueError "Invalid numeric value"))]
                    Return ;;
                result <- convert numeric_value source_unit target_text ;;
                match result with
                | None => Raise (ValueError "Conversion yielded no result")
                | Some value => Return value
                end
        end
  | _ => Raise (ValueError "Conversion target not provided")
  end.

Definition _format_value (value : PyFloat.float) : string :=
  if PyFloat.isnan value || PyFloat.isinf value then str value
  else
    let formatted := PyFloat.format value _FORMAT_SPEC in
    if PyStr.endswith formatted "." then PyStr.drop_last formatted
    else formatted.

(** The body of the loop of [render_results]: [outputs] before the line,
    the list after it. *)
Definition render_line (outputs : list string) (line : string)
    : result (list string) :=
  let expression := PyStr.strip line in
  if PyStr.is_empty expression then Return (outputs ++ [""])%list
  else
    try_except (_convert_expression expression)
      [([ValueError_class; UnitTypeNameNotFound_class],
        fun _ => Return (outputs ++ [""])%list);
       ([Exception_class],
        fun _ => Return (outputs ++ [""])%list)]
      (fun value => Return (outputs ++ [_format_value value])%list).

Fixpoint render_loop (lines : list string) (outputs : list string)
    : result (list string) :=
  match lines with
  | [] => Return outputs
  | line :: rest =>
      outputs' <- render_line outputs line ;;
      render_loop rest outputs'
  end.

Definition render_results (lines : list string) : result (list string) :=
  render_loop lines [].

(** ** app.py *)

Definition update_results (text : string) : result (list string) :=
  render_results (PyStr.splitlines text).

End Calculator.

(** ** Vocabulary of the properties *)

(** Every character of [s] satisfies [p]. *)
Fixpoint all_chars (p : char -> bool) (s : string) : bool :=
  match s with
  | EmptyString => true
  | String c s' => p c && all_chars p s'
  end.

(** The last character of [s], or [prev] when [s] is empty. *)
Fixpoint last_char_from (prev : option char) (s : string) : option char :=
  match s with
  | EmptyString => prev
  | String c s' => last_char_from (Some c) s'
  end.

Definition last_char (s : string) : option char := last_char_from None s.

Definition is_space_opt (c : option char) : bool :=
  match c with Some c => PyStr.isspace c | None => false end.

Definition whitespace_only (s : string) : bool := all_chars PyStr.isspace s.

(** The three punctuation marks stripped from the units. *)
Definition is_punctuation (c : char) : bool := PyStr.contains ".,;" c.

Definition punctuation_only (s : string) : bool := all_chars is_punctuation s.

Definition no_linebreak (s : string) : bool :=
  all_chars (fun c => negb (PyStr.islinebreak c)) s.

(** The spellings of "to" and "as" up to case: those of the same upper
    case, "TO" or "AS".  The long s (U+017F) is a lower-case s. *)
Definition connector_spellings : list string :=
  ["to"; "To"; "tO"; "TO"; "as"; "As"; "aS"; "AS"; "aſ"; "Aſ"].

(** [w] is "to" or "as" up to case. *)
Definition is_connector (w : string) : bool :=
  existsb (String.eqb w) connector_spellings.


(** The code points of a range, [count] of them from [lo] on. *)
Fixpoint codes_from (lo : N) (count : nat) : list N :=
  match count with
  | O => []
  | S count' => lo :: codes_from (N.succ lo) count'
  end.

Definition codes_of_ranges (ranges : list (N * N)) : list N :=
  flat_map (fun r => codes_from (fst r) (N.to_nat (N.succ (snd r) - fst r))) ranges.

(** The code points that [tolower] sends to [x], itself apart. *)
Definition lowered_to (x : N) : list N :=
  flat_map
    (fun run : N * N * N * N =>
       let '(lo, _, _, target) := run in
       if (target <=? x)%N && Re.in_run (lo + (x - target)) run
       then [lo + (x - target)]%N else [])
    Unicode.lower_runs.

(** In the text [a ++ w ++ b] read after the character [prev], [w] is a
    connector standing as a whole word: no word character touches it. *)
Definition connector_after (prev : option char) (a w b : string) : Prop :=
  is_connector w = true
  /\ Re.is_word_opt (last_char_from prev a) = false
  /\ Re.is_word_opt (Re.head b) = false.

Definition whole_word_connector (a w b : string) : Prop :=
  connector_after None a w b.

(** [a ++ w ++ b] cuts [s] at its first whole-word connector. *)
Definition first_connector (s a w b : string) : Prop :=
  s = a ++ w ++ b
  /\ whole_word_connector a w b
  /\ forall a' w' b',
       s = a' ++ w' ++ b' -> whole_word_connector a' w' b' ->
       (length a <= length a')%nat.

(** Whether a connector starts right here, and the text after it. *)
Definition connector_here (prev : option char) (s : string) : option string :=
  match s with
  | String c1 (String c2 s') =>
      if negb (Re.is_word_opt prev)
         && is_connector (String c1 (String c2 ""))
         && negb (Re.is_word_opt (Re.head s'))
      then Some s'
      else None
  | _ => None
  end.

(** The output of one line on its own. *)
Definition line_output `{B : Backend} (line : string) : string :=
  match render_results [line] with
  | Return [o] => o
  | _ => ""
  end.

(** A backend whose parser leaves the text [p] at the end of every unit it
    finds. *)
Definition with_unit_suffix (B : Backend) (p : string) : Backend := {|
  parse_input := fun s =>
    '(v, u) <- parse_input s ;; Return (v, option_map (fun u => u ++ p) u);
  convert := convert;
  builtin_float := builtin_float;
  repr_finite := repr_finite
|}.


(** The parts the connector pattern cuts a trimmed line into. *)
Definition split_connector (expression : string) : list string :=
  Re.split_maxsplit_1 _CONNECTOR_PATTERN expression.

Definition raises {A : Type} (r : result A) : Prop := exists e, r = Raise e.

(** The output of a line as a function of its trimmed text. *)
Definition expression_output `{B : Backend} (expression : string) : string :=
  if PyStr.is_empty expression then ""
  else match _convert_expression expression with
       | Return value => _format_value value
       | Raise _ => ""
       end.

Section Failures.

Context `{B : Backend}.

(** The ways the evaluation of a trimmed line fails. *)
Inductive line_failure (expression : string) : Prop :=
| Missing_connector :
    (forall a w b, expression = a ++ w ++ b -> ~ whole_word_connector a w b) ->
    line_failure expression
| Empty_half (source target : string) :
    split_connector expression = [source; target] ->
    PyStr.strip source = "" \/ PyStr.strip target = "" ->
    line_failure expression
| Parser_raises (source target : string) (e : exn) :
    split_connector expression = [source; target] ->
    parse_input (PyStr.strip source) = Raise e ->
    line_failure expression
| Missing_value_or_unit (source target value_text : string)
    (source_unit : option string) :
    split_connector expression = [source; target] ->
    parse_input (PyStr.strip source) = Return (value_text, source_unit) ->
    value_text = "" \/ source_unit = None ->
    line_failure expression
| Empty_after_punctuation (source target value_text source_unit : string) :
    split_connector expression = [source; target] ->
    parse_input (PyStr.strip source) = Return (value_text, Some source_unit) ->
    PyStr.rstrip source_unit ".,;" = ""
    \/ PyStr.rstrip (PyStr.strip target) ".,;" = "" ->
    line_failure expression
| Invalid_numeric_literal (source target value_text source_unit : string)
    (e : exn) :
    split_connector expression = [source; target] ->
    parse_input (PyStr.strip source) = Return (value_text, Some source_unit) ->
    builtin_float value_text = Raise e ->
    line_failure expression
| Absent_result (source target value_text source_unit : string)
    (x : PyFloat.float) :
    split_connector expression = [source; target] ->
    parse_input (PyStr.strip source) = Return (value_text, Some source_unit) ->
    builtin_float value_text = Return x ->
    convert x (PyStr.rstrip source_unit ".,;")
      (PyStr.rstrip (PyStr.strip target) ".,;") = Return None ->
    line_failure expression
| Conversion_raises (source target value_text source_unit : string)
    (x : PyFloat.float) (e : exn) :
    split_connector expression = [source; target] ->
    parse_input (PyStr.strip source) = Return (value_text, Some source_unit) ->
    builtin_float value_text = Return x ->
    convert x (PyStr.rstrip source_unit ".,;")
      (PyStr.rstrip (PyStr.strip target) ".,;") = Raise e ->
    line_failure expression.

End Failures.

Definition not_point (c : char) : bool := negb (Char.eqb c ".").

(** No decimal point occurs in [s]. *)
Definition no_point (s : string) : bool := all_chars not_point s.

(** The line feed and the carriage return. *)
Definition LF : string := String (chr 10) "".
Definition CR : string := String (chr 13) "".

(** ** A small backend to run the pipeline on

    [parse_input] cuts the text at its first space, [builtin_float] reads an
    unsigned decimal integer, and [convert] knows metres and inches; the
    target names "none", "nan", "inf", "-inf" and "crash" make it produce
    each of its other outcomes. *)

Module Demo.

Fixpoint cut_at_space (s : string) : string * option string :=
  match s with
  | EmptyString => ("", None)
  | String c s' =>
      if Char.eqb c " " then ("", Some s')
      else let '(v, u) := cut_at_space s' in (String c v, u)
  end.

Definition float_of_N (n : N) : PyFloat.float :=
  match n with
  | N0 => S754_zero false
  | Npos m => S754_finite false m 0
  end.

Fixpoint uint_of_string (s : string) : option Decimal.uint :=
  match s with
  | EmptyString => Some Decimal.Nil
  | String c s' =>
      match uint_of_string s' with
      | None => None
      | Some d =>
          match PyStr.ord c with
          | 48 => Some (Decimal.D0 d) | 49 => Some (Decimal.D1 d) | 50 => Some (Decimal.D2 d)
          | 51 => Some (Decimal.D3 d) | 52 => Some (Decimal.D4 d) | 53 => Some (Decimal.D5 d)
          | 54 => Some (Decimal.D6 d) | 55 => Some (Decimal.D7 d) | 56 => Some (Decimal.D8 d)
          | 57 => Some (Decimal.D9 d)
          | _ => None
          end%N
      end
  end.

Definition read_float (s : string) : result PyFloat.float :=
  match s, uint_of_string s with
  | String _ _, Some d => Return (float_of_N (N.of_uint d))
  | _, _ => Raise (ValueError "could not convert string to float")
  end.

Definition binary64_mul : PyFloat.float -> PyFloat.float -> PyFloat.float :=
  SFmul 53 1024.

(** 25.4, the millimetres of an inch. *)
Definition mm_per_inch : PyFloat.float := S754_finite false 7149464408450662 (-48).

Definition known_unit (u : string) : bool :=
  String.eqb u "m" || String.eqb u "inches" || String.eqb u "in".

Definition convert_units (v : PyFloat.float) (src tgt : string)
    : result (option PyFloat.float) :=
  if negb (known_unit src) then Raise (UnitTypeNameNotFound src)
  else if String.eqb tgt src then Return (Some v)
  else if String.eqb tgt "mm" && negb (String.eqb src "m") then
    Return (Some (binary64_mul v mm_per_inch))
  else if String.eqb tgt "none" then Return None
  else if String.eqb tgt "nan" then Return (Some S754_nan)
  else if String.eqb tgt "inf" then Return (Some (S754_infinity false))
  else if String.eqb tgt "-inf" then Return (Some (S754_infinity true))
  else if String.eqb tgt "crash" then Raise (OtherException "internal error")
  else Raise (UnitTypeNameNotFound tgt).

Definition backend : Backend := {|
  parse_input := fun s => Return (cut_at_space s);
  convert := convert_units;
  builtin_float := read_float;
  repr_finite := fun x =>
    PyFloat.format x {| PyFloat.thousands := false; PyFloat.precision := 17 |}
|}.

End Demo.

(** ** Further vocabulary *)

(** The evaluation of a trimmed line goes through every stage and the
    converter gives [value]. *)
Definition evaluates_to `{B : Backend} (expression : string)
    (value : PyFloat.float) : Prop :=
  exists source target value_text source_unit x,
    split_connector expression = [source; target]
    /\ PyStr.strip source <> "" /\ PyStr.strip target <> ""
    /\ parse_input (PyStr.strip source) = Return (value_text, Some source_unit)
    /\ value_text <> ""
    /\ PyStr.rstrip source_unit ".,;" <> ""
    /\ PyStr.rstrip (PyStr.strip target) ".,;" <> ""
    /\ builtin_float value_text = Return x
    /\ convert x (PyStr.rstrip source_unit ".,;")
         (PyStr.rstrip (PyStr.strip target) ".,;") = Return (Some value).

(** Where an exception of the evaluation of a line can come from. *)
Definition raised_by_backend `{B : Backend} (e : exn) : Prop :=
  (exists text, parse_input text = Raise e)
  \/ (exists text, builtin_float text = Raise e)
  \/ (exists x source_unit target, convert x source_unit target = Raise e).

Definition is_digit (c : char) : bool := PyStr.between 48 57 c.

(** The characters of an output line: digits, the separators, the signs and
    exponent mark, and the letters of "nan" and "inf". *)
Definition output_char (c : char) : bool :=
  is_digit c || PyStr.contains ",.-+enaif" c.

(** [s.split("\n")], the inverse of joining with a line feed: [cur] is the
    field read so far. *)
Fixpoint split_line_feeds_from (cur : string) (s : string) : list string :=
  match s with
  | EmptyString => [cur]
  | String c s' =>
      if Char.eqb c (chr 10) then cur :: split_line_feeds_from "" s'
      else split_line_feeds_from (cur ++ String c "") s'
  end.

Definition split_line_feeds (s : string) : list string :=
  split_line_feeds_from "" s.

(** The text ends where a line is being read: in a character that is not a
    line boundary, or, when [s] is empty, after the non-empty [line]. *)
Definition ends_in_line (line s : string) : Prop :=
  match last_char s with
  | Some c => PyStr.islinebreak c = false
  | None => line <> ""
  end.

(** A line terminator: after any line read so far it ends that line and
    nothing follows. *)
Definition is_terminator (t : string) : Prop :=
  t = LF \/ t = CR \/ t = CR ++ LF.

(** ** Float comparison and arithmetic *)

Module PyNum.

(** The signed mantissa and the exponent of a finite float; zero is 0 * 2^0. *)
Definition scaled (x : PyFloat.float) : Z * Z :=
  match x with
  | S754_finite s m e => (if s then Zneg m else Zpos m, e)
  | _ => (0%Z, 0%Z)
  end.

(** The order of two floats by their exact values; NaN is unordered and the
    two zeros are equal. *)
Definition compare (x y : PyFloat.float) : option comparison :=
  match x, y with
  | S754_nan, _ | _, S754_nan => None
  | S754_infinity s1, S754_infinity s2 =>
      Some (if Bool.eqb s1 s2 then Eq else if s1 then Lt else Gt)
  | S754_infinity s, _ => Some (if s then Lt else Gt)
  | _, S754_infinity s => Some (if s then Gt else Lt)
  | _, _ =>
      let '(z1, e1) := scaled x in
      let '(z2, e2) := scaled y in
      let e := Z.min e1 e2 in
      Some (z1 * 2 ^ (e1 - e) ?= z2 * 2 ^ (e2 - e))%Z
  end.

(** [x < y] and [x > y] *)
Definition lt (x y : PyFloat.float) : bool :=
  match compare x y with Some Lt => true | _ => false end.

Definition gt (x y : PyFloat.float) : bool := lt y x.

(** [max(a, b)] and [min(a, b)]: the first argument is kept unless the
    second is greater, respectively smaller. *)
Definition max (a b : PyFloat.float) : PyFloat.float := if gt b a then b else a.
Definition min (a b : PyFloat.float) : PyFloat.float := if lt b a then b else a.

(** The binary64 operations. *)
Definition add : PyFloat.float -> PyFloat.float -> PyFloat.float := SFadd 53 1024.
Definition sub : PyFloat.float -> PyFloat.float -> PyFloat.float := SFsub 53 1024.
Definition div : PyFloat.float -> PyFloat.float -> PyFloat.float := SFdiv 53 1024.

Definition two : PyFloat.float := S754_finite false 1 1.

End PyNum.

(** ** app.py: the split view delegate *)

(** [_SplitViewDelegate], made by [initWithRatios_]. *)
Record _SplitViewDelegate : Type := initWithRatios_ {
  _min_left : PyFloat.float;
  _min_right : PyFloat.float
}.

(** An [NSSplitView], as far as the delegate reads it:
    [bounds().size.width]. *)
Record NSSplitView : Type := { bounds_size_width : PyFloat.float }.

Definition splitView_constrainMinCoordinate_ofSubviewAt_
    (self : _SplitViewDelegate) (split_view : NSSplitView)
    (proposed_coordinate : PyFloat.float) (divider_index : Z) : PyFloat.float :=
  if (divider_index =? 0)%Z then PyNum.max proposed_coordinate (_min_left self)
  else proposed_coordinate.

Definition splitView_constrainMaxCoordinate_ofSubviewAt_
    (self : _SplitViewDelegate) (split_view : NSSplitView)
    (proposed_coordinate : PyFloat.float) (divider_index : Z) : PyFloat.float :=
  if (divider_index =? 0)%Z then
    let total_width := bounds_size_width split_view in
    PyNum.min proposed_coordinate (PyNum.sub total_width (_min_right self))
  else proposed_coordinate.

Definition splitView_constrainSplitPosition_ofSubviewAt_
    (self : _SplitViewDelegate) (split_view : NSSplitView)
    (proposed_position : PyFloat.float) (divider_index : Z) : PyFloat.float :=
  if negb (divider_index =? 0)%Z then proposed_position
  else
    let total_width := bounds_size_width split_view in
    let min_position := _min_left self in
    let max_position :=
      PyNum.max min_position (PyNum.sub total_width (_min_right self)) in
    PyNum.min (PyNum.max proposed_position min_position) max_position.

(** ** app.py: the place of the panel *)

Record NSRect : Type := {
  origin_x : PyFloat.float;
  origin_y : PyFloat.float;
  size_width : PyFloat.float;
  size_height : PyFloat.float
}.

(** The origin [_position_panel] gives to [setFrameOrigin_], from the three
    rectangles it reads: the status button on the screen, the frame of the
    panel and the visible frame of the screen. *)
Definition _position_panel (rect_on_screen panel_frame screen_frame : NSRect)
    : PyFloat.float * PyFloat.float :=
  let new_x :=
    PyNum.add (origin_x rect_on_screen)
      (PyNum.div (PyNum.sub (size_width rect_on_screen) (size_width panel_frame))
         PyNum.two) in
  let min_x := origin_x screen_frame in
  let max_x :=
    PyNum.sub (PyNum.add (origin_x screen_frame) (size_width screen_frame))
      (size_width panel_frame) in
  let new_x := PyNum.max min_x (PyNum.min new_x max_x) in
  let new_y := PyNum.sub (origin_y rect_on_screen) (size_height panel_frame) in
  let min_y := origin_y screen_frame in
  let new_y := PyNum.max new_y min_y in
  (new_x, new_y).

(** The left edge the panel would get without the clamping, and the
    greatest left edge that keeps it inside the visible frame. *)
Definition centred_x (rect_on_screen panel_frame : NSRect) : PyFloat.float :=
  PyNum.add (origin_x rect_on_screen)
    (PyNum.div (PyNum.sub (size_width rect_on_screen) (size_width panel_frame))
       PyNum.two).

Definition greatest_x (panel_frame screen_frame : NSRect) : PyFloat.float :=
  PyNum.sub (PyNum.add (origin_x screen_frame) (size_width screen_frame))
    (size_width panel_frame).

(** ** app.py: the two text views *)

(** An [NSTextView] is known by its identity; [strings] gives the string each
    view holds, what [string()] reads and [setString_] writes. *)
Definition NSTextView : Type := nat.

Definition strings : Type := NSTextView -> string.

Definition setString_ (views : strings) (view : NSTextView) (text : string)
    : strings :=
  fun v => if (v =? view)%nat then text else views v.

(** The fields of [ToolbarApp] that the text handling reads. *)
Record ToolbarApp : Type := {
  _text_view : option NSTextView;
  _result_view : option NSTextView
}.

Definition _update_result_from_input `{B : Backend} (self : ToolbarApp)
    (views : strings)
    : result strings :=
  match _text_view self, _result_view self with
  | Some text_view, Some result_view =>
      let lines := PyStr.splitlines (views text_view) in
      outputs <- render_results lines ;;
      Return (setString_ views result_view (concat LF outputs))
  | _, _ => Return views
  end.

(** [text_view is not self._text_view] compares identities. *)
Definition handle_text_change `{B : Backend} (self : ToolbarApp)
    (text_view : NSTextView) (views : strings) : result strings :=
  match _text_view self with
  | Some own => if (text_view =? own)%nat
                then _update_result_from_input self views
                else Return views
  | None => Return views
  end.

(** ** app.py: the menus *)

(** An [NSMenu] is its title and its items in order; an item is a separator
    or has a title, an action, a key equivalent, the modifier mask if the
    code sets one, a target if the code sets one, and a submenu. *)
Inductive NSMenu : Type :=
| Menu (title : string) (itemArray : list NSMenuItem)
with NSMenuItem : Type :=
| separatorItem
| MenuItem (title : string) (action : option string) (keyEquivalent : string)
    (keyEquivalentModifierMask : option string) (target : option nat)
    (submenu : option NSMenu).

Definition itemArray (menu : NSMenu) : list NSMenuItem :=
  match menu with Menu _ items => items end.

Definition item_title (item : NSMenuItem) : string :=
  match item with
  | separatorItem => ""
  | MenuItem title _ _ _ _ _ => title
  end.

(** [menu.itemWithTitle_(title)]: the first item of that title. *)
Definition itemWithTitle_ (menu : NSMenu) (title : string) : option NSMenuItem :=
  find (fun item => String.eqb (item_title item) title) (itemArray menu).

(** [menu.addItem_(item)] *)
Definition addItem_ (menu : NSMenu) (item : NSMenuItem) : NSMenu :=
  match menu with Menu title items => Menu title (items ++ [item]) end.

Definition is_some {A : Type} (o : option A) : bool :=
  match o with Some _ => true | None => false end.

Definition NSEventModifierFlagCommand : string := "NSEventModifierFlagCommand".

(** The main menu of the application after [_ensure_edit_menu], from the
    one before.  The submenu is attached once its items are added; in the
    source it is attached first and filled through the shared object. *)
Definition _ensure_edit_menu (mainMenu : option NSMenu) : option NSMenu :=
  let main_menu :=
    match mainMenu with
    | None => Menu "MainMenu" []
    | Some main_menu => main_menu
    end in
  if is_some (itemWithTitle_ main_menu "Edit") then Some main_menu
  else
    let _add_menu_item (title action key : string) (edit_menu : NSMenu) :=
      addItem_ edit_menu
        (MenuItem title (Some action) key (Some NSEventModifierFlagCommand)
           None None) in
    let edit_menu := Menu "Edit" [] in
    let edit_menu := _add_menu_item "Cut" "cut:" "x" edit_menu in
    let edit_menu := _add_menu_item "Copy" "copy:" "c" edit_menu in
    let edit_menu := _add_menu_item "Paste" "paste:" "v" edit_menu in
    let edit_menu := addItem_ edit_menu separatorItem in
    let edit_menu := _add_menu_item "Select All" "selectAll:" "a" edit_menu in
    let edit_item := MenuItem "Edit" None "" None None (Some edit_menu) in
    Some (addItem_ main_menu edit_item).

(** The main menu after [_ensure_window_menu]; [_panel] is [self._panel]. *)
Definition _ensure_window_menu (_panel : option nat) (mainMenu : option NSMenu)
    : option NSMenu :=
  match mainMenu with
  | None => None
  | Some main_menu =>
      if is_some (itemWithTitle_ main_menu "Window") then Some main_menu
      else
        let window_menu := Menu "Window" [] in
        let close_item :=
          MenuItem "Close Window" (Some "performClose:") "w"
            (Some NSEventModifierFlagCommand) _panel None in
        let window_menu := addItem_ window_menu close_item in
        let window_item := MenuItem "Window" None "" None None (Some window_menu) in
        Some (addItem_ main_menu window_item)
  end.

(** A status button, a panel and a screen to place the panel on. *)
Definition sample_button : NSRect :=
  {| origin_x := S754_finite false 175 2; origin_y := S754_finite false 219 2;
     size_width := S754_finite false 3 3; size_height := S754_finite false 3 3 |}.
Definition sample_panel : NSRect :=
  {| origin_x := S754_zero false; origin_y := S754_zero false;
     size_width := S754_finite false 115 2; size_height := S754_finite false 55 2 |}.
Definition sample_screen : NSRect :=
  {| origin_x := S754_zero false; origin_y := S754_zero false;
     size_width := S754_finite false 45 5; size_height := S754_finite false 219 2 |}.

(** * Properties *)

(** ** The pipeline on examples *)

Example demo_run :
  render_results (B := Demo.backend)
    ["12 inches to mm."; ""; "bad input"; "3 m as m"; "5 m to inf";
     "5 m to none"; "5 m to crash"; "1234567 m TO m;"; "10 kwh"; "10 to ft";
     "10 apples to oranges"; "x m to m"]
  = Return ["304.8"; ""; ""; "3"; "inf"; ""; ""; "1,234,567"; ""; ""; ""; ""].
Proof. vm_compute. reflexivity. Qed.

Example split_examples :
  map (Re.split_maxsplit_1 _CONNECTOR_PATTERN)
    ["5 m to ft"; "5 m TO ft to in"; "toto"; "10to ft"; "to"; "5 m to";
     "as to"; "5 m to_ft"; "5 m.to.ft"; "a tO b"; "12 in aſ mm"; "5 m ſo ft";
     "5 m éto ft";
     "5 m" ++ String (chr 160) "to" ++ String (chr 8195) "ft"]
  = [["5 m "; " ft"]; ["5 m "; " ft to in"]; ["toto"]; ["10to ft"]; [""; ""];
     ["5 m "; ""]; [""; " to"]; ["5 m to_ft"]; ["5 m."; ".ft"]; ["a "; " b"];
     ["12 in "; " mm"]; ["5 m ſo ft"]; ["5 m éto ft"];
     ["5 m" ++ String (chr 160) ""; String (chr 8195) "ft"]].
Proof. vm_compute. reflexivity. Qed.

(** The literals are read as UTF-8: the long s, a CJK ideograph and a
    mathematical digit. *)
Example literal_examples :
  "aſ" = String (chr 97) (String (chr 383) "")
  /\ "中"%char = chr 20013
  /\ "𝟎"%char = chr 120782.
Proof. repeat split. Qed.

(** 5 m in feet, 304.8, 1234567, 1e16, 1e-5, 999999999999.5, the least
    subnormal and the largest double. *)
Example format_examples :
  map (fun x => PyFloat.format x _FORMAT_SPEC)
    [S754_finite false 2308685832600525 (-47);
     S754_finite false 5362098306337997 (-44);
     S754_finite false 1234567 0;
     S754_finite true 152587890625 16;
     S754_finite false 5902958103587057 (-69);
     S754_finite false 1999999999999 (-1);
     S754_finite false 1 (-1074);
     S754_finite false 9007199254740991 971;
     S754_zero true]
  = ["16.4041994751"; "304.8"; "1,234,567"; "-1e+16"; "1e-05"; "1e+12";
     "4.94065645841e-324"; "1.79769313486e+308"; "-0"].
Proof. vm_compute. reflexivity. Qed.

(** ** Strings *)

Lemma char_eqb_eq (a b : char) : Char.eqb a b = true <-> a = b.
Proof.
  destruct a as [m], b as [n]. simpl. rewrite N.eqb_eq.
  split; [now intros -> | now intros [= ->]].
Qed.


Lemma char_eqb_spec (a b : char) : reflect (a = b) (Char.eqb a b).
Proof. apply iff_reflect. symmetry. apply char_eqb_eq. Qed.

Lemma string_eqb_eq (s t : string) : String.eqb s t = true <-> s = t.
Proof.
  revert t. induction s as [|c s IH]; intros [|d t]; simpl;
    try (split; [discriminate | discriminate]); [now split |].
  rewrite andb_true_iff, char_eqb_eq, IH.
  split; [now intros [-> ->] | now intros [= -> ->]].
Qed.

Lemma string_eqb_refl (s : string) : String.eqb s s = true.
Proof. now apply string_eqb_eq. Qed.

Lemma append_empty_r (s : string) : s ++ "" = s.
Proof. induction s as [|c s IH]; simpl; [reflexivity | now rewrite IH]. Qed.

Lemma append_assoc (s t u : string) : (s ++ t) ++ u = s ++ t ++ u.
Proof. induction s as [|c s IH]; simpl; [reflexivity | now rewrite IH]. Qed.

Lemma is_empty_false (s : string) : PyStr.is_empty s = false <-> s <> "".
Proof. destruct s; simpl; split; intro H; congruence. Qed.

Lemma all_chars_append (p : char -> bool) (s t : string) :
  all_chars p (s ++ t) = all_chars p s && all_chars p t.
Proof.
  induction s as [|c s IH]; simpl; [reflexivity |].
  now rewrite IH, andb_assoc.
Qed.

Lemma last_char_from_append (prev : option char) (s t : string) :
  last_char_from prev (s ++ t) = last_char_from (last_char_from prev s) t.
Proof.
  revert prev; induction s as [|c s IH]; intro prev; simpl; [reflexivity |].
  apply IH.
Qed.

Lemma last_char_from_cons (prev : option char) (c : char) (s : string) :
  exists d, last_char_from prev (String c s) = Some d.
Proof.
  simpl. generalize c. induction s as [|c' s IH]; intro c0; simpl.
  - now exists c0.
  - apply IH.
Qed.

Lemma last_char_from_nonempty (prev prev' : option char) (s : string) :
  s <> "" -> last_char_from prev s = last_char_from prev' s.
Proof. destruct s; [congruence | reflexivity]. Qed.

(** *** Stripping *)

Lemma lstrip_all (p : char -> bool) (s : string) :
  all_chars p s = true -> PyStr.lstrip_with p s = "".
Proof.
  induction s as [|c s IH]; simpl; [reflexivity |].
  intro H; apply andb_prop in H as [Hc Hs]. rewrite Hc. now apply IH.
Qed.

Lemma rstrip_all (p : char -> bool) (s : string) :
  all_chars p s = true -> PyStr.rstrip_with p s = "".
Proof.
  induction s as [|c s IH]; simpl; [reflexivity |].
  intro H; apply andb_prop in H as [Hc Hs]. rewrite (IH Hs), Hc. reflexivity.
Qed.

Lemma strip_whitespace_only (s : string) :
  whitespace_only s = true -> PyStr.strip s = "".
Proof.
  intro H. unfold PyStr.strip. now rewrite (lstrip_all _ _ H).
Qed.

(** ** The loop of [render_results] *)

Section Loop.

Context `{B : Backend}.

Lemma line_output_eq (line : string) :
  line_output line =
    if PyStr.is_empty (PyStr.strip line) then ""
    else match _convert_expression (PyStr.strip line) with
         | Return value => _format_value value
         | Raise _ => ""
         end.
Proof.
  unfold line_output, render_results; simpl. unfold render_line.
  destruct (PyStr.is_empty (PyStr.strip line)); [reflexivity |].
  destruct (_convert_expression (PyStr.strip line)) as [v | e]; simpl;
    [reflexivity | destruct e; reflexivity].
Qed.

Lemma render_line_eq (outputs : list string) (line : string) :
  render_line outputs line = Return (outputs ++ [line_output line])%list.
Proof.
  rewrite line_output_eq. unfold render_line.
  destruct (PyStr.is_empty (PyStr.strip line)); [reflexivity |].
  destruct (_convert_expression (PyStr.strip line)) as [v | e]; simpl;
    [reflexivity | destruct e; reflexivity].
Qed.

Lemma render_loop_eq (lines outputs : list string) :
  render_loop lines outputs = Return (outputs ++ map line_output lines)%list.
Proof.
  revert outputs; induction lines as [|line rest IH]; intro outputs; simpl.
  - now rewrite app_nil_r.
  - rewrite render_line_eq; simpl. rewrite IH, <- app_assoc. reflexivity.
Qed.

Lemma render_results_eq (lines : list string) :
  render_results lines = Return (map line_output lines).
Proof. unfold render_results. now rewrite render_loop_eq. Qed.

Lemma line_raises_blank (line : string) (e : exn) :
  _convert_expression (PyStr.strip line) = Raise e -> line_output line = "".
Proof.
  intro H. rewrite line_output_eq, H.
  now destruct (PyStr.is_empty (PyStr.strip line)).
Qed.

End Loop.

(** ** Characters and the connector pattern *)

Lemma codes_from_in (count : nat) (lo n : N) :
  (lo <= n < lo + N.of_nat count)%N -> In n (codes_from lo count).
Proof.
  revert lo. induction count as [|count IH]; intros lo H; [lia |].
  simpl. destruct (N.eq_dec lo n) as [-> | Hne]; [now left |].
  right. apply IH. lia.
Qed.

Lemma in_ranges_codes (ranges : list (N * N)) (n : N) :
  Unicode.in_ranges ranges n = true -> In n (codes_of_ranges ranges).
Proof.
  unfold Unicode.in_ranges, codes_of_ranges. intro H.
  apply existsb_exists in H as ([lo hi] & Hr & Hn). cbn [fst snd] in Hn.
  apply andb_prop in Hn as [H1 H2].
  apply N.leb_le in H1. apply N.leb_le in H2.
  apply in_flat_map. exists (lo, hi). split; [exact Hr |].
  cbn [fst snd]. apply codes_from_in. lia.
Qed.

(** A property that holds of every code point of the ranges. *)
Lemma in_ranges_forall (P : N -> bool) (ranges : list (N * N)) :
  forallb P (codes_of_ranges ranges) = true ->
  forall n, Unicode.in_ranges ranges n = true -> P n = true.
Proof.
  intros H n Hn. rewrite forallb_forall in H. apply H.
  now apply in_ranges_codes.
Qed.

Lemma space_not_word (c : char) : PyStr.isspace c = true -> Re.is_word c = false.
Proof.
  destruct c as [n]. unfold PyStr.isspace. cbn [PyStr.ord]. intro H.
  apply negb_true_iff.
  apply (in_ranges_forall (fun n => negb (Re.is_word (chr n)))
           Unicode.space_ranges); [vm_compute; reflexivity | exact H].
Qed.

Lemma tolower_cases (c : char) (x : N) :
  Re.tolower c = chr x -> c = chr x \/ In (PyStr.ord c) (lowered_to x).
Proof.
  destruct c as [n]. unfold Re.tolower. cbn [PyStr.ord].
  destruct (find (Re.in_run n) Unicode.lower_runs) as [[[[lo hi] step] target]|] eqn:Hf.
  - intros [= Hx]. right. apply find_some in Hf as [Hin Hrun].
    unfold lowered_to. apply in_flat_map. exists (lo, hi, step, target).
    split; [exact Hin |].
    assert (Hlo : (lo <= n)%N).
    { unfold Re.in_run in Hrun. apply andb_prop in Hrun as [Hrun _].
      apply andb_prop in Hrun as [Hrun _]. now apply N.leb_le in Hrun. }
    assert (Hn : (lo + (x - target) = n)%N) by lia.
    rewrite Hn, Hrun.
    assert (Ht : (target <=? x)%N = true) by (apply N.leb_le; lia).
    rewrite Ht. now left.
  - intros [= ->]. now left.
Qed.

(** The characters each letter of the connector pattern matches. *)
Lemma matches_letter (p c : char) (others : list N) :
  Re.iscased p = true -> Re.tolower p = p -> Re.extra_cases p = [] ->
  lowered_to (PyStr.ord p) = others ->
  Re.char_matches true p c = true -> c = p \/ In (PyStr.ord c) others.
Proof.
  intros Hcased Hlow Hextra Hothers. unfold Re.char_matches.
  rewrite Hcased, Hlow, Hextra. cbn [andb existsb]. rewrite orb_false_r.
  intro H. apply char_eqb_eq in H. destruct p as [x].
  cbn [PyStr.ord] in *. rewrite <- Hothers. now apply tolower_cases.
Qed.

Lemma ord_eq (c : char) (n : N) : PyStr.ord c = n -> c = chr n.
Proof. destruct c. simpl. now intros ->. Qed.

Lemma matches_t (c : char) :
  Re.char_matches true "t" c = true -> c = "t"%char \/ c = "T"%char.
Proof.
  intro H. destruct (matches_letter "t" c [84%N]) as [-> | [Hc | []]];
    try reflexivity; try exact H; [now left | right].
  symmetry in Hc. now apply ord_eq in Hc.
Qed.

Lemma matches_o (c : char) :
  Re.char_matches true "o" c = true -> c = "o"%char \/ c = "O"%char.
Proof.
  intro H. destruct (matches_letter "o" c [79%N]) as [-> | [Hc | []]];
    try reflexivity; try exact H; [now left | right].
  symmetry in Hc. now apply ord_eq in Hc.
Qed.

Lemma matches_a (c : char) :
  Re.char_matches true "a" c = true -> c = "a"%char \/ c = "A"%char.
Proof.
  intro H. destruct (matches_letter "a" c [65%N]) as [-> | [Hc | []]];
    try reflexivity; try exact H; [now left | right].
  symmetry in Hc. now apply ord_eq in Hc.
Qed.

(** The letter s has an extra case, the long s. *)
Lemma matches_s (c : char) :
  Re.char_matches true "s" c = true ->
  c = "s"%char \/ c = "S"%char \/ c = "ſ"%char.
Proof.
  unfold Re.char_matches.
  change (Re.iscased "s") with true. change (Re.tolower "s") with "s"%char.
  change (Re.extra_cases "s") with ["ſ"%char].
  cbn [andb existsb]. rewrite orb_false_r. intro H.
  apply orb_prop in H as [H | H]; apply char_eqb_eq in H.
  - apply (tolower_cases c 115) in H as [-> | H]; [now left |].
    change (lowered_to 115) with [83%N] in H. destruct H as [H | []].
    symmetry in H. apply ord_eq in H. now right; left.
  - apply (tolower_cases c 383) in H as [-> | H]; [now right; right |].
    change (lowered_to 383) with (@nil N) in H. destruct H.
Qed.

Lemma connector_letter_is_word (c : char) :
  existsb (fun p => Re.char_matches true p c) ["t"; "o"; "a"; "s"]%char = true ->
  Re.is_word c = true.
Proof.
  cbn [existsb]. rewrite orb_false_r. intro H.
  apply orb_prop in H as [H | H];
    [| apply orb_prop in H as [H | H]; [| apply orb_prop in H as [H | H]]].
  - destruct (matches_t c H) as [-> | ->]; reflexivity.
  - destruct (matches_o c H) as [-> | ->]; reflexivity.
  - destruct (matches_a c H) as [-> | ->]; reflexivity.
  - destruct (matches_s c H) as [-> | [-> | ->]]; reflexivity.
Qed.

Lemma punctuation_cases (c : char) :
  is_punctuation c = true -> c = "."%char \/ c = ","%char \/ c = ";"%char.
Proof.
  unfold is_punctuation; simpl.
  destruct (char_eqb_spec c "."); [now left |].
  destruct (char_eqb_spec c ","); [now right; left |].
  destruct (char_eqb_spec c ";"); [now right; right |].
  discriminate.
Qed.

Lemma is_connector_in (w : string) :
  is_connector w = true <-> In w connector_spellings.
Proof.
  unfold is_connector. rewrite existsb_exists. split.
  - intros (x & Hx & He). apply string_eqb_eq in He. now subst x.
  - intro H. exists w. split; [exact H | apply string_eqb_refl].
Qed.

Lemma connector_chars (c1 c2 : char) :
  is_connector (String c1 (String c2 "")) =
    (Re.char_matches true "t" c1 && Re.char_matches true "o" c2)
    || (Re.char_matches true "a" c1 && Re.char_matches true "s" c2).
Proof.
  apply eq_true_iff_eq. rewrite is_connector_in. split.
  - intro H. unfold connector_spellings in H.
    repeat (destruct H as [[= <- <-] | H]; [reflexivity |]). destruct H.
  - intro H. apply orb_prop in H as [H | H]; apply andb_prop in H as [H1 H2].
    + destruct (matches_t c1 H1) as [-> | ->], (matches_o c2 H2) as [-> | ->];
        unfold connector_spellings; simpl; auto 10.
    + destruct (matches_a c1 H1) as [-> | ->],
        (matches_s c2 H2) as [-> | [-> | ->]];
        unfold connector_spellings; simpl; auto 12.
Qed.

Lemma connector_chars_word (c1 c2 : char) :
  is_connector (String c1 (String c2 "")) = true ->
  Re.is_word c1 = true /\ Re.is_word c2 = true.
Proof.
  rewrite connector_chars. intro H.
  split; apply connector_letter_is_word; cbn [existsb];
    apply orb_prop in H as [H | H]; apply andb_prop in H as [H1 H2];
    rewrite ?H1, ?H2, ?orb_true_r; reflexivity.
Qed.

Lemma match_literal_pair (p1 p2 : char) (prev : option char) (s : string) :
  Re.match_literal true (String p1 (String p2 "")) prev s =
    match s with
    | String c1 (String c2 s') =>
        if Re.char_matches true p1 c1 && Re.char_matches true p2 c2
        then Some (Some c2, s') else None
    | _ => None
    end.
Proof.
  destruct s as [|c1 [|c2 s']]; cbn -[Re.char_matches]; try reflexivity.
  - now destruct (Re.char_matches true p1 c1).
  - destruct (Re.char_matches true p1 c1), (Re.char_matches true p2 c2); reflexivity.
Qed.

Lemma connector_letters_differ (c : char) :
  Re.char_matches true "t" c = true -> Re.char_matches true "a" c = false.
Proof. intro H. destruct (matches_t c H) as [-> | ->]; reflexivity. Qed.

Lemma match_connector (prev : option char) (s : string) :
  map snd (Re.match_here true (Re.expr _CONNECTOR_PATTERN) prev s) =
    match connector_here prev s with
    | Some after => [after]
    | None => []
    end.
Proof.
  cbn -[Re.match_literal Re.is_word_opt connector_here].
  destruct (xorb (Re.is_word_opt prev) (Re.is_word_opt (Re.head s))) eqn:Hb;
    cbn -[Re.match_literal Re.is_word_opt connector_here];
    rewrite ?match_literal_pair, ?app_nil_r.
  - destruct s as [|c1 [|c2 s']]; try reflexivity.
    unfold connector_here.
    pose proof (connector_chars c1 c2) as Hc.
    pose proof (connector_chars_word c1 c2) as Hw.
    cbn [Re.head Re.is_word_opt] in Hb.
    destruct (is_connector (String c1 (String c2 ""))).
    + destruct (Hw eq_refl) as [Hw1 Hw2]. rewrite Hw1 in Hb.
      destruct (Re.is_word_opt prev); [discriminate Hb |].
      cbn [negb andb].
      symmetry in Hc. apply orb_prop in Hc as [Hc | Hc]; rewrite Hc.
      * apply andb_prop in Hc as [Ht _].
        rewrite (connector_letters_differ _ Ht).
        cbn [andb flat_map app fst snd Re.is_word_opt]; rewrite Hw2.
        destruct (Re.is_word_opt (Re.head s')); reflexivity.
      * destruct (Re.char_matches true "t" c1) eqn:Ht.
        -- rewrite (connector_letters_differ _ Ht) in Hc. discriminate Hc.
        -- cbn [andb flat_map app fst snd Re.is_word_opt]; rewrite Hw2.
           destruct (Re.is_word_opt (Re.head s')); reflexivity.
    + symmetry in Hc. apply orb_false_elim in Hc as [Hc1 Hc2].
      rewrite Hc1, Hc2, andb_false_r. reflexivity.
  - destruct s as [|c1 [|c2 s']]; try reflexivity.
    unfold connector_here.
    pose proof (connector_chars_word c1 c2) as Hw.
    cbn [Re.head Re.is_word_opt] in Hb.
    destruct (is_connector (String c1 (String c2 ""))).
    + destruct (Hw eq_refl) as [Hw1 Hw2]. rewrite Hw1 in Hb.
      destruct (Re.is_word_opt prev); [reflexivity | discriminate Hb].
    + now rewrite andb_false_r.
Qed.

Lemma search_step (before : string) (prev : option char) (s : string) :
  Re.search_from _CONNECTOR_PATTERN before prev s =
    match connector_here prev s with
    | Some after => Some (before, after)
    | None =>
        match s with
        | EmptyString => None
        | String c s' =>
            Re.search_from _CONNECTOR_PATTERN (before ++ String c "") (Some c) s'
        end
    end.
Proof.
  pose proof (match_connector prev s) as H.
  destruct s as [|c s']; cbn [Re.search_from];
    change (Re.ignorecase _CONNECTOR_PATTERN) with true;
    destruct (Re.match_here true (Re.expr _CONNECTOR_PATTERN) prev _)
      as [|[q after] l]; cbn [map snd] in H;
    destruct (connector_here prev _); try discriminate H; try reflexivity;
    injection H as -> _; reflexivity.
Qed.


Lemma is_connector_length (w : string) : is_connector w = true -> length w = 2%nat.
Proof.
  rewrite is_connector_in. unfold connector_spellings. intro H.
  repeat (destruct H as [<- | H]; [reflexivity |]). destruct H.
Qed.

Lemma is_connector_pair (w : string) :
  is_connector w = true -> exists c1 c2, w = String c1 (String c2 "").
Proof.
  intro H. apply is_connector_length in H.
  destruct w as [|c1 [|c2 [|c3 w]]]; try discriminate H. now exists c1, c2.
Qed.

Lemma connector_here_sound (prev : option char) (s b : string) :
  connector_here prev s = Some b ->
  exists w, s = w ++ b /\ connector_after prev "" w b.
Proof.
  destruct s as [|c1 [|c2 s']]; simpl; try discriminate.
  destruct (Re.is_word_opt prev) eqn:Hp; simpl; [discriminate |].
  destruct (is_connector (String c1 (String c2 ""))) eqn:Hc; simpl; [| discriminate].
  destruct (Re.is_word_opt (Re.head s')) eqn:Hn; simpl; [discriminate |].
  intro H; injection H as <-.
  exists (String c1 (String c2 "")). repeat split; assumption.
Qed.

Lemma connector_here_complete (prev : option char) (w b : string) :
  connector_after prev "" w b -> connector_here prev (w ++ b) = Some b.
Proof.
  intros (Hc & Hp & Hn). destruct (is_connector_pair _ Hc) as (c1 & c2 & ->).
  simpl in Hp. cbn [append connector_here]. now rewrite Hc, Hp, Hn.
Qed.

Lemma search_none (s : string) :
  forall before prev,
    Re.search_from _CONNECTOR_PATTERN before prev s = None ->
    forall a w b, s = a ++ w ++ b -> ~ connector_after prev a w b.
Proof.
  induction s as [|c s IH]; intros before prev H a w b Hs Hocc; rewrite search_step in H.
  - destruct a; [| discriminate Hs]. destruct Hocc as (Hc & _).
    destruct (is_connector_pair _ Hc) as (c1 & c2 & ->). discriminate Hs.
  - destruct (connector_here prev (String c s)) eqn:Hh; [discriminate H |].
    destruct a as [|d a].
    + simpl in Hs. rewrite Hs, (connector_here_complete _ _ _ Hocc) in Hh.
      discriminate Hh.
    + simpl in Hs. injection Hs as <- Hs.
      exact (IH _ _ H a w b Hs Hocc).
Qed.

Lemma search_sound (s : string) :
  forall before prev x y,
    Re.search_from _CONNECTOR_PATTERN before prev s = Some (x, y) ->
    exists a w,
      s = a ++ w ++ y /\ x = before ++ a /\ connector_after prev a w y
      /\ forall a' w' b',
           s = a' ++ w' ++ b' -> connector_after prev a' w' b' ->
           (length a <= length a')%nat.
Proof.
  induction s as [|c s IH]; intros before prev x y H; rewrite search_step in H.
  - discriminate H.
  - destruct (connector_here prev (String c s)) eqn:Hh.
    + injection H as <- <-.
      destruct (connector_here_sound _ _ _ Hh) as (w & Hs & Hocc).
      exists "", w. rewrite append_empty_r.
      split; [exact Hs |]. split; [reflexivity |]. split; [exact Hocc |].
      intros; simpl; lia.
    + destruct (IH _ _ _ _ H) as (a & w & Hs & Hx & Hocc & Hmin).
      exists (String c a), w.
      split; [| split; [| split; [exact Hocc |]]].
      * simpl. now rewrite <- Hs.
      * rewrite Hx, append_assoc. reflexivity.
      * intros [|d a'] w' b' Hs' Hocc'.
        -- simpl in Hs'. rewrite Hs', (connector_here_complete _ _ _ Hocc') in Hh.
           discriminate Hh.
        -- simpl in Hs'. injection Hs' as <- Hs'. simpl.
           apply le_n_S. exact (Hmin _ _ _ Hs' Hocc').
Qed.

Lemma split_cases (s : string) :
  (Re.split_maxsplit_1 _CONNECTOR_PATTERN s = [s]
   /\ forall a w b, s = a ++ w ++ b -> ~ whole_word_connector a w b)
  \/ (exists a w b,
        Re.split_maxsplit_1 _CONNECTOR_PATTERN s = [a; b]
        /\ first_connector s a w b).
Proof.
  unfold Re.split_maxsplit_1.
  destruct (Re.search_from _CONNECTOR_PATTERN "" None s) as [[x y]|] eqn:H.
  - right. destruct (search_sound _ _ _ _ _ H) as (a & w & Hs & Hx & Hocc & Hmin).
    simpl in Hx; subst x. exists a, w, y.
    split; [reflexivity |]. split; [exact Hs |]. split; [exact Hocc | exact Hmin].
  - left. split; [reflexivity |]. exact (search_none _ _ _ H).
Qed.



(** *** Stripping, continued *)

Lemma lstrip_decompose (p : char -> bool) (s : string) :
  exists l, s = l ++ PyStr.lstrip_with p s /\ all_chars p l = true.
Proof.
  induction s as [|c s (l & Hs & Hl)]; simpl.
  - now exists "".
  - destruct (p c) eqn:Hc.
    + exists (String c l). simpl. rewrite Hc, Hl, <- Hs. now split.
    + now exists "".
Qed.

Lemma rstrip_decompose (p : char -> bool) (s : string) :
  exists r, s = PyStr.rstrip_with p s ++ r /\ all_chars p r = true.
Proof.
  induction s as [|c s (r & Hs & Hr)]; simpl.
  - now exists "".
  - destruct (PyStr.rstrip_with p s) as [|d t].
    + simpl in Hs. subst r. destruct (p c) eqn:Hc.
      * exists (String c s). simpl. rewrite Hc, Hr. now split.
      * exists s. now split.
    + exists r. simpl. simpl in Hs. rewrite <- Hs. now split.
Qed.

Lemma strip_decompose (s : string) :
  exists l r, s = l ++ PyStr.strip s ++ r
              /\ whitespace_only l = true /\ whitespace_only r = true.
Proof.
  destruct (lstrip_decompose PyStr.isspace s) as (l & Hs & Hl).
  destruct (rstrip_decompose PyStr.isspace (PyStr.lstrip_with PyStr.isspace s))
    as (r & Hs' & Hr).
  exists l, r. unfold PyStr.strip. rewrite <- Hs'. auto.
Qed.

Lemma all_chars_last (p : char -> bool) (s : string) :
  all_chars p s = true ->
  forall prev c, s <> "" -> last_char_from prev s = Some c -> p c = true.
Proof.
  induction s as [|d s IH]; intros H prev c Hne Hlast; [congruence |].
  simpl in H. apply andb_prop in H as [Hd Hs]. simpl in Hlast.
  destruct s as [|e s].
  - simpl in Hlast. now injection Hlast as <-.
  - apply (IH Hs (Some d) c); [discriminate | exact Hlast].
Qed.

Lemma all_chars_head (p : char -> bool) (s : string) (c : char) :
  all_chars p s = true -> Re.head s = Some c -> p c = true.
Proof.
  destruct s as [|d s]; simpl; [discriminate |].
  intros H Hh. injection Hh as <-. now apply andb_prop in H as [Hd _].
Qed.

Lemma rstrip_append_all (p : char -> bool) (s q : string) :
  all_chars p q = true ->
  PyStr.rstrip_with p (s ++ q) = PyStr.rstrip_with p s.
Proof.
  intro Hq. induction s as [|c s IH]; simpl.
  - now apply rstrip_all.
  - now rewrite IH.
Qed.

Lemma rstrip_fixed (p : char -> bool) (s : string) :
  (forall c, last_char s = Some c -> p c = false) ->
  PyStr.rstrip_with p s = s.
Proof.
  unfold last_char. generalize (@None char).
  induction s as [|c s IH]; intros prev H; [reflexivity |].
  simpl in H. simpl. destruct s as [|d s].
  - simpl in *. now rewrite (H c eq_refl).
  - rewrite (IH (Some c)); [reflexivity |].
    intros e He. apply H. exact He.
Qed.

Lemma rstrip_last (p : char -> bool) (s : string) :
  forall c, last_char (PyStr.rstrip_with p s) = Some c -> p c = false.
Proof.
  induction s as [|d s IH]; intros c; simpl; [discriminate |].
  destruct (PyStr.rstrip_with p s) as [|e t] eqn:Hr.
  - destruct (p d) eqn:Hd; [discriminate |].
    unfold last_char; simpl. intro H; now injection H as <-.
  - intro H. apply IH. exact H.
Qed.

Lemma lstrip_append (p : char -> bool) (x y : string) :
  PyStr.lstrip_with p (x ++ y) =
    if all_chars p x then PyStr.lstrip_with p y else PyStr.lstrip_with p x ++ y.
Proof.
  induction x as [|c x IH]; simpl; [reflexivity |].
  destruct (p c); simpl; [exact IH | reflexivity].
Qed.

(** A text whose last character is kept by the stripping. *)
Lemma lstrip_keeps_last (p : char -> bool) (x : string) (c : char) :
  last_char x = Some c -> p c = false ->
  all_chars p x = false
  /\ PyStr.lstrip_with p x <> ""
  /\ last_char (PyStr.lstrip_with p x) = Some c.
Proof.
  intros Hlast Hc.
  assert (Hne : x <> "") by (intros ->; discriminate Hlast).
  assert (Hall : all_chars p x = false).
  { destruct (all_chars p x) eqn:Hall; [| reflexivity].
    rewrite (all_chars_last _ _ Hall None c Hne Hlast) in Hc. discriminate Hc. }
  destruct (lstrip_decompose p x) as (l & Hx & Hl).
  assert (Hs : PyStr.lstrip_with p x <> "").
  { intro He. rewrite He, append_empty_r in Hx. rewrite <- Hx in Hl. congruence. }
  repeat split; try assumption.
  unfold last_char in *. rewrite Hx, last_char_from_append in Hlast.
  now rewrite (last_char_from_nonempty _ None _ Hs) in Hlast.
Qed.

Lemma punctuation_not_space (c : char) :
  is_punctuation c = true -> PyStr.isspace c = false.
Proof. intro H. destruct (punctuation_cases c H) as [-> | [-> | ->]]; reflexivity. Qed.

Lemma punctuation_not_word (c : char) :
  is_punctuation c = true -> Re.is_word c = false.
Proof. intro H. destruct (punctuation_cases c H) as [-> | [-> | ->]]; reflexivity. Qed.

Lemma strip_punctuation_only (p : string) :
  punctuation_only p = true -> PyStr.strip p = p.
Proof.
  intro Hp. unfold PyStr.strip.
  assert (Hl : PyStr.lstrip_with PyStr.isspace p = p).
  { destruct p as [|c p]; [reflexivity |]. simpl in *.
    apply andb_prop in Hp as [Hc _]. now rewrite (punctuation_not_space _ Hc). }
  rewrite Hl. apply rstrip_fixed. intros c Hc.
  apply punctuation_not_space.
  apply (all_chars_last _ _ Hp None c); [| exact Hc].
  intros ->; discriminate Hc.
Qed.

Lemma strip_append_punctuation (x p : string) (c : char) :
  last_char x = Some c -> PyStr.isspace c = false ->
  punctuation_only p = true ->
  PyStr.strip (x ++ p) = PyStr.strip x ++ p /\ PyStr.strip x <> "".
Proof.
  intros Hlast Hc Hp.
  destruct (lstrip_keeps_last _ _ _ Hlast Hc) as (Hall & Hne & Hl).
  assert (Hx : PyStr.strip x = PyStr.lstrip_with PyStr.isspace x).
  { apply rstrip_fixed. intros d Hd. rewrite Hl in Hd. now injection Hd as <-. }
  split; [| now rewrite Hx].
  rewrite Hx. unfold PyStr.strip. rewrite lstrip_append, Hall.
  apply rstrip_fixed. intros d Hd. unfold last_char in Hd.
  rewrite last_char_from_append in Hd. destruct p as [|e p].
  - simpl in Hd. unfold last_char in Hl. rewrite Hl in Hd. now injection Hd as <-.
  - apply punctuation_not_space.
    exact (all_chars_last _ _ Hp _ d ltac:(discriminate) Hd).
Qed.

Lemma strip_append_whitespace (x ws : string) :
  whitespace_only ws = true -> PyStr.strip (x ++ ws) = PyStr.strip x.
Proof.
  intro Hws. unfold PyStr.strip. rewrite lstrip_append.
  destruct (all_chars PyStr.isspace x) eqn:Hx.
  - now rewrite (lstrip_all _ _ Hws), (lstrip_all _ _ Hx).
  - now apply rstrip_append_all.
Qed.

(** ** Evaluation of one line *)

Section Evaluation.

Context `{B : Backend}.

Lemma numeric_value_raises (value_text : string) (e : exn) :
  builtin_float value_text = Raise e ->
  raises (try_except (builtin_float value_text)
            [([ValueError_class],
              fun _ => Raise (ValueError "Invalid numeric value"))]
            Return).
Proof.
  intro H. rewrite H. destruct e; simpl; eexists; reflexivity.
Qed.

Lemma numeric_value_returns (value_text : string) (x : PyFloat.float) :
  builtin_float value_text = Return x ->
  try_except (builtin_float value_text)
    [([ValueError_class],
      fun _ : exn => Raise (ValueError "Invalid numeric value"))]
    Return = Return x.
Proof. intro H. now rewrite H. Qed.

(** The evaluation once the line is cut in two. *)
Lemma convert_expression_cut (expression source target : string) :
  split_connector expression = [source; target] ->
  _convert_expression expression =
    if PyStr.is_empty (PyStr.strip source) || PyStr.is_empty (PyStr.strip target)
    then Raise (ValueError "Incomplete conversion expression")
    else
      '(value_text, source_unit) <- parse_input (PyStr.strip source) ;;
      match source_unit with
      | None => Raise (ValueError "Missing value or source unit")
      | Some source_unit =>
          if PyStr.is_empty value_text then
            Raise (ValueError "Missing value or source unit")
          else if PyStr.is_empty (PyStr.rstrip source_unit ".,;") then
            Raise (ValueError "Missing value or source unit")
          else if PyStr.is_empty (PyStr.rstrip (PyStr.strip target) ".,;") then
            Raise (ValueError "Conversion target not provided")
          else
            numeric_value <-
              try_except (builtin_float value_text)
                [([ValueError_class],
                  fun _ => Raise (ValueError "Invalid numeric value"))]
                Return ;;
            result <- convert numeric_value (PyStr.rstrip source_unit ".,;")
                        (PyStr.rstrip (PyStr.strip target) ".,;") ;;
            match result with
            | None => Raise (ValueError "Conversion yielded no result")
            | Some value => Return value
            end
      end.
Proof.
  unfold split_connector, _convert_expression. intros ->. reflexivity.
Qed.

Lemma convert_expression_uncut (expression : string) :
  split_connector expression = [expression] ->
  raises (_convert_expression expression).
Proof.
  unfold split_connector, _convert_expression. intros ->. eexists; reflexivity.
Qed.

Lemma no_connector_uncut (expression : string) :
  (forall a w b, expression = a ++ w ++ b -> ~ whole_word_connector a w b) ->
  split_connector expression = [expression].
Proof.
  intro H. destruct (split_cases expression) as [[Hs _] | (a & w & b & _ & Hs & Hocc & _)].
  - exact Hs.
  - destruct (H _ _ _ Hs Hocc).
Qed.

Lemma line_failure_raises (expression : string) :
  line_failure expression -> raises (_convert_expression expression).
Proof.
  intros [Hno
         | source target Hcut Hempty
         | source target e Hcut Hparse
         | source target value_text source_unit Hcut Hparse Hmissing
         | source target value_text source_unit Hcut Hparse Hempty
         | source target value_text source_unit e Hcut Hparse Hfloat
         | source target value_text source_unit x Hcut Hparse Hfloat Hconv
         | source target value_text source_unit x e Hcut Hparse Hfloat Hconv ].
  - apply convert_expression_uncut, no_connector_uncut, Hno.
  - rewrite (convert_expression_cut _ _ _ Hcut).
    destruct Hempty as [-> | ->]; rewrite ?orb_true_r; eexists; reflexivity.
  - rewrite (convert_expression_cut _ _ _ Hcut), Hparse.
    destruct (_ || _); eexists; reflexivity.
  - rewrite (convert_expression_cut _ _ _ Hcut), Hparse.
    destruct (_ || _); [eexists; reflexivity |]. simpl.
    destruct source_unit as [u |]; [| eexists; reflexivity].
    destruct Hmissing as [-> | Hu]; [eexists; reflexivity | discriminate Hu].
  - rewrite (convert_expression_cut _ _ _ Hcut), Hparse.
    destruct (_ || _); [eexists; reflexivity |]. simpl.
    destruct (PyStr.is_empty value_text); [eexists; reflexivity |].
    destruct Hempty as [-> | ->]; simpl; [eexists; reflexivity |].
    destruct (PyStr.is_empty _); eexists; reflexivity.
  - rewrite (convert_expression_cut _ _ _ Hcut), Hparse.
    destruct (_ || _); [eexists; reflexivity |]. simpl.
    repeat (destruct (PyStr.is_empty _); [eexists; reflexivity |]).
    destruct (numeric_value_raises _ _ Hfloat) as [e' ->]. eexists; reflexivity.
  - rewrite (convert_expression_cut _ _ _ Hcut), Hparse.
    destruct (_ || _); [eexists; reflexivity |]. simpl.
    repeat (destruct (PyStr.is_empty _); [eexists; reflexivity |]).
    rewrite (numeric_value_returns _ _ Hfloat). simpl. rewrite Hconv.
    eexists; reflexivity.
  - rewrite (convert_expression_cut _ _ _ Hcut), Hparse.
    destruct (_ || _); [eexists; reflexivity |]. simpl.
    repeat (destruct (PyStr.is_empty _); [eexists; reflexivity |]).
    rewrite (numeric_value_returns _ _ Hfloat). simpl. rewrite Hconv.
    eexists; reflexivity.
Qed.

End Evaluation.

(** ** Alignment of the outputs and failing lines *)

(** C1.  For every sequence of input lines [render_results] returns a
    sequence of output lines of the same length and in the same order, and
    the i-th output is [line_output] of the i-th input line alone, which is
    what [render_results] returns for that line on its own; blank lines
    count like the others. *)
Theorem render_results_aligned `{B : Backend} (lines : list string) :
  exists outputs,
    render_results lines = Return outputs
    /\ List.length outputs = List.length lines
    /\ (forall i, nth_error outputs i = option_map line_output (nth_error lines i))
    /\ (forall line, render_results [line] = Return [line_output line]).
Proof.
  exists (map line_output lines). rewrite render_results_eq.
  split; [reflexivity |]. split; [apply length_map |].
  split; [intro i; apply nth_error_map |].
  intro line. now rewrite render_results_eq.
Qed.

(** C2.  For every list of strings [render_results] returns a list, never
    an exception.  A line whose evaluation fails in one of the ways of
    [line_failure] (no connector, an empty half, a missing value or unit, an
    invalid numeric literal, an absent result, [UnitTypeNameNotFound] or any
    other exception of the parser or the converter), or for which
    [_convert_expression] raises anything at all, gives the output "" at
    its own position, and every other position still holds the output of
    its own line. *)
Theorem render_results_never_raises `{B : Backend} (lines : list string) :
  exists outputs,
    render_results lines = Return outputs
    /\ List.length outputs = List.length lines
    /\ (forall i line,
          nth_error lines i = Some line ->
          line_failure (PyStr.strip line)
          \/ raises (_convert_expression (PyStr.strip line)) ->
          nth_error outputs i = Some "")
    /\ (forall i, nth_error outputs i = option_map line_output (nth_error lines i)).
Proof.
  exists (map line_output lines). rewrite render_results_eq.
  split; [reflexivity |]. split; [apply length_map |].
  split; [| intro i; apply nth_error_map].
  intros i line Hi Hfail. rewrite nth_error_map, Hi. simpl. f_equal.
  assert (Hr : raises (_convert_expression (PyStr.strip line))).
  { destruct Hfail as [Hfail | Hr]; [now apply line_failure_raises | exact Hr]. }
  destruct Hr as [e He]. exact (line_raises_blank _ _ He).
Qed.

Lemma render_results_never_raises_witness :
  exists outputs,
    render_results (B := Demo.backend)
      ["3 m to m"; "5 m to crash"; "x m to m"; "12 in as mm"] = Return outputs
    /\ nth_error outputs 1 = Some ""
    /\ nth_error outputs 2 = Some ""
    /\ nth_error outputs 3 = Some "304.8".
Proof.
  destruct (render_results_never_raises (B := Demo.backend)
              ["3 m to m"; "5 m to crash"; "x m to m"; "12 in as mm"])
    as (outputs & Hr & _ & Hfail & Hall).
  exists outputs. split; [exact Hr |]. split; [| split].
  - apply (Hfail 1%nat "5 m to crash"); [reflexivity |].
    right. eexists. vm_compute. reflexivity.
  - apply (Hfail 2%nat "x m to m"); [reflexivity |].
    left. apply (Invalid_numeric_literal _ "x m " " m" "x" "m"
                   (ValueError "could not convert string to float"));
      reflexivity.
  - rewrite Hall. vm_compute. reflexivity.
Defined.

(** C8.  An input line that is empty or made of whitespace only gives the
    output line "", at whatever position of whatever input sequence. *)
Theorem blank_line_renders_blank `{B : Backend}
    (lines : list string) (i : nat) (line : string) :
  nth_error lines i = Some line ->
  whitespace_only line = true ->
  exists outputs,
    render_results lines = Return outputs /\ nth_error outputs i = Some "".
Proof.
  intros Hi Hws. exists (map line_output lines). rewrite render_results_eq.
  split; [reflexivity |]. rewrite nth_error_map, Hi. simpl. f_equal.
  rewrite line_output_eq, (strip_whitespace_only _ Hws). reflexivity.
Qed.

Lemma blank_line_renders_blank_witness :
  exists outputs,
    render_results (B := Demo.backend) ["3 m to m"; "   "; ""; "3 m to m"]
      = Return outputs
    /\ nth_error outputs 1 = Some "".
Proof.
  apply (blank_line_renders_blank (B := Demo.backend)
           ["3 m to m"; "   "; ""; "3 m to m"] 1 "   "); reflexivity.
Defined.

(** ** The connector *)


Lemma uncut_gives_no_connector (s : string) :
  split_connector s = [s] ->
  forall a w b, s = a ++ w ++ b -> ~ whole_word_connector a w b.
Proof.
  intro Hone.
  destruct (split_cases s) as [[_ Hno] | (a' & w' & b' & Hcut' & _)];
    [exact Hno |].
  unfold split_connector in Hone. rewrite Hone in Hcut'. discriminate Hcut'.
Qed.




Lemma whitespace_last_not_word (l : string) :
  whitespace_only l = true -> Re.is_word_opt (last_char_from None l) = false.
Proof.
  intro Hl. destruct l as [|c l]; [reflexivity |].
  destruct (last_char_from_cons None c l) as [d Hd]. rewrite Hd. simpl.
  apply space_not_word.
  exact (all_chars_last _ _ Hl None d ltac:(discriminate) Hd).
Qed.

Lemma whitespace_head_not_word (r : string) :
  whitespace_only r = true -> Re.is_word_opt (Re.head r) = false.
Proof.
  intro Hr. destruct r as [|c r]; [reflexivity |]. simpl.
  apply space_not_word. exact (all_chars_head _ _ c Hr eq_refl).
Qed.

Lemma connector_of_stripped (line a w b : string) :
  PyStr.strip line = a ++ w ++ b -> whole_word_connector a w b ->
  exists a' b', line = a' ++ w ++ b' /\ whole_word_connector a' w b'.
Proof.
  intros Hs (Hc & Ha & Hb).
  destruct (strip_decompose line) as (l & r & Hline & Hl & Hr).
  exists (l ++ a), (b ++ r). split.
  - rewrite Hline, Hs, !append_assoc. reflexivity.
  - split; [exact Hc |]. split.
    + rewrite last_char_from_append. destruct a as [|c a].
      * simpl. now apply whitespace_last_not_word.
      * now rewrite (last_char_from_nonempty _ None) by discriminate.
    + destruct b as [|c b]; [| exact Hb]. simpl.
      now apply whitespace_head_not_word.
Qed.

(** C4.  A line that is not empty once trimmed and holds no whole-word
    "to" or "as", in any case of the letters, gives the output line "". *)
Theorem no_connector_renders_blank `{B : Backend}
    (lines : list string) (i : nat) (line : string) :
  nth_error lines i = Some line ->
  PyStr.strip line <> "" ->
  (forall a w b, line = a ++ w ++ b -> ~ whole_word_connector a w b) ->
  exists outputs,
    render_results lines = Return outputs /\ nth_error outputs i = Some "".
Proof.
  intros Hi Hne Hno. exists (map line_output lines). rewrite render_results_eq.
  split; [reflexivity |]. rewrite nth_error_map, Hi. simpl. f_equal.
  assert (Hcut : split_connector (PyStr.strip line) = [PyStr.strip line]).
  { apply no_connector_uncut. intros a w b Hs Hocc.
    destruct (connector_of_stripped _ _ _ _ Hs Hocc) as (a' & b' & Hline & Hocc').
    exact (Hno _ _ _ Hline Hocc'). }
  destruct (convert_expression_uncut _ Hcut) as [e He].
  exact (line_raises_blank _ _ He).
Qed.

Lemma no_connector_renders_blank_witness :
  exists outputs,
    render_results (B := Demo.backend) ["3 m to m"; " 10 total kwh "] = Return outputs
    /\ nth_error outputs 1 = Some "".
Proof.
  apply (no_connector_renders_blank (B := Demo.backend)
           ["3 m to m"; " 10 total kwh "] 1 " 10 total kwh ").
  - reflexivity.
  - vm_compute. discriminate.
  - apply uncut_gives_no_connector. reflexivity.
Defined.

(** ** Trailing punctuation *)

Lemma punctuation_not_connector_left (c1 c2 : char) :
  is_punctuation c1 = true -> is_connector (String c1 (String c2 "")) = false.
Proof.
  intro H. destruct (is_connector _) eqn:Hc; [| reflexivity].
  destruct (connector_chars_word _ _ Hc) as [Hw _].
  rewrite (punctuation_not_word _ H) in Hw. discriminate Hw.
Qed.

Lemma punctuation_not_connector_right (c1 c2 : char) :
  is_punctuation c2 = true -> is_connector (String c1 (String c2 "")) = false.
Proof.
  intro H. destruct (is_connector _) eqn:Hc; [| reflexivity].
  destruct (connector_chars_word _ _ Hc) as [_ Hw].
  rewrite (punctuation_not_word _ H) in Hw. discriminate Hw.
Qed.

Lemma punctuation_head_not_word (p : string) :
  punctuation_only p = true -> Re.is_word_opt (Re.head p) = false.
Proof.
  destruct p as [|c p]; [reflexivity |]. simpl. intro H.
  apply andb_prop in H as [Hc _]. now apply punctuation_not_word.
Qed.

Lemma connector_here_append (prev : option char) (s p : string) :
  punctuation_only p = true ->
  connector_here prev (s ++ p) =
    option_map (fun after => after ++ p) (connector_here prev s).
Proof.
  intro Hp. destruct s as [|c1 [|c2 s']].
  - destruct p as [|d1 [|d2 p']]; try reflexivity.
    simpl in Hp. apply andb_prop in Hp as [Hd _].
    cbn [append connector_here]. rewrite (punctuation_not_connector_left _ _ Hd).
    now rewrite andb_false_r.
  - destruct p as [|d1 p']; [reflexivity |].
    simpl in Hp. apply andb_prop in Hp as [Hd _].
    cbn [append connector_here]. rewrite (punctuation_not_connector_right _ _ Hd).
    now rewrite andb_false_r.
  - cbn [append connector_here].
    assert (Hh : Re.is_word_opt (Re.head (s' ++ p)) = Re.is_word_opt (Re.head s')).
    { destruct s' as [|c3 s']; [| reflexivity]. simpl.
      now apply punctuation_head_not_word. }
    rewrite Hh. destruct (_ && _ && _); reflexivity.
Qed.

Lemma search_append_punctuation (s p : string) :
  punctuation_only p = true ->
  forall before prev,
    Re.search_from _CONNECTOR_PATTERN before prev (s ++ p) =
      option_map (fun cut => (fst cut, snd cut ++ p))
        (Re.search_from _CONNECTOR_PATTERN before prev s).
Proof.
  intro Hp. induction s as [|c s IH]; intros before prev.
  - simpl append. rewrite (search_step before prev "").
    cbn [connector_here option_map]. revert before prev.
    induction p as [|d p IHp]; intros before prev; rewrite search_step.
    + reflexivity.
    + pose proof (connector_here_append prev "" (String d p) Hp) as Hh.
      simpl append in Hh. rewrite Hh. cbn [connector_here option_map].
      simpl in Hp. apply andb_prop in Hp as [_ Hp]. now apply IHp.
  - rewrite (search_step before prev (String c s)).
    rewrite (search_step before prev (String c s ++ p)).
    rewrite (connector_here_append _ _ _ Hp).
    destruct (connector_here prev (String c s)); [reflexivity |].
    cbn [option_map append]. apply IH.
Qed.

Lemma split_append_punctuation (s p : string) :
  punctuation_only p = true ->
  split_connector (s ++ p) =
    match Re.search_from _CONNECTOR_PATTERN "" None s with
    | Some (a, b) => [a; b ++ p]
    | None => [s ++ p]
    end.
Proof.
  intro Hp. unfold split_connector, Re.split_maxsplit_1.
  rewrite (search_append_punctuation _ _ Hp).
  destruct (Re.search_from _CONNECTOR_PATTERN "" None s) as [[a b]|]; reflexivity.
Qed.

Section Punctuation.

Context `{B : Backend}.


Lemma rstrip_punctuation_only (t : string) :
  punctuation_only t = true -> PyStr.rstrip t ".,;" = "".
Proof. apply rstrip_all. Qed.

Lemma punctuation_target_raises (expression source target : string) :
  split_connector expression = [source; target] ->
  punctuation_only (PyStr.strip target) = true ->
  raises (_convert_expression expression).
Proof.
  intros Hcut Hp. rewrite (convert_expression_cut _ _ _ Hcut).
  rewrite (rstrip_punctuation_only _ Hp).
  destruct (_ || _); [eexists; reflexivity |].
  destruct (parse_input _) as [[v [u |]] | e]; simpl; try (eexists; reflexivity).
  repeat (destruct (PyStr.is_empty _); try (eexists; reflexivity)).
Qed.



End Punctuation.


Section TrailingPunctuation.

Context `{B : Backend}.

Lemma line_output_expression (line : string) :
  line_output line = expression_output (PyStr.strip line).
Proof. apply line_output_eq. Qed.

Lemma expression_raises_blank (expression : string) :
  raises (_convert_expression expression) -> expression_output expression = "".
Proof.
  intros [e He]. unfold expression_output. rewrite He.
  now destruct (PyStr.is_empty expression).
Qed.

Lemma punctuation_expression_blank (p : string) :
  punctuation_only p = true -> expression_output p = "".
Proof.
  intro Hp. apply expression_raises_blank, convert_expression_uncut.
  pose proof (split_append_punctuation "" p Hp) as H.
  rewrite search_step in H. exact H.
Qed.

Lemma append_nonempty_l (s t : string) : s <> "" -> s ++ t <> "".
Proof. destruct s; [congruence | discriminate]. Qed.

Lemma expression_append_punctuation (e p : string) :
  e <> "" ->
  (forall c, last_char e = Some c -> PyStr.isspace c = false) ->
  punctuation_only p = true ->
  expression_output (e ++ p) = expression_output e.
Proof.
  intros Hne Hlast Hp.
  pose proof (split_append_punctuation e p Hp) as Hcut'.
  destruct (Re.search_from _CONNECTOR_PATTERN "" None e) as [[a b]|] eqn:Hsearch.
  - assert (Hcut : split_connector e = [a; b]).
    { unfold split_connector, Re.split_maxsplit_1. now rewrite Hsearch. }
    destruct (search_sound _ _ _ _ _ Hsearch) as (a0 & w & He & Ha & Hocc & _).
    simpl in Ha; subst a0.
    destruct b as [|d b].
    + (* nothing after the connector *)
      rewrite (expression_raises_blank e).
      * apply expression_raises_blank.
        apply (punctuation_target_raises _ _ _ Hcut').
        simpl append. now rewrite (strip_punctuation_only _ Hp).
      * apply line_failure_raises.
        apply (Empty_half _ _ _ Hcut). now right.
    + destruct (last_char_from_cons None d b) as [c Hc].
      assert (Hspace : PyStr.isspace c = false).
      { apply Hlast. unfold last_char. rewrite He, !last_char_from_append.
        rewrite (last_char_from_nonempty _ None) by discriminate. exact Hc. }
      destruct (strip_append_punctuation _ p c Hc Hspace Hp) as [Hstrip Hb].
      unfold expression_output.
      apply is_empty_false in Hne as Hne1. rewrite Hne1.
      assert (Hne2 : PyStr.is_empty (e ++ p) = false)
        by now apply is_empty_false, append_nonempty_l.
      rewrite Hne2.
      rewrite (convert_expression_cut _ _ _ Hcut),
        (convert_expression_cut _ _ _ Hcut').
      rewrite Hstrip.
      assert (Hr : PyStr.rstrip (PyStr.strip (String d b) ++ p) ".,;"
                   = PyStr.rstrip (PyStr.strip (String d b)) ".,;")
        by now apply rstrip_append_all.
      rewrite Hr.
      assert (He2 : PyStr.is_empty (PyStr.strip (String d b) ++ p) = false)
        by now apply is_empty_false, append_nonempty_l.
      apply is_empty_false in Hb. rewrite He2, Hb. reflexivity.
  - assert (Hcut : split_connector e = [e]).
    { unfold split_connector, Re.split_maxsplit_1. now rewrite Hsearch. }
    rewrite (expression_raises_blank e) by now apply convert_expression_uncut.
    now apply expression_raises_blank, convert_expression_uncut.
Qed.

Lemma line_append_punctuation (body p ws : string) :
  is_space_opt (last_char body) = false ->
  punctuation_only p = true ->
  whitespace_only ws = true ->
  line_output (body ++ p ++ ws) = line_output (body ++ ws).
Proof.
  intros Hlast Hp Hws. rewrite !line_output_expression.
  rewrite <- append_assoc, !(strip_append_whitespace _ _ Hws).
  destruct body as [|d body].
  - simpl append. rewrite (strip_punctuation_only _ Hp).
    now apply punctuation_expression_blank.
  - destruct (last_char_from_cons None d body) as [c Hc].
    unfold last_char in Hlast. rewrite Hc in Hlast. simpl in Hlast.
    destruct (strip_append_punctuation _ p c Hc Hlast Hp) as [-> Hne].
    apply expression_append_punctuation; try assumption.
    intros c'. apply rstrip_last.
Qed.

End TrailingPunctuation.

Lemma convert_expression_unit_suffix (B : Backend) (p expression : string) :
  punctuation_only p = true ->
  _convert_expression (B := with_unit_suffix B p) expression
  = _convert_expression (B := B) expression.
Proof.
  intro Hp. unfold _convert_expression.
  destruct (Re.split_maxsplit_1 _ expression) as [|source [|target [|x l]]];
    try reflexivity.
  destruct (_ || _); [reflexivity |].
  cbn [parse_input with_unit_suffix].
  destruct (parse_input (PyStr.strip source)) as [[v [u |]] | e];
    try reflexivity.
  cbn [bind option_map].
  assert (Hr : PyStr.rstrip (u ++ p) ".,;" = PyStr.rstrip u ".,;")
    by now apply rstrip_append_all.
  rewrite Hr. reflexivity.
Qed.

Lemma line_output_unit_suffix (B : Backend) (p line : string) :
  punctuation_only p = true ->
  line_output (B := with_unit_suffix B p) line = line_output (B := B) line.
Proof.
  intro Hp. rewrite !line_output_eq.
  rewrite (convert_expression_unit_suffix _ _ _ Hp). reflexivity.
Qed.

(** C7.  Trailing periods, commas and semicolons on the target-unit text
    or on the source unit do not change the output: the marks [p] written
    after the text of a line (before its trailing whitespace, if any) give
    the same result as the line without them, and a parser that leaves the
    marks [p] at the end of the units it finds gives the same results as the
    parser that does not. *)
Theorem trailing_punctuation_ignored (B : Backend) :
  (forall body p ws,
      is_space_opt (last_char body) = false ->
      punctuation_only p = true ->
      whitespace_only ws = true ->
      render_results [body ++ p ++ ws] = render_results [body ++ ws])
  /\ (forall p lines,
        punctuation_only p = true ->
        render_results (B := with_unit_suffix B p) lines = render_results lines).
Proof.
  split.
  - intros body p ws Hlast Hp Hws. rewrite !render_results_eq. simpl.
    now rewrite line_append_punctuation.
  - intros p lines Hp. rewrite !render_results_eq. f_equal.
    apply map_ext. intro line. now apply line_output_unit_suffix.
Qed.

Lemma trailing_punctuation_ignored_witness :
  render_results (B := Demo.backend) ["12 inches to mm" ++ "." ++ ""]
  = render_results (B := Demo.backend) ["12 inches to mm" ++ ""]
  /\ render_results (B := with_unit_suffix Demo.backend ";") ["12 inches to mm"]
     = render_results (B := Demo.backend) ["12 inches to mm"]
  /\ render_results (B := Demo.backend) ["12 inches to mm."] = Return ["304.8"].
Proof.
  destruct (trailing_punctuation_ignored Demo.backend) as [Htarget Hsource].
  split; [| split].
  - apply Htarget; reflexivity.
  - apply Hsource; reflexivity.
  - vm_compute. reflexivity.
Defined.

(** ** Formatting *)

Lemma endswith_point_last (s : string) :
  PyStr.endswith s "." = true -> last_char s = Some "."%char.
Proof.
  induction s as [|c s IH]; [discriminate |].
  cbn [PyStr.endswith]. intro H. apply orb_prop in H as [H | H].
  - apply string_eqb_eq in H. now rewrite H.
  - specialize (IH H). unfold last_char in *. cbn [last_char_from].
    destruct s as [|d s]; [discriminate IH |].
    now rewrite (last_char_from_nonempty _ None) by discriminate.
Qed.

Lemma no_point_last (s : string) (prev : option char) :
  no_point s = true -> last_char_from prev s = Some "."%char ->
  s = "" /\ prev = Some "."%char.
Proof.
  revert prev. induction s as [|c s IH]; intros prev Hs Hl; [now split |].
  simpl in Hs. apply andb_prop in Hs as [Hc Hs]. simpl in Hl.
  destruct (IH _ Hs Hl) as [_ He]. injection He as ->. discriminate Hc.
Qed.

Lemma no_final_point (a frac exponent : string) :
  no_point a = true -> no_point frac = true -> no_point exponent = true ->
  PyStr.endswith
    (a ++ (if PyStr.is_empty frac then "" else "." ++ frac) ++ exponent) "."
  = false.
Proof.
  intros Ha Hf He.
  destruct (PyStr.endswith _ ".") eqn:H; [| reflexivity].
  apply endswith_point_last in H. unfold last_char in H.
  rewrite !last_char_from_append in H.
  destruct (no_point_last _ _ He H) as [_ H1].
  destruct frac as [|c frac]; cbn [PyStr.is_empty] in H1.
  - simpl in H1. destruct (no_point_last _ _ Ha H1) as [_ H2]. discriminate H2.
  - change (last_char_from (Some "."%char) (String c frac) = Some "."%char) in H1.
    destruct (no_point_last _ _ Hf H1) as [H2 _]. discriminate H2.
Qed.

Lemma no_point_append (s t : string) :
  no_point (s ++ t) = no_point s && no_point t.
Proof. apply all_chars_append. Qed.

Lemma no_point_uint (d : Decimal.uint) :
  no_point (string_of_uint d) = true.
Proof. induction d; simpl; auto. Qed.

Lemma no_point_decimal (n : Z) : no_point (PyFloat.decimal n) = true.
Proof. apply no_point_uint. Qed.

Lemma no_point_zeros (n : nat) : no_point (PyFloat.zeros n) = true.
Proof. induction n; simpl; auto. Qed.

Lemma all_chars_rstrip (p q : char -> bool) (s : string) :
  all_chars p s = true -> all_chars p (PyStr.rstrip_with q s) = true.
Proof.
  induction s as [|c s IH]; [reflexivity |]. simpl. intro H.
  apply andb_prop in H as [Hc Hs]. specialize (IH Hs).
  destruct (PyStr.rstrip_with q s).
  - destruct (q c); simpl; [reflexivity | now rewrite Hc].
  - cbn [all_chars]. now rewrite Hc.
Qed.

Lemma all_chars_substring (p : char -> bool) (s : string) :
  all_chars p s = true -> forall n m, all_chars p (substring n m s) = true.
Proof.
  induction s as [|c s IH]; intros H n m.
  - destruct n, m; reflexivity.
  - simpl in H. apply andb_prop in H as [Hc Hs].
    destruct n as [|n]; simpl.
    + destruct m as [|m]; [reflexivity |]. simpl. rewrite Hc. now apply IH.
    + now apply IH.
Qed.

Lemma all_chars_of_list (p : char -> bool) (l : list char) :
  all_chars p (string_of_list l) = forallb p l.
Proof. induction l as [|c l IH]; simpl; [reflexivity | now rewrite IH]. Qed.

Lemma all_chars_to_list (p : char -> bool) (s : string) :
  forallb p (list_of_string s) = all_chars p s.
Proof. induction s as [|c s IH]; simpl; [reflexivity | now rewrite IH]. Qed.

Lemma forallb_reverse {A : Type} (p : A -> bool) (l : list A) :
  forallb p (rev l) = forallb p l.
Proof.
  induction l as [|x l IH]; [reflexivity |].
  simpl. rewrite forallb_app, IH. simpl. rewrite andb_true_r. apply andb_comm.
Qed.

Lemma group_rev_no_point (l : list char) :
  forallb not_point l = true ->
  forall k, forallb not_point (PyFloat.group_rev k l) = true.
Proof.
  induction l as [|c l IH]; intros H k; [reflexivity |].
  simpl in H. apply andb_prop in H as [Hc Hl]. simpl.
  destruct (k =? 3)%nat; simpl; rewrite Hc; simpl; now apply IH.
Qed.

Lemma no_point_thousands (digits : string) :
  no_point digits = true -> no_point (PyFloat.insert_thousands digits) = true.
Proof.
  intro H. unfold no_point, PyFloat.insert_thousands.
  rewrite all_chars_of_list, forallb_reverse. apply group_rev_no_point.
  now rewrite forallb_reverse, all_chars_to_list.
Qed.

Lemma no_point_exponent (e : Z) : no_point (PyFloat.exponent_text e) = true.
Proof.
  unfold PyFloat.exponent_text. rewrite no_point_append.
  destruct (e <? 0)%Z; simpl;
    destruct (length _ <? 2)%nat; simpl; apply no_point_decimal.
Qed.

Lemma no_point_dtoa (ndigits : Z) (x : PyFloat.float) :
  no_point (fst (PyFloat.dtoa ndigits x)) = true.
Proof.
  destruct x; try reflexivity. cbn [PyFloat.dtoa fst].
  apply all_chars_rstrip, no_point_decimal.
Qed.

Lemma no_point_layout (precision : Z) (digits : string) (decpt : Z) :
  no_point digits = true ->
  no_point (fst (fst (PyFloat.layout_g precision digits decpt))) = true
  /\ no_point (snd (fst (PyFloat.layout_g precision digits decpt))) = true
  /\ no_point (snd (PyFloat.layout_g precision digits decpt)) = true.
Proof.
  intro H. unfold PyFloat.layout_g.
  destruct (_ || _); [| destruct (decpt <=? 0)%Z; [| destruct (decpt <? _)%Z]];
    cbn [fst snd]; repeat split;
    rewrite ?no_point_append, ?no_point_zeros, ?H; try reflexivity;
    try (now apply all_chars_substring).
  cbn [append no_point all_chars]. apply no_point_exponent.
Qed.

Lemma format_no_final_point (x : PyFloat.float) (spec : PyFloat.format_spec) :
  PyStr.endswith (PyFloat.format x spec) "." = false.
Proof.
  unfold PyFloat.format.
  set (p := if (PyFloat.precision spec =? 0)%Z then 1%Z else PyFloat.precision spec).
  assert (Hfinite :
    PyStr.endswith
      (let '(digits, decpt) := PyFloat.dtoa p x in
       let '(int_digits, frac_digits, exponent) := PyFloat.layout_g p digits decpt in
       (if PyFloat.signbit x then "-" else "")
       ++ (if PyFloat.thousands spec then PyFloat.insert_thousands int_digits
           else int_digits)
       ++ (if PyStr.is_empty frac_digits then "" else "." ++ frac_digits)
       ++ exponent) "." = false).
  { pose proof (no_point_dtoa p x) as Hd.
    destruct (PyFloat.dtoa p x) as [digits decpt]. cbn [fst] in Hd.
    destruct (no_point_layout p digits decpt Hd) as (Hi & Hf & He).
    destruct (PyFloat.layout_g p digits decpt) as [[int_digits frac_digits] exponent].
    cbn [fst snd] in Hi, Hf, He.
    rewrite <- append_assoc. apply no_final_point; try assumption.
    rewrite no_point_append.
    destruct (PyFloat.signbit x), (PyFloat.thousands spec); cbn [no_point all_chars not_point];
      simpl; rewrite ?Hi; try reflexivity; now apply no_point_thousands. }
  destruct x as [s | s | | s m e]; try exact Hfinite; try reflexivity.
  now destruct s.
Qed.

(** ** The significant digits *)

Lemma string_of_uint_length (d : Decimal.uint) :
  length (string_of_uint d) = Decimal.nb_digits d.
Proof. induction d; simpl; auto. Qed.

Lemma of_uint_acc_bounds (d : Decimal.uint) :
  forall acc,
    (Zpos acc * 10 ^ Z.of_nat (Decimal.nb_digits d)
     <= Zpos (Pos.of_uint_acc d acc)
     < (Zpos acc + 1) * 10 ^ Z.of_nat (Decimal.nb_digits d))%Z.
Proof.
  induction d as [| d IH | d IH | d IH | d IH | d IH | d IH | d IH | d IH | d IH | d IH];
    intro acc; cbn [Pos.of_uint_acc Decimal.nb_digits];
    [ rewrite Z.pow_0_r; lia | .. ];
    rewrite Nat2Z.inj_succ, Z.pow_succ_r by lia;
    match goal with
    | |- context [Pos.of_uint_acc d ?a] => specialize (IH a)
    end;
    assert (0 < 10 ^ Z.of_nat (Decimal.nb_digits d))%Z by (apply Z.pow_pos_nonneg; lia);
    nia.
Qed.

Lemma nzhead_head (d : Decimal.uint) :
  match Decimal.nzhead d with Decimal.D0 _ => False | _ => True end.
Proof. induction d; simpl; auto. Qed.

(** The decimal writing of a positive number starts with a digit other than
    zero. *)
Lemma to_uint_head (p : positive) :
  match Pos.to_uint p with
  | Decimal.Nil | Decimal.D0 _ => False
  | _ => True
  end.
Proof.
  assert (Hn : Decimal.unorm (Pos.to_uint p) = Pos.to_uint p).
  { rewrite <- (DecimalN.Unsigned.to_of (Pos.to_uint p)).
    change (N.of_uint (Pos.to_uint p)) with (N.of_uint (N.to_uint (Npos p))).
    now rewrite DecimalN.Unsigned.of_to. }
  pose proof (DecimalPos.Unsigned.to_uint_nonzero p) as Hz.
  pose proof (DecimalPos.Unsigned.to_uint_nonnil p) as Hnil.
  destruct (Pos.to_uint p) as [| d | d | d | d | d | d | d | d | d | d]; auto.
  unfold Decimal.unorm in Hn. cbn [Decimal.nzhead] in Hn.
  pose proof (nzhead_head d) as Hh.
  destruct (Decimal.nzhead d); try discriminate Hn; try contradiction.
  now apply Hz.
Qed.

Lemma decimal_bounds (n : Z) :
  (0 < n)%Z ->
  (1 <= length (PyFloat.decimal n))%nat
  /\ (10 ^ (Z.of_nat (length (PyFloat.decimal n)) - 1) <= n
      < 10 ^ Z.of_nat (length (PyFloat.decimal n)))%Z.
Proof.
  destruct n as [| p | p]; try lia. intros _.
  unfold PyFloat.decimal. cbn [Z.to_N N.to_uint].
  rewrite string_of_uint_length.
  pose proof (to_uint_head p) as Hh.
  pose proof (DecimalN.Unsigned.of_to (Npos p)) as Hv. cbn [N.to_uint] in Hv.
  destruct (Pos.to_uint p) as [| d | d | d | d | d | d | d | d | d | d];
    try contradiction;
    cbn [N.of_uint Pos.of_uint] in Hv; injection Hv as Hv;
    cbn [Decimal.nb_digits]; (split; [lia |]);
    rewrite Nat2Z.inj_succ, Z.pow_succ_r by lia;
    replace (Z.succ (Z.of_nat (Decimal.nb_digits d)) - 1)%Z
      with (Z.of_nat (Decimal.nb_digits d)) by lia;
    match type of Hv with
    | Pos.of_uint_acc d ?a = p => pose proof (of_uint_acc_bounds d a) as Hb
    end;
    rewrite Hv in Hb;
    assert (0 < 10 ^ Z.of_nat (Decimal.nb_digits d))%Z by (apply Z.pow_pos_nonneg; lia);
    nia.
Qed.

Lemma decimal_length_le (n : Z) (k : nat) :
  (0 < n < 10 ^ Z.of_nat k)%Z -> (length (PyFloat.decimal n) <= k)%nat.
Proof.
  intros [Hpos Hlt]. destruct (decimal_bounds n Hpos) as (H1 & Hlo & _).
  destruct (le_lt_dec (length (PyFloat.decimal n)) k) as [Hle | Hgt]; [exact Hle |].
  assert (10 ^ Z.of_nat k <= 10 ^ (Z.of_nat (length (PyFloat.decimal n)) - 1))%Z
    by (apply Z.pow_le_mono_r; lia).
  lia.
Qed.

Lemma round_half_even_bounds (n d : Z) :
  (n / d <= PyFloat.round_half_even n d <= n / d + 1)%Z.
Proof.
  unfold PyFloat.round_half_even.
  destruct (2 * (n mod d) ?= d)%Z; [destruct (Z.even (n / d)) | |]; lia.
Qed.

Lemma round_half_even_one (n : Z) : PyFloat.round_half_even n 1 = n.
Proof.
  unfold PyFloat.round_half_even. rewrite Z.mod_1_r, Z.div_1_r. reflexivity.
Qed.

Lemma rstrip_length (p : char -> bool) (s : string) :
  (length (PyStr.rstrip_with p s) <= length s)%nat.
Proof.
  induction s as [|c s IH]; simpl; [lia |].
  destruct (PyStr.rstrip_with p s); [destruct (p c) |]; simpl in *; lia.
Qed.

Lemma rstrip_keeps_head (p : char -> bool) (c : char) (s : string) :
  p c = false -> (1 <= length (PyStr.rstrip_with p (String c s)))%nat.
Proof.
  intro Hc. simpl. destruct (PyStr.rstrip_with p s); [rewrite Hc |]; simpl; lia.
Qed.

Lemma decimal_rstrip_zero (n : Z) :
  (0 < n)%Z -> (1 <= length (PyStr.rstrip (PyFloat.decimal n) "0"))%nat.
Proof.
  destruct n as [| p | p]; try lia. intros _.
  unfold PyFloat.decimal, PyStr.rstrip. cbn [Z.to_N N.to_uint].
  pose proof (to_uint_head p) as Hh.
  destruct (Pos.to_uint p); try contradiction;
    cbn [string_of_uint]; now apply rstrip_keeps_head.
Qed.

(** The digits of the precision-12 conversion: at least one, at most 12. *)
Lemma dtoa_digits (x : PyFloat.float) :
  (1 <= length (fst (PyFloat.dtoa 12 x)) <= 12)%nat.
Proof.
  destruct x as [s | s | | s m e]; try (simpl; lia).
  cbn [PyFloat.dtoa fst].
  set (M := if (0 <=? e)%Z then (Z.pos m * 2 ^ e)%Z else (Z.pos m * 5 ^ (- e))%Z).
  assert (HM : (0 < M)%Z).
  { unfold M. destruct (0 <=? e)%Z eqn:He.
    - apply Z.leb_le in He. apply Z.mul_pos_pos; [lia | apply Z.pow_pos_nonneg; lia].
    - apply Z.leb_gt in He. apply Z.mul_pos_pos; [lia | apply Z.pow_pos_nonneg; lia]. }
  destruct (decimal_bounds M HM) as (HD1 & Hlo & Hhi).
  set (D := length (PyFloat.decimal M)) in *.
  destruct (le_lt_dec D 12) as [Hle | Hgt].
  - replace (Z.max 0 (Z.of_nat D - 12)) with 0%Z by lia.
    rewrite Z.pow_0_r, round_half_even_one. fold D.
    split; [now apply decimal_rstrip_zero |].
    etransitivity; [apply rstrip_length |]. fold D. exact Hle.
  - replace (Z.max 0 (Z.of_nat D - 12)) with (Z.of_nat D - 12)%Z by lia.
    set (T := (10 ^ (Z.of_nat D - 12))%Z).
    assert (HT : (0 < T)%Z) by (apply Z.pow_pos_nonneg; lia).
    pose proof (round_half_even_bounds M T) as [Hq1 Hq2].
    set (q := PyFloat.round_half_even M T) in *.
    assert (Hsplit : (10 ^ Z.of_nat D = 10 ^ 12 * T)%Z).
    { unfold T. rewrite <- Z.pow_add_r by lia. f_equal. lia. }
    assert (Hsplit' : (10 ^ (Z.of_nat D - 1) = 10 ^ 11 * T)%Z).
    { unfold T. rewrite <- Z.pow_add_r by lia. f_equal. lia. }
    assert (Hdiv1 : (10 ^ 11 <= M / T)%Z)
      by (apply Z.div_le_lower_bound; lia).
    assert (Hdiv2 : (M / T < 10 ^ 12)%Z)
      by (apply Z.div_lt_upper_bound; lia).
    assert (Hq : (0 < q)%Z) by lia.
    split; [now apply decimal_rstrip_zero |].
    destruct (Z.eq_dec q (10 ^ 12)) as [-> | Hne].
    + vm_compute. lia.
    + etransitivity; [apply rstrip_length |].
      apply decimal_length_le. change (Z.of_nat 12) with 12%Z. lia.
Qed.

(** Grouping: up to three digits are left alone, and three more digits
    after a non-empty text add one separator before them. *)
Lemma group_rev_full (c : char) (l : list char) :
  PyFloat.group_rev 3 (c :: l) = ","%char :: PyFloat.group_rev 0 (c :: l).
Proof. reflexivity. Qed.

Lemma insert_thousands_short (d : string) :
  (length d <= 3)%nat -> PyFloat.insert_thousands d = d.
Proof.
  destruct d as [|c1 [|c2 [|c3 [|c4 d]]]]; simpl; try reflexivity; lia.
Qed.

Lemma insert_thousands_group (d : string) (c1 c2 c3 : char) :
  d <> "" ->
  PyFloat.insert_thousands (d ++ String c1 (String c2 (String c3 "")))
  = PyFloat.insert_thousands d ++ String "," (String c1 (String c2 (String c3 ""))).
Proof.
  intro Hd. unfold PyFloat.insert_thousands.
  assert (Hl : list_of_string (d ++ String c1 (String c2 (String c3 "")))
               = (list_of_string d ++ [c1; c2; c3])%list).
  { clear Hd. induction d as [|c d IH]; simpl; [reflexivity | now rewrite IH]. }
  rewrite Hl, rev_app_distr. cbn [rev app PyFloat.group_rev Nat.eqb].
  destruct (rev (list_of_string d)) as [|x l] eqn:Hr.
  - apply (f_equal (@rev char)) in Hr. rewrite rev_involutive in Hr.
    destruct d; [now destruct Hd | discriminate Hr].
  - rewrite group_rev_full. cbn [rev]. rewrite <- !app_assoc. cbn [app].
    set (g := rev (PyFloat.group_rev 0 (x :: l))).
    clearbody g. induction g as [|y g IH]; simpl; [reflexivity | now rewrite IH].
Qed.

(** ** The characters of the formatted text *)

Section Alphabet.

Variable p : char -> bool.
Hypothesis p_digit : forall c, is_digit c = true -> p c = true.

Lemma alphabet_uint (d : Decimal.uint) :
  all_chars p (string_of_uint d) = true.
Proof.
  induction d; simpl; rewrite ?IHd, ?andb_true_r; try reflexivity;
    now apply p_digit.
Qed.

Lemma alphabet_decimal (n : Z) : all_chars p (PyFloat.decimal n) = true.
Proof. apply alphabet_uint. Qed.

Lemma alphabet_zeros (n : nat) : all_chars p (PyFloat.zeros n) = true.
Proof.
  induction n; simpl; [reflexivity |]. rewrite IHn, andb_true_r.
  now apply p_digit.
Qed.

Lemma alphabet_dtoa (ndigits : Z) (x : PyFloat.float) :
  all_chars p (fst (PyFloat.dtoa ndigits x)) = true.
Proof.
  destruct x; cbn [PyFloat.dtoa fst];
    try (simpl; rewrite andb_true_r; now apply p_digit).
  apply all_chars_rstrip, alphabet_decimal.
Qed.

Hypothesis p_marks :
  p "," = true /\ p "." = true /\ p "-" = true /\ p "+" = true /\ p "e" = true.

Lemma alphabet_group_rev (l : list char) :
  forallb p l = true -> forall k, forallb p (PyFloat.group_rev k l) = true.
Proof.
  destruct p_marks as (Hc & _).
  induction l as [|c l IH]; intros H k; [reflexivity |].
  simpl in H. apply andb_prop in H as [Hh Hl]. simpl.
  destruct (k =? 3)%nat; simpl; rewrite ?Hc, Hh; simpl; now apply IH.
Qed.

Lemma alphabet_thousands (digits : string) :
  all_chars p digits = true ->
  all_chars p (PyFloat.insert_thousands digits) = true.
Proof.
  intro H. unfold PyFloat.insert_thousands.
  rewrite all_chars_of_list, forallb_reverse. apply alphabet_group_rev.
  now rewrite forallb_reverse, all_chars_to_list.
Qed.

Lemma alphabet_exponent (e : Z) : all_chars p (PyFloat.exponent_text e) = true.
Proof.
  destruct p_marks as (_ & _ & Hm & Hp & _).
  unfold PyFloat.exponent_text. rewrite all_chars_append.
  assert (H0 : p "0" = true) by now apply p_digit.
  destruct (e <? 0)%Z; simpl; rewrite ?Hm, ?Hp; simpl;
    destruct (length _ <? 2)%nat; simpl; rewrite ?H0; simpl;
    apply alphabet_decimal.
Qed.

Lemma alphabet_layout (precision : Z) (digits : string) (decpt : Z) :
  all_chars p digits = true ->
  all_chars p (fst (fst (PyFloat.layout_g precision digits decpt))) = true
  /\ all_chars p (snd (fst (PyFloat.layout_g precision digits decpt))) = true
  /\ all_chars p (snd (PyFloat.layout_g precision digits decpt)) = true.
Proof.
  intro H. destruct p_marks as (_ & _ & _ & _ & He).
  assert (H0 : p "0" = true) by now apply p_digit.
  unfold PyFloat.layout_g.
  destruct (_ || _); [| destruct (decpt <=? 0)%Z; [| destruct (decpt <? _)%Z]];
    cbn [fst snd]; repeat split;
    rewrite ?all_chars_append, ?alphabet_zeros, ?H; try reflexivity;
    try (now apply all_chars_substring).
  - cbn [append all_chars]. rewrite He. apply alphabet_exponent.
  - simpl. now rewrite H0.
Qed.

Lemma alphabet_format_finite (x : PyFloat.float) (spec : PyFloat.format_spec) :
  PyFloat.is_finite x = true ->
  all_chars p (PyFloat.format x spec) = true.
Proof.
  intro Hfin. destruct p_marks as (_ & Hpt & Hm & _ & _).
  unfold PyFloat.format.
  set (q := if (PyFloat.precision spec =? 0)%Z then 1%Z else PyFloat.precision spec).
  assert (Hfinite :
    all_chars p
      (let '(digits, decpt) := PyFloat.dtoa q x in
       let '(int_digits, frac_digits, exponent) := PyFloat.layout_g q digits decpt in
       (if PyFloat.signbit x then "-" else "")
       ++ (if PyFloat.thousands spec then PyFloat.insert_thousands int_digits
           else int_digits)
       ++ (if PyStr.is_empty frac_digits then "" else "." ++ frac_digits)
       ++ exponent) = true).
  { pose proof (alphabet_dtoa q x) as Hd.
    destruct (PyFloat.dtoa q x) as [digits decpt]. cbn [fst] in Hd.
    destruct (alphabet_layout q digits decpt Hd) as (Hi & Hf & He).
    destruct (PyFloat.layout_g q digits decpt) as [[int_digits frac_digits] exponent].
    cbn [fst snd] in Hi, Hf, He.
    rewrite !all_chars_append, He, andb_true_r.
    assert (Hs : all_chars p (if PyFloat.signbit x then "-" else "") = true)
      by (destruct (PyFloat.signbit x); simpl; rewrite ?Hm; reflexivity).
    assert (Ht : all_chars p (if PyFloat.thousands spec
                              then PyFloat.insert_thousands int_digits
                              else int_digits) = true)
      by (destruct (PyFloat.thousands spec); [now apply alphabet_thousands | exact Hi]).
    assert (Hr : all_chars p (if PyStr.is_empty frac_digits then ""
                              else "." ++ frac_digits) = true)
      by (destruct (PyStr.is_empty frac_digits); simpl; rewrite ?Hpt, ?Hf; reflexivity).
    now rewrite Hs, Ht, Hr. }
  destruct x as [s | s | | s m e]; try discriminate Hfin; exact Hfinite.
Qed.

End Alphabet.

Lemma layout_integer_part (precision : Z) (digits : string) (decpt : Z) :
  digits <> "" ->
  fst (fst (PyFloat.layout_g precision digits decpt)) <> "".
Proof.
  intro Hd. destruct digits as [|c digits]; [now destruct Hd |].
  unfold PyFloat.layout_g.
  destruct (_ || _); [| destruct (decpt <=? 0)%Z eqn:H0; [| destruct (decpt <? _)%Z]];
    cbn [fst snd]; try discriminate.
  apply Z.leb_gt in H0.
  destruct (Z.to_nat decpt) as [|k] eqn:Hk; [lia |]. simpl. discriminate.
Qed.










(** ** Values that are not finite *)

(** C6.  When the evaluation of a line yields NaN or an infinity, the
    output line is [str] of that value, which is "nan", "inf" or "-inf":
    the value is not given to the grouped-digit formatter and nothing is
    raised. *)
Theorem non_finite_value_rendering `{B : Backend}
    (lines : list string) (i : nat) (line : string) (value : PyFloat.float) :
  nth_error lines i = Some line ->
  PyStr.strip line <> "" ->
  _convert_expression (PyStr.strip line) = Return value ->
  PyFloat.isnan value || PyFloat.isinf value = true ->
  exists outputs,
    render_results lines = Return outputs
    /\ nth_error outputs i = Some (str value)
    /\ _format_value value = str value
    /\ (str value = "nan" /\ PyFloat.isnan value = true
        \/ str value = "inf" /\ value = S754_infinity false
        \/ str value = "-inf" /\ value = S754_infinity true).
Proof.
  intros Hi Hne Hv Hnf. exists (map line_output lines). rewrite render_results_eq.
  assert (Hf : _format_value value = str value)
    by (unfold _format_value; now rewrite Hnf).
  split; [reflexivity |]. split; [| split; [exact Hf |]].
  - rewrite nth_error_map, Hi. simpl. f_equal.
    rewrite line_output_eq, Hv. apply is_empty_false in Hne. now rewrite Hne.
  - destruct value as [s | [|] | | s m e]; try discriminate Hnf; simpl; auto.
Qed.

Lemma non_finite_value_rendering_witness :
  exists outputs,
    render_results (B := Demo.backend) ["5 m to nan"; "5 m to -inf"; "5 m to inf"]
      = Return outputs
    /\ nth_error outputs 1 = Some "-inf".
Proof.
  destruct (non_finite_value_rendering (B := Demo.backend)
              ["5 m to nan"; "5 m to -inf"; "5 m to inf"] 1 "5 m to -inf"
              (S754_infinity true) eq_refl)
    as (outputs & Hr & Hn & _).
  - vm_compute. discriminate.
  - vm_compute. reflexivity.
  - reflexivity.
  - exists outputs. split; [exact Hr | exact Hn].
Defined.

(** ** Splitting the text into lines *)

Lemma splitlines_from_boundary (a : string) :
  no_linebreak a = true ->
  forall line c rest,
    PyStr.islinebreak c = true ->
    PyStr.splitlines_from line (a ++ String c rest) =
      (line ++ a) ::
        match rest with
        | String d rest' =>
            if Char.eqb c (chr 13) && Char.eqb d (chr 10)
            then PyStr.splitlines_from "" rest'
            else PyStr.splitlines_from "" rest
        | EmptyString => []
        end.
Proof.
  induction a as [|x a IH]; intros Ha line c rest Hc.
  - rewrite append_empty_r. cbn [append PyStr.splitlines_from]. now rewrite Hc.
  - simpl in Ha. apply andb_prop in Ha as [Hx Ha]. apply negb_true_iff in Hx.
    cbn [append PyStr.splitlines_from]. rewrite Hx.
    rewrite (IH Ha _ _ _ Hc), append_assoc. reflexivity.
Qed.

Lemma splitlines_line_feed (a b : string) :
  no_linebreak a = true ->
  PyStr.splitlines (a ++ LF ++ b) = a :: PyStr.splitlines b.
Proof.
  intro Ha. unfold PyStr.splitlines, LF. cbn [append].
  rewrite (splitlines_from_boundary _ Ha) by reflexivity.
  destruct b; reflexivity.
Qed.

Lemma splitlines_carriage_return_line_feed (a b : string) :
  no_linebreak a = true ->
  PyStr.splitlines (a ++ CR ++ LF ++ b) = a :: PyStr.splitlines b.
Proof.
  intro Ha. unfold PyStr.splitlines, LF, CR. cbn [append].
  rewrite (splitlines_from_boundary _ Ha) by reflexivity. reflexivity.
Qed.

Lemma splitlines_carriage_return (a b : string) :
  no_linebreak a = true ->
  Re.head b <> Some (chr 10) ->
  PyStr.splitlines (a ++ CR ++ b) = a :: PyStr.splitlines b.
Proof.
  intros Ha Hb. unfold PyStr.splitlines, CR. cbn [append].
  rewrite (splitlines_from_boundary _ Ha) by reflexivity.
  destruct b as [|d b]; [reflexivity |].
  destruct (char_eqb_spec d (chr 10)) as [-> | Hd]; [now destruct Hb |].
  reflexivity.
Qed.

(** C9.  [update_results] is [render_results] on the lines of the text; it
    returns one output per line and never raises; the empty text gives the
    empty list; and a line feed, a carriage return followed by a line feed,
    and a carriage return alone each end a line. *)
Theorem update_results_splits_lines `{B : Backend} :
  (forall text,
      update_results text = render_results (PyStr.splitlines text)
      /\ exists outputs,
           update_results text = Return outputs
           /\ List.length outputs = List.length (PyStr.splitlines text))
  /\ update_results "" = Return []
  /\ (forall a b,
        no_linebreak a = true ->
        PyStr.splitlines (a ++ LF ++ b) = a :: PyStr.splitlines b
        /\ PyStr.splitlines (a ++ CR ++ LF ++ b) = a :: PyStr.splitlines b
        /\ (Re.head b <> Some (chr 10) ->
            PyStr.splitlines (a ++ CR ++ b) = a :: PyStr.splitlines b)).
Proof.
  split; [| split].
  - intro text. split; [reflexivity |].
    exists (map line_output (PyStr.splitlines text)).
    unfold update_results. rewrite render_results_eq.
    split; [reflexivity | apply length_map].
  - reflexivity.
  - intros a b Ha. split; [| split].
    + now apply splitlines_line_feed.
    + now apply splitlines_carriage_return_line_feed.
    + intro Hb. now apply splitlines_carriage_return.
Qed.

Lemma update_results_splits_lines_witness :
  PyStr.splitlines ("5 m to m" ++ LF ++ "3 m to m") = ["5 m to m"; "3 m to m"]
  /\ PyStr.splitlines ("5 m to m" ++ CR ++ LF ++ "3 m to m") = ["5 m to m"; "3 m to m"]
  /\ PyStr.splitlines ("5 m to m" ++ CR ++ "3 m to m") = ["5 m to m"; "3 m to m"]
  /\ update_results (B := Demo.backend) ("5 m to m" ++ CR ++ LF ++ LF ++ "bad" ++ CR ++ "3 m to m" ++ LF)
     = Return ["5"; ""; ""; "3"].
Proof.
  destruct (update_results_splits_lines (B := Demo.backend)) as (_ & _ & H).
  destruct (H "5 m to m" "3 m to m" eq_refl) as (H1 & H2 & H3).
  split; [exact H1 |]. split; [exact H2 |]. split.
  - apply H3. discriminate.
  - vm_compute. reflexivity.
Defined.

(** * Further properties *)

Lemma string_length_append (s t : string) :
  length (s ++ t) = (length s + length t)%nat.
Proof. induction s as [|c s IH]; simpl; [reflexivity | now rewrite IH]. Qed.

(** ** Outcomes of the evaluation *)

Section Outcomes.

Context `{B : Backend}.

Lemma split_connector_shape (expression : string) :
  split_connector expression = [expression]
  \/ exists source target, split_connector expression = [source; target].
Proof.
  destruct (split_cases expression) as [[H _] | (a & w & b & H & _)].
  - now left.
  - right. now exists a, b.
Qed.

(** Every outcome of the evaluation of a trimmed line. *)
Lemma convert_expression_outcome (expression : string) :
  (line_failure expression /\ raises (_convert_expression expression))
  \/ exists value,
       evaluates_to expression value
       /\ _convert_expression expression = Return value.
Proof.
  destruct (split_connector_shape expression) as [Hone | (source & target & Hcut)].
  - left. split.
    + apply Missing_connector. now apply uncut_gives_no_connector.
    + now apply convert_expression_uncut.
  - rewrite (convert_expression_cut _ _ _ Hcut).
    destruct (PyStr.is_empty (PyStr.strip source)) eqn:Hs.
    { left. split; [| eexists; reflexivity].
      apply (Empty_half _ _ _ Hcut). left.
      destruct (PyStr.strip source); [reflexivity | discriminate Hs]. }
    destruct (PyStr.is_empty (PyStr.strip target)) eqn:Ht.
    { left. split; [| eexists; reflexivity].
      apply (Empty_half _ _ _ Hcut). right.
      destruct (PyStr.strip target); [reflexivity | discriminate Ht]. }
    cbn [orb].
    destruct (parse_input (PyStr.strip source)) as [[value_text [source_unit |]] | e]
      eqn:Hparse; cbn [bind].
    + destruct (PyStr.is_empty value_text) eqn:Hv.
      { left. split; [| eexists; reflexivity].
        apply (Missing_value_or_unit _ _ _ _ _ Hcut Hparse). left.
        destruct value_text; [reflexivity | discriminate Hv]. }
      destruct (PyStr.is_empty (PyStr.rstrip source_unit ".,;")) eqn:Hu.
      { left. split; [| eexists; reflexivity].
        apply (Empty_after_punctuation _ _ _ _ _ Hcut Hparse). left.
        destruct (PyStr.rstrip source_unit ".,;"); [reflexivity | discriminate Hu]. }
      destruct (PyStr.is_empty (PyStr.rstrip (PyStr.strip target) ".,;")) eqn:Hp.
      { left. split; [| eexists; reflexivity].
        apply (Empty_after_punctuation _ _ _ _ _ Hcut Hparse). right.
        destruct (PyStr.rstrip (PyStr.strip target) ".,;");
          [reflexivity | discriminate Hp]. }
      destruct (builtin_float value_text) as [x | e] eqn:Hfloat.
      * cbn [try_except bind].
        destruct (convert x _ _) as [[value |] | e] eqn:Hconv; cbn [bind].
        -- right. exists value. split; [| reflexivity].
           exists source, target, value_text, source_unit, x.
           apply is_empty_false in Hs, Ht, Hv, Hu, Hp. repeat split; assumption.
        -- left. split; [| eexists; reflexivity].
           exact (Absent_result _ _ _ _ _ _ Hcut Hparse Hfloat Hconv).
        -- left. split; [| eexists; reflexivity].
           exact (Conversion_raises _ _ _ _ _ _ _ Hcut Hparse Hfloat Hconv).
      * left. split.
        -- exact (Invalid_numeric_literal _ _ _ _ _ _ Hcut Hparse Hfloat).
        -- destruct e; cbn; eexists; reflexivity.
    + left. split; [| eexists; reflexivity].
      apply (Missing_value_or_unit _ _ _ _ _ Hcut Hparse). now right.
    + left. split; [| eexists; reflexivity].
      exact (Parser_raises _ _ _ _ Hcut Hparse).
Qed.

Lemma raises_not_returns {A : Type} (r : result A) (a : A) :
  raises r -> r <> Return a.
Proof. intros [e ->]. discriminate. Qed.

(** X1.  The evaluation of a trimmed line raises exactly when the line fails in
    one of the eight ways of [line_failure]: these are all the ways there
    are. *)
Theorem failure_kinds_exhaustive (expression : string) :
  raises (_convert_expression expression) <-> line_failure expression.
Proof.
  split.
  - intro Hr.
    destruct (convert_expression_outcome expression) as [[Hf _] | (v & _ & Hv)];
      [exact Hf |].
    destruct (raises_not_returns _ v Hr Hv).
  - apply line_failure_raises.
Qed.

Lemma evaluates_to_returns (expression : string) (value : PyFloat.float) :
  evaluates_to expression value -> _convert_expression expression = Return value.
Proof.
  intros (source & target & value_text & source_unit & x
          & Hcut & Hs & Ht & Hparse & Hv & Hu & Hp & Hfloat & Hconv).
  rewrite (convert_expression_cut _ _ _ Hcut), Hparse.
  apply is_empty_false in Hs, Ht, Hv, Hu, Hp.
  rewrite Hs, Ht. cbn [orb bind]. rewrite Hv, Hu, Hp, Hfloat.
  cbn [try_except bind]. rewrite Hconv. reflexivity.
Qed.

(** X2.  [_convert_expression] returns [value] exactly when the line is cut in
    two non-empty halves, the parser gives a non-empty value text and a
    unit, unit and target stay non-empty without their trailing
    punctuation, the value text reads as a float, and the converter returns
    [value] for them. *)
Theorem evaluation_succeeds_iff (expression : string) (value : PyFloat.float) :
  _convert_expression expression = Return value <-> evaluates_to expression value.
Proof.
  split; [| apply evaluates_to_returns].
  intro Hv.
  destruct (convert_expression_outcome expression) as [[_ Hr] | (v & He & Hv')].
  - destruct (raises_not_returns _ value Hr Hv).
  - rewrite Hv in Hv'. injection Hv' as ->. exact He.
Qed.

(** X3.  An exception of [_convert_expression] is a [ValueError] or is the very
    exception that the parser, [float()] or the converter raised. *)
Theorem evaluation_raises_value_error (expression : string) (e : exn) :
  _convert_expression expression = Raise e ->
  (exists msg, e = ValueError msg) \/ raised_by_backend e.
Proof.
  destruct (split_connector_shape expression) as [Hone | (source & target & Hcut)].
  - unfold split_connector in Hone. unfold _convert_expression. rewrite Hone.
    intro H; injection H as <-. left. eexists; reflexivity.
  - rewrite (convert_expression_cut _ _ _ Hcut).
    destruct (_ || _); [intro H; injection H as <-; left; eexists; reflexivity |].
    destruct (parse_input (PyStr.strip source)) as [[value_text [source_unit |]] | e']
      eqn:Hparse; cbn [bind].
    + repeat (destruct (PyStr.is_empty _);
              [intro H; injection H as <-; left; eexists; reflexivity |]).
      destruct (builtin_float value_text) as [x | e'] eqn:Hfloat.
      * cbn [try_except bind].
        destruct (convert x _ _) as [[value |] | e''] eqn:Hconv; cbn [bind].
        -- discriminate.
        -- intro H; injection H as <-. left. eexists; reflexivity.
        -- intro H; injection H as <-. right. right. right. eauto.
      * destruct e'; cbn; intro H; injection H as <-.
        -- left. eexists; reflexivity.
        -- right. right. left. eauto.
        -- right. right. left. eauto.
    + intro H; injection H as <-. left. eexists; reflexivity.
    + intro H; injection H as <-. right. left. eauto.
Qed.

End Outcomes.

Lemma evaluation_raises_value_error_witness :
  (exists msg, OtherException "internal error" = ValueError msg)
  \/ raised_by_backend (B := Demo.backend) (OtherException "internal error").
Proof.
  apply (evaluation_raises_value_error (B := Demo.backend) "5 m to crash").
  vm_compute. reflexivity.
Defined.

Lemma evaluation_succeeds_iff_witness :
  evaluates_to (B := Demo.backend) "3 m to m." (S754_finite false 3 0).
Proof.
  apply (proj1 (evaluation_succeeds_iff (B := Demo.backend) "3 m to m."
                  (S754_finite false 3 0))).
  vm_compute. reflexivity.
Defined.

Lemma failure_kinds_exhaustive_witness :
  line_failure (B := Demo.backend) "5 m to none"
  /\ raises (_convert_expression (B := Demo.backend) "10 kwh").
Proof.
  split.
  - apply (proj1 (failure_kinds_exhaustive (B := Demo.backend) "5 m to none")).
    eexists. vm_compute. reflexivity.
  - apply (proj2 (failure_kinds_exhaustive (B := Demo.backend) "10 kwh")).
    apply Missing_connector. apply uncut_gives_no_connector. reflexivity.
Defined.

(** ** The text of an output line *)

Lemma output_char_digit (c : char) : is_digit c = true -> output_char c = true.
Proof. intro H. unfold output_char. now rewrite H. Qed.

Lemma output_char_plain (c : char) :
  output_char c = true ->
  PyStr.isspace c = false /\ PyStr.islinebreak c = false.
Proof.
  unfold output_char. intro H. apply orb_prop in H as [H | H].
  - destruct c as [n]. unfold is_digit, PyStr.between in H. cbn [PyStr.ord] in H.
    apply andb_prop in H as [H1 H2]. apply N.leb_le in H1, H2.
    assert (Hin : In n (codes_from 48 10)) by (apply codes_from_in; lia).
    vm_compute in Hin.
    repeat (destruct Hin as [<- | Hin]; [split; reflexivity |]). destruct Hin.
  - cbn [PyStr.contains] in H.
    repeat (apply orb_prop in H as [H | H];
            [apply char_eqb_eq in H; subst c; split; reflexivity |]).
    discriminate H.
Qed.

Lemma all_chars_implies (p q : char -> bool) (s : string) :
  (forall c, p c = true -> q c = true) ->
  all_chars p s = true -> all_chars q s = true.
Proof.
  intro Hpq. induction s as [|c s IH]; [reflexivity |]. simpl.
  intro H. apply andb_prop in H as [Hc Hs]. now rewrite (Hpq _ Hc), IH.
Qed.

Section OutputText.

Context `{B : Backend}.

Lemma format_value_alphabet (value : PyFloat.float) :
  all_chars output_char (_format_value value) = true.
Proof.
  unfold _format_value.
  destruct (PyFloat.isnan value || PyFloat.isinf value) eqn:Hn.
  - destruct value as [s | [|] | | s m e]; try discriminate Hn; reflexivity.
  - rewrite format_no_final_point.
    apply alphabet_format_finite;
      [exact output_char_digit | repeat split | ].
    unfold PyFloat.is_finite. now rewrite Hn.
Qed.

Lemma line_output_cases (line : string) :
  line_output line = ""
  \/ exists value, _convert_expression (PyStr.strip line) = Return value
                   /\ PyStr.strip line <> ""
                   /\ line_output line = _format_value value.
Proof.
  rewrite line_output_eq.
  destruct (PyStr.is_empty (PyStr.strip line)) eqn:He; [now left |].
  destruct (_convert_expression (PyStr.strip line)) as [v | e]; [| now left].
  right. exists v. apply is_empty_false in He. auto.
Qed.

Lemma line_output_plain (line : string) :
  all_chars output_char (line_output line) = true
  /\ no_linebreak (line_output line) = true
  /\ all_chars (fun c => negb (PyStr.isspace c)) (line_output line) = true.
Proof.
  assert (Ha : all_chars output_char (line_output line) = true).
  { destruct (line_output_cases line) as [-> | (v & _ & _ & ->)];
      [reflexivity | apply format_value_alphabet]. }
  split; [exact Ha |]. split.
  - apply (all_chars_implies output_char); [| exact Ha].
    intros c Hc. now rewrite (proj2 (output_char_plain c Hc)).
  - apply (all_chars_implies output_char); [| exact Ha].
    intros c Hc. now rewrite (proj1 (output_char_plain c Hc)).
Qed.

(** X5.  Every output line is made of digits, the marks , . - + e and the
    letters of "nan" and "inf" only; it holds no whitespace and no line
    boundary. *)
Theorem output_lines_are_plain (lines : list string) :
  exists outputs,
    render_results lines = Return outputs
    /\ forall output,
         In output outputs ->
         all_chars output_char output = true
         /\ no_linebreak output = true
         /\ all_chars (fun c => negb (PyStr.isspace c)) output = true.
Proof.
  exists (map line_output lines). rewrite render_results_eq.
  split; [reflexivity |]. intros output Hin.
  apply in_map_iff in Hin as (line & <- & _). apply line_output_plain.
Qed.

Lemma insert_thousands_length (digits : string) :
  (length digits <= length (PyFloat.insert_thousands digits))%nat.
Proof.
  unfold PyFloat.insert_thousands.
  assert (Hs : forall l, length (string_of_list l) = List.length l)
    by (induction l as [|c l IH]; simpl; [reflexivity | now rewrite IH]).
  assert (Hl : forall s, List.length (list_of_string s) = length s)
    by (induction s as [|c s IH]; simpl; [reflexivity | now rewrite IH]).
  assert (Hg : forall l k, (List.length l <= List.length (PyFloat.group_rev k l))%nat).
  { induction l as [|c l IH]; intro k; simpl; [lia |].
    destruct (k =? 3)%nat; simpl.
    - specialize (IH 1%nat). lia.
    - specialize (IH (S k)). lia. }
  rewrite Hs, length_rev. rewrite <- Hl, <- (length_rev (list_of_string digits)).
  apply Hg.
Qed.

Lemma format_value_nonempty (value : PyFloat.float) : _format_value value <> "".
Proof.
  unfold _format_value.
  destruct (PyFloat.isnan value || PyFloat.isinf value) eqn:Hn.
  - destruct value as [s | [|] | | s m e]; try discriminate Hn; discriminate.
  - rewrite format_no_final_point.
    assert (Hlen : (1 <= length (PyFloat.format value _FORMAT_SPEC))%nat).
    { unfold PyFloat.format. cbn [_FORMAT_SPEC PyFloat.precision PyFloat.thousands Z.eqb].
      pose proof (dtoa_digits value) as [Hd _].
      destruct (PyFloat.dtoa 12 value) as [digits decpt]. cbn [fst] in Hd.
      assert (Hne : digits <> "") by (intros ->; simpl in Hd; lia).
      pose proof (layout_integer_part 12 digits decpt Hne) as Hi.
      destruct (PyFloat.layout_g 12 digits decpt) as [[int_digits frac] ex].
      cbn [fst] in Hi.
      pose proof (insert_thousands_length int_digits) as Ht.
      assert (1 <= length int_digits)%nat
        by (destruct int_digits; [now destruct Hi | simpl; lia]).
      assert (Hfin : (1 <= length
                ((if PyFloat.signbit value then "-" else "") ++
                 PyFloat.insert_thousands int_digits ++
                 (if PyStr.is_empty frac then "" else "." ++ frac) ++ ex))%nat).
      { rewrite !string_length_append. lia. }
      destruct value as [s | s | | s m e]; try discriminate Hn; exact Hfin. }
    intro Hf. rewrite Hf in Hlen. simpl in Hlen. lia.
Qed.

(** X4.  The output of a line is "" exactly when the line is blank or its
    evaluation raises: a value is never shown as the empty text. *)
Theorem blank_output_iff (line : string) :
  render_results [line] = Return [""]
  <-> PyStr.strip line = "" \/ raises (_convert_expression (PyStr.strip line)).
Proof.
  rewrite render_results_eq. cbn [map]. rewrite line_output_eq. split.
  - intro H. injection H as H.
    destruct (PyStr.is_empty (PyStr.strip line)) eqn:He.
    + left. destruct (PyStr.strip line); [reflexivity | discriminate He].
    + destruct (_convert_expression (PyStr.strip line)) as [v | e].
      * destruct (format_value_nonempty v H).
      * right. eexists; reflexivity.
  - intros [-> | [e ->]]; [reflexivity |].
    now destruct (PyStr.is_empty (PyStr.strip line)).
Qed.

End OutputText.

Lemma blank_output_iff_witness :
  render_results (B := Demo.backend) ["10 apples to oranges"] = Return [""].
Proof.
  apply (proj2 (blank_output_iff (B := Demo.backend) "10 apples to oranges")).
  right. eexists. vm_compute. reflexivity.
Defined.

Lemma output_lines_are_plain_witness :
  no_linebreak "1,234,567" = true.
Proof.
  destruct (output_lines_are_plain (B := Demo.backend) ["1234567 m to m"])
    as (outputs & Hr & Hplain).
  vm_compute in Hr. injection Hr as <-.
  apply (Hplain "1,234,567"). left. reflexivity.
Defined.

(** ** Whitespace and the connector word *)

Lemma strip_padding (l line r : string) :
  whitespace_only l = true -> whitespace_only r = true ->
  PyStr.strip (l ++ line ++ r) = PyStr.strip line.
Proof.
  intros Hl Hr. rewrite <- append_assoc, (strip_append_whitespace _ _ Hr).
  unfold PyStr.strip. rewrite lstrip_append.
  unfold whitespace_only in Hl. now rewrite Hl.
Qed.

(** X6.  Whitespace before and after a line does not change its output. *)
Theorem surrounding_whitespace_ignored `{B : Backend} (l line r : string) :
  whitespace_only l = true -> whitespace_only r = true ->
  render_results [l ++ line ++ r] = render_results [line].
Proof.
  intros Hl Hr. rewrite !render_results_eq. cbn [map].
  now rewrite !line_output_eq, (strip_padding _ _ _ Hl Hr).
Qed.

Lemma surrounding_whitespace_ignored_witness :
  render_results (B := Demo.backend) ["  " ++ "12 in to mm" ++ " "]
  = render_results (B := Demo.backend) ["12 in to mm"].
Proof.
  apply (surrounding_whitespace_ignored (B := Demo.backend)); reflexivity.
Defined.

(** X7.  The output depends only on the trimmed text on each side of the
    connector: two lines whose halves agree once trimmed give the same
    output, whichever connector word they use, in whatever case, with
    whatever whitespace around it. *)
Theorem output_depends_on_trimmed_halves `{B : Backend}
    (line1 line2 source1 target1 source2 target2 : string) :
  split_connector (PyStr.strip line1) = [source1; target1] ->
  split_connector (PyStr.strip line2) = [source2; target2] ->
  PyStr.strip source1 = PyStr.strip source2 ->
  PyStr.strip target1 = PyStr.strip target2 ->
  render_results [line1] = render_results [line2].
Proof.
  intros H1 H2 Hs Ht. rewrite !render_results_eq. cbn [map].
  rewrite !line_output_eq.
  rewrite (convert_expression_cut _ _ _ H1), (convert_expression_cut _ _ _ H2).
  rewrite Hs, Ht.
  assert (He : forall e a b, split_connector e = [a; b] -> PyStr.is_empty e = false).
  { intros e a b H. destruct e; [discriminate H | reflexivity]. }
  now rewrite (He _ _ _ H1), (He _ _ _ H2).
Qed.

Lemma output_depends_on_trimmed_halves_witness :
  render_results (B := Demo.backend) ["12 in to mm"]
  = render_results (B := Demo.backend) [" 12 in   AS mm"].
Proof.
  apply (output_depends_on_trimmed_halves (B := Demo.backend)
           "12 in to mm" " 12 in   AS mm" "12 in " " mm" "12 in   " " mm");
    reflexivity.
Defined.

(** ** Whole numbers *)

Lemma zeros_of_all (r : string) :
  all_chars (PyStr.contains "0") r = true -> r = PyFloat.zeros (length r).
Proof.
  induction r as [|c r IH]; [reflexivity |]. simpl. intro H.
  apply andb_prop in H as [Hc Hr]. rewrite orb_false_r in Hc.
  apply char_eqb_eq in Hc. subst c. f_equal. now apply IH.
Qed.

Lemma rstrip_zeros_restore (s : string) :
  PyStr.rstrip s "0" ++ PyFloat.zeros (length s - length (PyStr.rstrip s "0")) = s.
Proof.
  destruct (rstrip_decompose (PyStr.contains "0") s) as (r & Hs & Hr).
  fold (PyStr.rstrip s "0") in Hs.
  assert (Hl : (length s - length (PyStr.rstrip s "0") = length r)%nat).
  { rewrite Hs at 1. rewrite string_length_append. lia. }
  rewrite Hl, <- (zeros_of_all _ Hr). now symmetry.
Qed.

(** X8.  A value m * 2^e with e >= 0 below 10^12 is shown as its exact decimal
    digits grouped by thousands, after a minus sign if it is negative, with
    no decimal point and no exponent. *)
Theorem whole_number_formatting `{B : Backend} (s : bool) (m : positive) (e : Z) :
  (0 <= e)%Z -> (Zpos m * 2 ^ e < 10 ^ 12)%Z ->
  _format_value (S754_finite s m e)
  = (if s then "-" else "")
    ++ PyFloat.insert_thousands (PyFloat.decimal (Zpos m * 2 ^ e)).
Proof.
  intros He Hn.
  set (n := (Zpos m * 2 ^ e)%Z) in *.
  assert (Hpos : (0 < n)%Z)
    by (apply Z.mul_pos_pos; [lia | apply Z.pow_pos_nonneg; lia]).
  assert (HD : (length (PyFloat.decimal n) <= 12)%nat)
    by (apply decimal_length_le; change (Z.of_nat 12) with 12%Z; lia).
  destruct (decimal_bounds n Hpos) as (HD1 & _).
  assert (Hdtoa : PyFloat.dtoa 12 (S754_finite s m e)
                  = (PyStr.rstrip (PyFloat.decimal n) "0",
                     Z.of_nat (length (PyFloat.decimal n)))).
  { cbn [PyFloat.dtoa]. rewrite (proj2 (Z.leb_le 0 e) He). fold n.
    replace (Z.max 0 (Z.of_nat (length (PyFloat.decimal n)) - 12)) with 0%Z by lia.
    rewrite Z.pow_0_r, round_half_even_one. f_equal. lia. }
  unfold _format_value. cbn [PyFloat.isnan PyFloat.isinf orb].
  rewrite format_no_final_point.
  unfold PyFloat.format.
  cbn [_FORMAT_SPEC PyFloat.precision PyFloat.thousands Z.eqb PyFloat.signbit].
  rewrite Hdtoa.
  pose proof (rstrip_length (PyStr.contains "0") (PyFloat.decimal n)) as Hr.
  fold (PyStr.rstrip (PyFloat.decimal n) "0") in Hr.
  unfold PyFloat.layout_g.
  replace (Z.of_nat (length (PyFloat.decimal n)) <=? -4)%Z with false
    by (symmetry; apply Z.leb_gt; lia).
  replace (12 <? Z.of_nat (length (PyFloat.decimal n)))%Z with false
    by (symmetry; apply Z.ltb_ge; lia).
  replace (Z.of_nat (length (PyFloat.decimal n)) <=? 0)%Z with false
    by (symmetry; apply Z.leb_gt; lia).
  replace (Z.of_nat (length (PyFloat.decimal n))
           <? Z.of_nat (length (PyStr.rstrip (PyFloat.decimal n) "0")))%Z with false
    by (symmetry; apply Z.ltb_ge; lia).
  cbn [orb PyStr.is_empty]. rewrite Nat2Z.id, rstrip_zeros_restore.
  now rewrite !append_empty_r.
Qed.

Lemma whole_number_formatting_witness :
  _format_value (B := Demo.backend) (S754_finite true 1234567 3) = "-9,876,536".
Proof.
  rewrite (whole_number_formatting (B := Demo.backend) true 1234567 3);
    [vm_compute; reflexivity | lia | vm_compute; reflexivity].
Defined.

(** X9.  Thousands grouping leaves up to three digits as they are, and three
    more digits after a non-empty text come after one more separator. *)
Theorem thousands_grouping :
  (forall d, (length d <= 3)%nat -> PyFloat.insert_thousands d = d)
  /\ (forall d c1 c2 c3,
        d <> "" ->
        PyFloat.insert_thousands (d ++ String c1 (String c2 (String c3 "")))
        = PyFloat.insert_thousands d
          ++ String "," (String c1 (String c2 (String c3 "")))).
Proof. split; [exact insert_thousands_short | exact insert_thousands_group]. Qed.

Lemma thousands_grouping_witness :
  PyFloat.insert_thousands "12" = "12"
  /\ PyFloat.insert_thousands ("12" ++ "345")
     = PyFloat.insert_thousands "12" ++ ",345".
Proof.
  destruct thousands_grouping as [Hshort Hgroup].
  split; [apply Hshort; simpl; lia | apply Hgroup; discriminate].
Defined.

(** ** Lines of a text *)

Lemma no_linebreak_append (s t : string) :
  no_linebreak (s ++ t) = no_linebreak s && no_linebreak t.
Proof. apply all_chars_append. Qed.

Lemma splitlines_from_lines (n : nat) :
  forall s line,
    (length s <= n)%nat -> no_linebreak line = true ->
    Forall (fun l => no_linebreak l = true) (PyStr.splitlines_from line s).
Proof.
  induction n as [|n IH]; intros s line Hn Hline.
  - destruct s; [| simpl in Hn; lia]. simpl.
    destruct (PyStr.is_empty line); auto.
  - destruct s as [|c rest]; simpl.
    + destruct (PyStr.is_empty line); auto.
    + simpl in Hn. destruct (PyStr.islinebreak c) eqn:Hc.
      * constructor; [exact Hline |].
        destruct rest as [|d rest']; [constructor |].
        destruct (_ && _).
        -- apply IH; [simpl in Hn; lia | reflexivity].
        -- apply IH; [lia | reflexivity].
      * apply IH; [lia |].
        rewrite no_linebreak_append, Hline. unfold no_linebreak.
        cbn [all_chars andb]. now rewrite Hc.
Qed.

(** X10.  No line that [splitlines] gives to the evaluator holds a line
    boundary. *)
Theorem splitlines_lines_have_no_boundary (text line : string) :
  In line (PyStr.splitlines text) -> no_linebreak line = true.
Proof.
  intro Hin.
  pose proof (splitlines_from_lines (length text) text "" (le_n _) eq_refl) as H.
  rewrite Forall_forall in H. now apply H.
Qed.

Lemma splitlines_lines_have_no_boundary_witness :
  no_linebreak "b" = true.
Proof.
  apply (splitlines_lines_have_no_boundary ("a" ++ CR ++ LF ++ "b" ++ LF ++ "c")).
  vm_compute. auto.
Defined.

Lemma terminator_ends_line (t line : string) :
  is_terminator t -> PyStr.splitlines_from line t = [line].
Proof. intros [-> | [-> | ->]]; reflexivity. Qed.

Lemma last_char_cons (c d : char) (s : string) :
  last_char (String c (String d s)) = last_char (String d s).
Proof. reflexivity. Qed.

Lemma ends_in_line_tail (line line' : string) (c d : char) (s : string) :
  ends_in_line line (String c (String d s)) -> ends_in_line line' (String d s).
Proof.
  unfold ends_in_line. rewrite last_char_cons.
  destruct (last_char_from_cons None d s) as [x Hx]. unfold last_char. now rewrite Hx.
Qed.

Lemma splitlines_from_terminator (t : string) :
  is_terminator t ->
  forall n s line,
    (length s <= n)%nat -> ends_in_line line s ->
    PyStr.splitlines_from line (s ++ t) = PyStr.splitlines_from line s.
Proof.
  intros Ht. induction n as [|n IH]; intros s line Hn Hend.
  - destruct s; [| simpl in Hn; lia]. simpl append.
    rewrite (terminator_ends_line _ _ Ht). unfold ends_in_line in Hend. simpl in Hend.
    simpl. destruct line; [congruence | reflexivity].
  - destruct s as [|c rest].
    + simpl append. rewrite (terminator_ends_line _ _ Ht).
      unfold ends_in_line in Hend. simpl in Hend.
      simpl. destruct line; [congruence | reflexivity].
    + simpl in Hn. cbn [append PyStr.splitlines_from].
      destruct (PyStr.islinebreak c) eqn:Hc.
      * destruct rest as [|d rest'].
        { unfold ends_in_line, last_char in Hend. simpl in Hend. congruence. }
        cbn [append]. f_equal.
        assert (Hend' : ends_in_line "" (String d rest'))
          by exact (ends_in_line_tail _ _ _ _ _ Hend).
        destruct (Char.eqb c (chr 13) && Char.eqb d (chr 10)) eqn:Hcrlf.
        -- destruct rest' as [|x rest''].
           { apply andb_prop in Hcrlf as [_ Hd]. apply char_eqb_eq in Hd. subst d.
             unfold ends_in_line, last_char in Hend'. simpl in Hend'. discriminate Hend'. }
           apply IH; [simpl in *; lia |].
           exact (ends_in_line_tail _ _ _ _ _ Hend').
        -- change (String d (rest' ++ t)) with (String d rest' ++ t).
           apply IH; [lia |]. exact Hend'.
      * apply IH; [lia |].
        destruct rest as [|d rest'].
        -- unfold ends_in_line. simpl. now destruct line.
        -- exact (ends_in_line_tail _ _ _ _ _ Hend).
Qed.

(** X11.  After a text that ends in a character other than a line boundary, one
    final terminator (line feed, carriage return, or both) adds no line:
    [update_results] gives the same outputs. *)
Theorem final_terminator_adds_no_line `{B : Backend} (text t : string) (c : char) :
  is_terminator t ->
  last_char text = Some c -> PyStr.islinebreak c = false ->
  PyStr.splitlines (text ++ t) = PyStr.splitlines text
  /\ update_results (text ++ t) = update_results text.
Proof.
  intros Ht Hlast Hc.
  assert (H : PyStr.splitlines (text ++ t) = PyStr.splitlines text).
  { unfold PyStr.splitlines.
    apply (splitlines_from_terminator t Ht (length text)); [lia |].
    unfold ends_in_line. now rewrite Hlast. }
  split; [exact H |]. unfold update_results. now rewrite H.
Qed.

Lemma final_terminator_adds_no_line_witness :
  update_results (B := Demo.backend) ("3 m to m" ++ CR ++ LF)
  = update_results (B := Demo.backend) "3 m to m".
Proof.
  apply (final_terminator_adds_no_line (B := Demo.backend) "3 m to m" (CR ++ LF) "m");
    [right; right; reflexivity | reflexivity | reflexivity].
Defined.

(** *** Joining the outputs *)

Lemma split_line_feeds_from_plain (s : string) :
  no_linebreak s = true ->
  forall cur rest,
    split_line_feeds_from cur (s ++ rest) =
      split_line_feeds_from (cur ++ s) rest.
Proof.
  induction s as [|c s IH]; intros Hs cur rest.
  - now rewrite append_empty_r.
  - simpl in Hs. apply andb_prop in Hs as [Hc Hs]. cbn [append split_line_feeds_from].
    destruct (char_eqb_spec c (chr 10)) as [-> | _]; [discriminate Hc |].
    rewrite (IH Hs), append_assoc. reflexivity.
Qed.

Lemma split_join_line_feeds (rows : list string) :
  rows <> [] ->
  Forall (fun r => no_linebreak r = true) rows ->
  split_line_feeds (concat LF rows) = rows.
Proof.
  intros Hne Hrows. unfold split_line_feeds.
  induction Hrows as [|r rows Hr Hrows IH]; [now destruct Hne |].
  destruct rows as [|r' rows].
  - cbn [concat]. rewrite <- (append_empty_r r) at 1.
    now rewrite (split_line_feeds_from_plain _ Hr).
  - cbn [concat] in *. rewrite (split_line_feeds_from_plain _ Hr).
    unfold LF at 1. cbn [append split_line_feeds_from Char.eqb]. simpl.
    f_equal. apply IH. discriminate.
Qed.

(** ** The order of floats *)

Lemma compare_antisym (x y : PyFloat.float) :
  PyNum.compare x y = Some Lt -> PyNum.compare y x = Some Gt.
Proof.
  assert (Hz : forall a b, (a ?= b)%Z = Lt -> (b ?= a)%Z = Gt)
    by (intros a b H; now rewrite Z.compare_antisym, H).
  assert (Hfin : forall z1 e1 z2 e2,
    Some (z1 * 2 ^ (e1 - Z.min e1 e2) ?= z2 * 2 ^ (e2 - Z.min e1 e2))%Z = Some Lt ->
    Some (z2 * 2 ^ (e2 - Z.min e2 e1) ?= z1 * 2 ^ (e1 - Z.min e2 e1))%Z = Some Gt).
  { intros z1 e1 z2 e2 H. injection H as H. f_equal.
    rewrite (Z.min_comm e2 e1). now apply Hz. }
  destruct x as [s1 | s1 | | s1 m1 e1], y as [s2 | s2 | | s2 m2 e2];
    unfold PyNum.compare; cbn [PyNum.scaled];
    try discriminate; try apply Hfin;
    try (destruct s1; (discriminate || reflexivity));
    try (destruct s2; (discriminate || reflexivity)).
  destruct s1, s2; cbn; congruence.
Qed.

Lemma lt_irrefl (x : PyFloat.float) : PyNum.lt x x = false.
Proof.
  unfold PyNum.lt.
  destruct x as [s | s | | s m e]; unfold PyNum.compare; cbn [PyNum.scaled];
    try reflexivity.
  - now rewrite Bool.eqb_reflx.
  - now rewrite Z.compare_refl.
Qed.

Lemma lt_asym (x y : PyFloat.float) :
  PyNum.lt x y = true -> PyNum.lt y x = false.
Proof.
  unfold PyNum.lt. intro H.
  destruct (PyNum.compare x y) as [[| |]|] eqn:Hc; try discriminate H.
  now rewrite (compare_antisym _ _ Hc).
Qed.

Lemma max_not_below (a b : PyFloat.float) :
  PyNum.lt (PyNum.max a b) a = false /\ PyNum.lt (PyNum.max a b) b = false.
Proof.
  unfold PyNum.max, PyNum.gt. destruct (PyNum.lt a b) eqn:H.
  - split; [now apply lt_asym | apply lt_irrefl].
  - split; [apply lt_irrefl | exact H].
Qed.

Lemma min_not_above (a b : PyFloat.float) :
  PyNum.lt a (PyNum.min a b) = false /\ PyNum.lt b (PyNum.min a b) = false.
Proof.
  unfold PyNum.min. destruct (PyNum.lt b a) eqn:H.
  - split; [now apply lt_asym | apply lt_irrefl].
  - split; [apply lt_irrefl | exact H].
Qed.

Lemma max_cases (a b : PyFloat.float) : PyNum.max a b = a \/ PyNum.max a b = b.
Proof. unfold PyNum.max. destruct (PyNum.gt b a); auto. Qed.

Lemma min_cases (a b : PyFloat.float) : PyNum.min a b = a \/ PyNum.min a b = b.
Proof. unfold PyNum.min. destruct (PyNum.lt b a); auto. Qed.

(** A value clamped from below and then from above by a bound that is
    itself not below the lower one. *)
Lemma clamp_bounds (p lo d : PyFloat.float) :
  let hi := PyNum.max lo d in
  let r := PyNum.min (PyNum.max p lo) hi in
  PyNum.lt r lo = false /\ PyNum.lt hi r = false.
Proof.
  intros hi r. split; [| apply min_not_above].
  unfold r. destruct (min_cases (PyNum.max p lo) hi) as [-> | ->].
  - apply max_not_below.
  - apply max_not_below.
Qed.

Lemma clamp_fixed (p lo hi : PyFloat.float) :
  PyNum.lt p lo = false -> PyNum.lt hi p = false ->
  PyNum.min (PyNum.max p lo) hi = p.
Proof.
  intros Hlo Hhi. unfold PyNum.max, PyNum.gt. rewrite Hlo.
  unfold PyNum.min. now rewrite Hhi.
Qed.

(** ** The split view delegate *)

(** X12.  For another divider than the first the proposed position is returned.
    For the first, the position is never below the minimum left width and
    never above the greater of that width and the total width less the
    minimum right width, and it is the proposed position or one of these two
    bounds. *)
Theorem split_position_stays_in_range
    (self : _SplitViewDelegate) (split_view : NSSplitView)
    (proposed : PyFloat.float) (divider_index : Z) :
  let position :=
    splitView_constrainSplitPosition_ofSubviewAt_ self split_view proposed
      divider_index in
  let max_position :=
    PyNum.max (_min_left self)
      (PyNum.sub (bounds_size_width split_view) (_min_right self)) in
  (divider_index <> 0%Z -> position = proposed)
  /\ (divider_index = 0%Z ->
      PyNum.lt position (_min_left self) = false
      /\ PyNum.lt max_position position = false
      /\ (position = proposed \/ position = _min_left self
          \/ position = max_position)).
Proof.
  cbv zeta. unfold splitView_constrainSplitPosition_ofSubviewAt_. split.
  - intro H. apply Z.eqb_neq in H. now rewrite H.
  - intros ->. cbn [Z.eqb negb].
    destruct (clamp_bounds proposed (_min_left self)
                (PyNum.sub (bounds_size_width split_view) (_min_right self)))
      as [H1 H2].
    split; [exact H1 |]. split; [exact H2 |].
    destruct (min_cases (PyNum.max proposed (_min_left self))
                (PyNum.max (_min_left self)
                   (PyNum.sub (bounds_size_width split_view) (_min_right self))))
      as [-> | ->]; [| auto].
    destruct (max_cases proposed (_min_left self)) as [-> | ->]; auto.
Qed.

Lemma split_position_stays_in_range_witness :
  splitView_constrainSplitPosition_ofSubviewAt_
    (initWithRatios_ (S754_finite false 9 4) (S754_finite false 9 4))
    {| bounds_size_width := S754_finite false 115 2 |}
    (S754_finite false 5 6) 0
  = PyNum.sub (S754_finite false 115 2) (S754_finite false 9 4)
  /\ splitView_constrainSplitPosition_ofSubviewAt_
       (initWithRatios_ (S754_finite false 9 4) (S754_finite false 9 4))
       {| bounds_size_width := S754_finite false 115 2 |}
       (S754_finite false 5 6) 1
     = S754_finite false 5 6.
Proof.
  pose proof (split_position_stays_in_range
                (initWithRatios_ (S754_finite false 9 4) (S754_finite false 9 4))
                {| bounds_size_width := S754_finite false 115 2 |}
                (S754_finite false 5 6) 1) as [H1 _].
  split; [vm_compute; reflexivity |].
  apply H1. discriminate.
Defined.

(** X13.  A proposed position inside the allowed range is returned as it is,
    and constraining a position twice is the same as constraining it
    once. *)
Theorem split_position_fixed_points
    (self : _SplitViewDelegate) (split_view : NSSplitView)
    (proposed : PyFloat.float) (divider_index : Z) :
  let constrain p :=
    splitView_constrainSplitPosition_ofSubviewAt_ self split_view p divider_index in
  let max_position :=
    PyNum.max (_min_left self)
      (PyNum.sub (bounds_size_width split_view) (_min_right self)) in
  (PyNum.lt proposed (_min_left self) = false ->
   PyNum.lt max_position proposed = false ->
   constrain proposed = proposed)
  /\ constrain (constrain proposed) = constrain proposed.
Proof.
  cbv zeta.
  assert (Hfix : forall p,
    PyNum.lt p (_min_left self) = false ->
    PyNum.lt (PyNum.max (_min_left self)
                (PyNum.sub (bounds_size_width split_view) (_min_right self))) p
    = false ->
    splitView_constrainSplitPosition_ofSubviewAt_ self split_view p divider_index
    = p).
  { intros p Hlo Hhi. unfold splitView_constrainSplitPosition_ofSubviewAt_.
    destruct (negb (divider_index =? 0)%Z); [reflexivity |].
    now apply clamp_fixed. }
  split; [apply Hfix |].
  destruct (Z.eq_dec divider_index 0) as [Hd | Hd].
  - subst divider_index. unfold splitView_constrainSplitPosition_ofSubviewAt_ at 2.
    cbn [Z.eqb negb].
    destruct (clamp_bounds proposed (_min_left self)
                (PyNum.sub (bounds_size_width split_view) (_min_right self)))
      as [H1 H2].
    now apply Hfix.
  - unfold splitView_constrainSplitPosition_ofSubviewAt_.
    apply Z.eqb_neq in Hd. now rewrite Hd.
Qed.

Lemma split_position_fixed_points_witness :
  splitView_constrainSplitPosition_ofSubviewAt_
    (initWithRatios_ (S754_finite false 9 4) (S754_finite false 9 4))
    {| bounds_size_width := S754_finite false 115 2 |}
    (S754_finite false 69 2) 0
  = S754_finite false 69 2.
Proof.
  apply (split_position_fixed_points
           (initWithRatios_ (S754_finite false 9 4) (S754_finite false 9 4))
           {| bounds_size_width := S754_finite false 115 2 |}
           (S754_finite false 69 2) 0); reflexivity.
Defined.

(** X14.  For the first divider the least coordinate is never below the proposed
    one nor the minimum left width, and the greatest coordinate is never
    above the proposed one nor the total width less the minimum right
    width; each is one of the two values it is bounded by. *)
Theorem coordinate_constraints_bound
    (self : _SplitViewDelegate) (split_view : NSSplitView)
    (proposed : PyFloat.float) :
  let lowest :=
    splitView_constrainMinCoordinate_ofSubviewAt_ self split_view proposed 0 in
  let highest :=
    splitView_constrainMaxCoordinate_ofSubviewAt_ self split_view proposed 0 in
  let room := PyNum.sub (bounds_size_width split_view) (_min_right self) in
  PyNum.lt lowest proposed = false
  /\ PyNum.lt lowest (_min_left self) = false
  /\ (lowest = proposed \/ lowest = _min_left self)
  /\ PyNum.lt proposed highest = false
  /\ PyNum.lt room highest = false
  /\ (highest = proposed \/ highest = room).
Proof.
  cbv zeta.
  unfold splitView_constrainMinCoordinate_ofSubviewAt_,
    splitView_constrainMaxCoordinate_ofSubviewAt_. cbn [Z.eqb].
  destruct (max_not_below proposed (_min_left self)) as [H1 H2].
  destruct (min_not_above proposed
              (PyNum.sub (bounds_size_width split_view) (_min_right self)))
    as [H3 H4].
  repeat split; try assumption; [apply max_cases | apply min_cases].
Qed.

(** ** The place of the panel *)

(** X15.  The panel is never placed left of the visible frame, nor below it, nor
    below the place under the status button; when the panel is not wider
    than the visible frame its left edge is not right of the greatest one
    that keeps it inside; and a centred place strictly right of the frame's
    left edge and not beyond that greatest edge is kept. *)
Theorem panel_stays_on_screen (rect_on_screen panel_frame screen_frame : NSRect) :
  let new_x := fst (_position_panel rect_on_screen panel_frame screen_frame) in
  let new_y := snd (_position_panel rect_on_screen panel_frame screen_frame) in
  let min_x := origin_x screen_frame in
  let max_x := greatest_x panel_frame screen_frame in
  let centre := centred_x rect_on_screen panel_frame in
  PyNum.lt new_x min_x = false
  /\ PyNum.lt new_y (origin_y screen_frame) = false
  /\ PyNum.lt new_y
       (PyNum.sub (origin_y rect_on_screen) (size_height panel_frame)) = false
  /\ (PyNum.lt max_x min_x = false -> PyNum.lt max_x new_x = false)
  /\ (PyNum.lt min_x centre = true -> PyNum.lt max_x centre = false ->
      new_x = centre).
Proof.
  cbv zeta. unfold _position_panel. cbn [fst snd].
  fold (centred_x rect_on_screen panel_frame).
  fold (greatest_x panel_frame screen_frame).
  set (c := centred_x rect_on_screen panel_frame).
  set (g := greatest_x panel_frame screen_frame).
  set (m := origin_x screen_frame).
  split; [apply max_not_below |].
  split; [apply max_not_below |].
  split; [apply max_not_below |].
  split.
  - intro Hfit. destruct (max_cases m (PyNum.min c g)) as [-> | ->];
      [exact Hfit | apply min_not_above].
  - intros Hlo Hhi. unfold PyNum.min. rewrite Hhi.
    unfold PyNum.max, PyNum.gt. now rewrite Hlo.
Qed.

Lemma panel_stays_on_screen_witness :
  PyNum.lt (greatest_x sample_panel sample_screen)
    (fst (_position_panel sample_button sample_panel sample_screen)) = false
  /\ fst (_position_panel sample_button sample_panel sample_screen)
     = centred_x sample_button sample_panel.
Proof.
  destruct (panel_stays_on_screen sample_button sample_panel sample_screen)
    as (_ & _ & _ & Hfit & Hcentre).
  split; [apply Hfit; reflexivity | apply Hcentre; reflexivity].
Defined.

Example panel_position_sample :
  PyNum.compare (fst (_position_panel sample_button sample_panel sample_screen))
    (S754_finite false 241 1) = Some Eq
  /\ PyNum.compare (snd (_position_panel sample_button sample_panel sample_screen))
       (S754_finite false 41 4) = Some Eq.
Proof. split; vm_compute; reflexivity. Qed.

(** ** The text views *)

Section TextViews.

Context `{B : Backend}.

Lemma setString_same (views : strings) (view : NSTextView) (text : string) :
  setString_ views view text view = text.
Proof. unfold setString_. now rewrite Nat.eqb_refl. Qed.

Lemma setString_other (views : strings) (view v : NSTextView) (text : string) :
  v <> view -> setString_ views view text v = views v.
Proof. intro H. unfold setString_. apply Nat.eqb_neq in H. now rewrite H. Qed.

Lemma update_result_eq (text_view result_view : NSTextView) (views : strings) :
  _update_result_from_input
    {| _text_view := Some text_view; _result_view := Some result_view |} views
  = Return (setString_ views result_view
              (concat LF (map line_output (PyStr.splitlines (views text_view))))).
Proof.
  unfold _update_result_from_input. cbn [_text_view _result_view].
  now rewrite render_results_eq.
Qed.

Lemma outputs_have_no_boundary (lines : list string) :
  Forall (fun r => no_linebreak r = true) (map line_output lines).
Proof.
  apply Forall_forall. intros r Hin.
  apply in_map_iff in Hin as (line & <- & _). apply line_output_plain.
Qed.

(** X16.  [_update_result_from_input] never raises and changes the string of the
    result view only.  The new string is empty when the input has no line;
    otherwise, cut at its line feeds, it is exactly the list of outputs of
    the input lines, so row i of the result is the output of line i. *)
Theorem result_view_rows_align (text_view result_view : NSTextView)
    (views : strings) :
  exists views',
    _update_result_from_input
      {| _text_view := Some text_view; _result_view := Some result_view |} views
    = Return views'
    /\ (forall v, v <> result_view -> views' v = views v)
    /\ (PyStr.splitlines (views text_view) = [] -> views' result_view = "")
    /\ (PyStr.splitlines (views text_view) <> [] ->
        exists outputs,
          render_results (PyStr.splitlines (views text_view)) = Return outputs
          /\ split_line_feeds (views' result_view) = outputs).
Proof.
  rewrite update_result_eq. eexists. split; [reflexivity |].
  split; [intros v Hv; now apply setString_other |].
  rewrite setString_same. split.
  - intros ->. reflexivity.
  - intro Hne. exists (map line_output (PyStr.splitlines (views text_view))).
    split; [apply render_results_eq |].
    apply split_join_line_feeds; [| apply outputs_have_no_boundary].
    destruct (PyStr.splitlines (views text_view)); [now destruct Hne | discriminate].
Qed.

(** X17.  [handle_text_change] never raises and changes at most the string
    of the result view.  A change reported by a view that is not the input
    view of the application changes nothing.  One reported by the input
    view, when the result view is another view, leaves the input as it is
    and sets the result to the outputs of the input lines joined by line
    feeds; reported again, it changes nothing more. *)
Theorem text_change_updates_result_view (self : ToolbarApp)
    (text_view : NSTextView) (views : strings) :
  exists views',
    handle_text_change self text_view views = Return views'
    /\ (forall v, _result_view self <> Some v -> views' v = views v)
    /\ (_text_view self <> Some text_view -> forall v, views' v = views v)
    /\ (forall result_view,
          _text_view self = Some text_view ->
          _result_view self = Some result_view ->
          text_view <> result_view ->
          views' text_view = views text_view
          /\ (exists outputs,
                render_results (PyStr.splitlines (views text_view)) = Return outputs
                /\ views' result_view = concat LF outputs)
          /\ exists views'',
               handle_text_change self text_view views' = Return views''
               /\ forall v, views'' v = views' v).
Proof.
  destruct self as [[own |] [res |]]; unfold handle_text_change;
    cbn [_text_view _result_view].
  - destruct (Nat.eqb_spec text_view own) as [-> | Hne].
    + rewrite update_result_eq. eexists. split; [reflexivity |].
      split; [| split].
      * intros v Hv. apply setString_other. congruence.
      * congruence.
      * intros result_view _ [= ->] Hdiff.
        split; [now apply setString_other |]. split.
        -- exists (map line_output (PyStr.splitlines (views own))).
           split; [apply render_results_eq | apply setString_same].
        -- rewrite update_result_eq. eexists. split; [reflexivity |].
           intro v. rewrite (setString_other _ _ own) by exact Hdiff.
           unfold setString_. destruct (v =? result_view)%nat; reflexivity.
    + exists views. split; [reflexivity |]. split; [reflexivity |].
      split; [reflexivity |]. intros result_view [= Heq]. congruence.
  - destruct (Nat.eqb_spec text_view own) as [-> | Hne];
      (exists views; split; [reflexivity |]; split; [reflexivity |];
       split; [reflexivity |]; intros result_view _ Hr; discriminate Hr).
  - exists views. split; [reflexivity |]. split; [reflexivity |].
    split; [reflexivity |]. intros result_view Ht. discriminate Ht.
  - exists views. split; [reflexivity |]. split; [reflexivity |].
    split; [reflexivity |]. intros result_view Ht. discriminate Ht.
Qed.

(** X18.  When the input view and the result view are different objects,
    updating the result twice leaves every view as the first update left
    it. *)
Theorem update_result_idempotent (text_view result_view : NSTextView)
    (views : strings) :
  text_view <> result_view ->
  let self := {| _text_view := Some text_view; _result_view := Some result_view |} in
  exists views' views'',
    _update_result_from_input self views = Return views'
    /\ _update_result_from_input self views' = Return views''
    /\ forall v, views'' v = views' v.
Proof.
  intro Hne. cbv zeta. rewrite update_result_eq. eexists. eexists.
  split; [reflexivity |]. rewrite update_result_eq. split; [reflexivity |].
  intro v. rewrite (setString_other _ _ text_view) by exact Hne.
  unfold setString_. destruct (v =? result_view)%nat; reflexivity.
Qed.

End TextViews.

Lemma update_result_idempotent_witness :
  exists views' views'',
    _update_result_from_input (B := Demo.backend)
      {| _text_view := Some 0%nat; _result_view := Some 1%nat |}
      (fun _ => "3 m to m") = Return views'
    /\ _update_result_from_input (B := Demo.backend)
         {| _text_view := Some 0%nat; _result_view := Some 1%nat |}
         views' = Return views''
    /\ forall v, views'' v = views' v.
Proof.
  apply (update_result_idempotent (B := Demo.backend) 0 1 (fun _ => "3 m to m")).
  discriminate.
Defined.

Lemma text_change_updates_result_view_witness :
  exists views',
    handle_text_change (B := Demo.backend)
      {| _text_view := Some 0%nat; _result_view := Some 1%nat |} 5
      (fun _ => "3 m to m")
    = Return views'
    /\ forall v, views' v = "3 m to m".
Proof.
  destruct (text_change_updates_result_view (B := Demo.backend)
              {| _text_view := Some 0%nat; _result_view := Some 1%nat |} 5
              (fun _ => "3 m to m")) as (views' & Hh & _ & Hother & _).
  exists views'. split; [exact Hh |]. apply Hother. discriminate.
Defined.

Lemma result_view_rows_align_witness :
  exists views',
    _update_result_from_input (B := Demo.backend)
      {| _text_view := Some 0%nat; _result_view := Some 1%nat |}
      (fun v => if (v =? 0)%nat then "3 m to m" ++ LF ++ "bad" ++ LF ++ "12 in to mm"
                else "old")
    = Return views'
    /\ split_line_feeds (views' 1%nat) = ["3"; ""; "304.8"].
Proof.
  destruct (result_view_rows_align (B := Demo.backend) 0 1
              (fun v => if (v =? 0)%nat
                        then "3 m to m" ++ LF ++ "bad" ++ LF ++ "12 in to mm"
                        else "old"))
    as (views' & Hu & _ & _ & Hrows).
  exists views'. split; [exact Hu |].
  destruct Hrows as (outputs & Hr & Hs); [vm_compute; discriminate |].
  rewrite Hs. vm_compute in Hr. now injection Hr as <-.
Defined.

(** ** The menus *)

Lemma itemWithTitle_added (menu : NSMenu) (item : NSMenuItem) (title : string) :
  itemWithTitle_ (addItem_ menu item) title =
    match itemWithTitle_ menu title with
    | Some found => Some found
    | None => if String.eqb (item_title item) title then Some item else None
    end.
Proof.
  destruct menu as [t items]. unfold itemWithTitle_. cbn [addItem_ itemArray].
  induction items as [|x items IH]; cbn [app find].
  - destruct (String.eqb (item_title item) title); reflexivity.
  - destruct (String.eqb (item_title x) title); [reflexivity | exact IH].
Qed.

Lemma itemArray_added (menu : NSMenu) (item : NSMenuItem) :
  itemArray (addItem_ menu item) = (itemArray menu ++ [item])%list.
Proof. now destruct menu. Qed.

(** X19.  After [_ensure_edit_menu] there is a main menu with an item titled
    "Edit"; its items are those it had before, followed by one new item
    only if none was titled "Edit"; and running it again changes
    nothing. *)
Theorem edit_menu_ensured_once (mainMenu : option NSMenu) :
  let before := match mainMenu with Some m => itemArray m | None => [] end in
  exists menu,
    _ensure_edit_menu mainMenu = Some menu
    /\ is_some (itemWithTitle_ menu "Edit") = true
    /\ (itemArray menu = before
        \/ exists edit_item, itemArray menu = (before ++ [edit_item])%list
                             /\ itemWithTitle_ (Menu "" before) "Edit" = None)
    /\ _ensure_edit_menu (Some menu) = Some menu.
Proof.
  cbv zeta. unfold _ensure_edit_menu at 1.
  set (main_menu := match mainMenu with
                    | Some m => m | None => Menu "MainMenu" [] end).
  assert (Hitems : match mainMenu with Some m => itemArray m | None => [] end
                   = itemArray main_menu) by (destruct mainMenu; reflexivity).
  rewrite Hitems.
  destruct (is_some (itemWithTitle_ main_menu "Edit")) eqn:Hfound.
  - exists main_menu. split; [reflexivity |]. split; [exact Hfound |].
    split; [now left |].
    unfold _ensure_edit_menu. now rewrite Hfound.
  - eexists. split; [reflexivity |].
    assert (Hnow : forall item,
      item_title item = "Edit" ->
      is_some (itemWithTitle_ (addItem_ main_menu item) "Edit") = true).
    { intros item Ht. rewrite itemWithTitle_added.
      destruct (itemWithTitle_ main_menu "Edit"); [reflexivity |].
      now rewrite Ht. }
    split; [now apply Hnow |]. split.
    + right. eexists. split; [apply itemArray_added |].
      unfold itemWithTitle_ in *. cbn [itemArray].
      destruct (find _ (itemArray main_menu)); [discriminate Hfound | reflexivity].
    + unfold _ensure_edit_menu. now rewrite Hnow.
Qed.

Lemma edit_menu_present (mainMenu : option NSMenu) :
  exists menu,
    _ensure_edit_menu mainMenu = Some menu
    /\ is_some (itemWithTitle_ menu "Edit") = true
    /\ _ensure_edit_menu (Some menu) = Some menu.
Proof.
  unfold _ensure_edit_menu at 1.
  set (main_menu := match mainMenu with
                    | Some m => m | None => Menu "MainMenu" [] end).
  destruct (is_some (itemWithTitle_ main_menu "Edit")) eqn:Hfound.
  - exists main_menu. split; [reflexivity |]. split; [exact Hfound |].
    unfold _ensure_edit_menu. now rewrite Hfound.
  - eexists. split; [reflexivity |].
    assert (Hnow : forall item,
      item_title item = "Edit" ->
      is_some (itemWithTitle_ (addItem_ main_menu item) "Edit") = true).
    { intros item Ht. rewrite itemWithTitle_added.
      destruct (itemWithTitle_ main_menu "Edit"); [reflexivity |].
      now rewrite Ht. }
    split; [now apply Hnow |].
    unfold _ensure_edit_menu. now rewrite Hnow.
Qed.

(** X20.  [_ensure_window_menu] does nothing without a main menu.  Run after
    [_ensure_edit_menu], as [__init__] does, it leaves a main menu with both
    an "Edit" and a "Window" item, and running the two again changes
    nothing. *)
Theorem menus_ensured_in_order (_panel : option nat) (mainMenu : option NSMenu) :
  _ensure_window_menu _panel None = None
  /\ exists menu,
       _ensure_window_menu _panel (_ensure_edit_menu mainMenu) = Some menu
       /\ is_some (itemWithTitle_ menu "Edit") = true
       /\ is_some (itemWithTitle_ menu "Window") = true
       /\ _ensure_window_menu _panel (_ensure_edit_menu (Some menu)) = Some menu.
Proof.
  split; [reflexivity |].
  destruct (edit_menu_present mainMenu) as (m & Hm & Hedit & Hagain).
  rewrite Hm. unfold _ensure_window_menu at 1.
  destruct (is_some (itemWithTitle_ m "Window")) eqn:Hw.
  - exists m. split; [reflexivity |]. split; [exact Hedit |]. split; [exact Hw |].
    rewrite Hagain. unfold _ensure_window_menu. now rewrite Hw.
  - eexists. split; [reflexivity |].
    assert (He : forall item,
      is_some (itemWithTitle_ (addItem_ m item) "Edit") = true).
    { intro item. rewrite itemWithTitle_added.
      destruct (itemWithTitle_ m "Edit"); [reflexivity | discriminate Hedit]. }
    assert (Hn : forall item,
      item_title item = "Window" ->
      is_some (itemWithTitle_ (addItem_ m item) "Window") = true).
    { intros item Ht. rewrite itemWithTitle_added.
      destruct (itemWithTitle_ m "Window"); [reflexivity |]. now rewrite Ht. }
    split; [apply He |]. split; [now apply Hn |].
    unfold _ensure_edit_menu. rewrite He.
    unfold _ensure_window_menu. now rewrite Hn.
Qed.

Example fresh_menus :
  _ensure_window_menu (Some 7%nat) (_ensure_edit_menu None)
  = Some (Menu "MainMenu"
      [MenuItem "Edit" None "" None None
         (Some (Menu "Edit"
            [MenuItem "Cut" (Some "cut:") "x" (Some NSEventModifierFlagCommand) None None;
             MenuItem "Copy" (Some "copy:") "c" (Some NSEventModifierFlagCommand) None None;
             MenuItem "Paste" (Some "paste:") "v" (Some NSEventModifierFlagCommand) None None;
             separatorItem;
             MenuItem "Select All" (Some "selectAll:") "a"
               (Some NSEventModifierFlagCommand) None None]));
       MenuItem "Window" None "" None None
         (Some (Menu "Window"
            [MenuItem "Close Window" (Some "performClose:") "w"
               (Some NSEventModifierFlagCommand) (Some 7%nat) None]))]).
Proof. reflexivity. Qed.
